(* ===== verification/_CoqProject ===== *)
-Q . S2P
Prelude.v
Utf8.v
Civil.v
ICalTime.v
TimeNorm.v
Backend.v
Query.v
FakeBackend.v
Event.v
Sort.v
Json.v
Extractor.v
FakeService.v
ListCalendars.v
GiEnv.v
CheckCalendar.v
Stderr.v
Output.v
Argv.v
Programs.v
Widget.v
