(* ===== verification/Prelude.v ===== *)
(** * A verified model of the noctalia-shell calendar helper scripts

    ** The program

    Three Python scripts under [src/eggs/quickshell/noctalia-shell/Bin/]
    feed the calendar widget of a status bar:
    - [calendar-events.py <start> <end>] opens the evolution-data-server
      source registry, walks the calendar sources, skips the disabled ones,
      connects to each other one, asks it for the events that occur in the
      range with an S-expression query whose bounds are UTC stamps
      [YYYYMMDDTHHMMSSZ], turns every returned component into a record
      [{summary, start, end, location, description, calendar}] (with
      [safe_get_time] turning each iCalendar time into a Unix timestamp),
      sorts the records by [start] and prints them as JSON;
    - [list-calendars.py] prints [{uid, name, enabled}] for every enabled
      source;
    - [check-calendar.py] prints [available] or [unavailable: <reason>].
    The scripts share no state; they meet only through the registry they
    read.  The calendar service, libical and the Python runtime are
    collaborators, modelled by the behaviour the scripts rely on.

    ** The library, in dependency order

    - [Prelude] (this file): Python's exceptions ([PyExc]); an exception
      monad [exc] and a state-and-exception monad [stexc] whose handler
      [st_catch] keeps the state of a failed [try] body, with notations in
      [exc_scope]; Python's [or] on strings; bounded checking by reflection
      ([all_range]); the tactics [zbool], [zsimpl], [zdiv]; the hint
      databases [monads] (unfolding the monad operations) and [lists]
      (rewriting appends); the views of a [fold_left] ([fold_left_view]).
    - [Civil]: the calendar arithmetic of CPython's [datetime]
      ([_is_leap], [_days_in_month], [_ymd2ord], [_ord2ymd] as [ymd2ord],
      [ord2ymd]), the constructor's checks ([datetime_utc]), [timestamp()]
      and [datetime.fromtimestamp(t, tz=utc)] ([gmtime],
      [fromtimestamp_utc]).
    - [ICalTime]: libical's [icaltimetype] and [convert_to_zone] to UTC,
      with [icaltime_adjust] and its loops over months, against a
      time-zone database class [TzDatabase].
    - [TimeNorm]: [safe_get_time] (lines 21-49), with [time.mktime]
      against a class [LocalZone] for the process's local zone.
    - [Backend]: the calls of the scripts into evolution-data-server as the
      class [CalendarBackend]; the source, component and object data.
    - [Query]: lines 76-82, the UTC stamps and the S-expression query, and
      a parser of the query for the service's side.
    - [FakeBackend]: an in-memory [CalendarBackend] whose object list
      evaluates the query ([occur-in-time-range?] as interval overlap).
    - [Event]: the per-object body of the main loop (lines 94-130) over
      the state [run_state] (the shared [all_events] list and the stderr
      lines [diag]).
    - [Sort]: [list.sort(key=start)] (line 138) as a stable insertion sort.
    - [Utf8]: the texts as the UTF-8 bytes the service hands over, and the
      strict decoding PyGObject applies to make a [str].
    - [Json]: [json.dumps] as CPython's C encoder runs it with the default
      arguments ([ensure_ascii], separators, key order, [int] repr), the
      line [print] writes, and a JSON reader for the widget's side.
    - [Extractor]: the source loop (lines 58-135) and the whole script
      ([calendar_events]).
    - [FakeService]: [calendar_events] run against [FakeBackend].
    - [ListCalendars]: the body of [list-calendars.py].
    - [GiEnv]: the start-up of the three scripts ([import gi],
      [gi.require_version], [from gi.repository import]) over one
      environment [py_env] of installed modules and typelibs.
    - [CheckCalendar]: [check-calendar.py].
    - [Stderr]: the text of the diagnostic lines of [calendar-events.py].
    - [Output]: the dictionaries of the records and calendars as
      [json.dumps] sees them, the lines the two listing scripts print
      (line 140 of [calendar-events.py], line 21 of [list-calendars.py]),
      and the widget's reading of them.
    - [Argv]: lines 14-15, [int(sys.argv[i])] in base 10 of the decoded
      arguments (Unicode digits and spaces included) and the [IndexError]
      of a missing one, composed with the script into
      [calendar_events_main], from [sys.argv] to stdout.
    - [Programs]: [calendar-events.py] and [list-calendars.py] with their
      start-up, from the environment and [sys.argv] to stdout.
    - [Widget]: the widget's run of [calendar-events.py], end to end,
      against the in-memory service.
    Every definition that translates code keeps the source's name where
    Rocq allows it; PROJECT.json maps each one to its lines.

    ** What the theorems show

    - The script: when the registry lists its sources and their names
      decode, the output is the stable sort by start of what each source
      contributes, in source order ([calendar_events_output]); against
      the spec, one calendar whose name is not UTF-8 is fatal
      ([undecodable_name_fatal]); it is sorted, stable, every record
      comes from an enabled source and has [end <> start]; a calendar
      whose connection fails, and an object whose reading raises, are
      skipped without affecting the others; stderr ends the processing of every source with exactly
      one final line, in registry order ([calendar_events_reports]).
    - The records: the end defaults to start + 3600 when missing, unreadable
      or equal to the start, and is otherwise kept as read, so, against
      the spec, a record can end before it starts ([event_end_kept]); the
      summary defaults to "(No title)"; the [Processed N events] lines
      count objects, not events ([process_events_progress]); an object
      returned as text never yields a record, nor does one whose texts
      are not UTF-8.
    - Diagnostics: the count on a calendar's [Finished processing] line
      also counts the records of earlier calendars of the same name
      ([finished_count_namesakes]).
    - [safe_get_time], branch by branch: UTC and floating values give the
      timestamp of their fields, values of a named zone the instant they
      denote, DATE values local midnight; timed results lie in
      [[0, 4133980800)]; a DATE such as Feb 30 is read into March.
    - libical: the loops of [icaltime_adjust] always exit within their
      fuel, and compute [gmtime] of the shifted time for fields in range
      in Gregorian years; the conversion of a zoned time normalises its
      fields before the range check, so, against the spec, a malformed
      date such as November 31st is accepted in a named zone and refused
      in UTC ([malformed_zoned_time_accepted]).
    - Output: the line each listing script prints is one line of
      printable ASCII; on every run it is empty or reads as a JSON array
      of the spec's [EventRecord] shape ([calendar_events_stdout_typed]),
      and the widget reads back from it exactly the records, or calendars, the
      script built, in order.
    - End to end: the widget that runs the script with [str(start)] and
      [str(end)] on a complete environment reads back from its stdout the
      sorted records of exactly the objects of the in-memory service that
      overlap the range, in the enabled calendars the script reaches, for
      every range in the years 1000..9999 ([widget_reads_fake_events]).
    - The command line: run with [str(start)] and [str(end)], as the
      widget runs it, the script prints what it prints for that range
      when neither has more than 4300 digits
      ([calendar_events_main_args]); beyond that limit of [int()], or with
      a missing argument, it prints nothing.
    - Stderr: a run that prints its list ends its diagnostics with the
      count of the records it prints ([stderr_announces_output]).
    - Start-up: [available] from [check-calendar.py] means
      [list-calendars.py] gets past its imports, and so does
      [calendar-events.py] when ICalGLib 3.0, which the check does not ask
      for, loads too ([available_programs_start]).
    - Round trips: [_ord2ymd]/[_ymd2ord] in both directions,
      [fromtimestamp]/[timestamp] in both directions, and the query: the
      service reads back exactly the script's two timestamps when their
      years have four digits; glibc's [%Y] writes fewer for the years
      1..999, and the service refuses that query
      ([query_of_range_short_year]).
    - Sorting: any stable sort by start equals the model's, so the model
      is Python's [list.sort].
    - The other scripts: [list-calendars.py] lists exactly the calendars
      [calendar-events.py] connects to; [check-calendar.py] prints only
      [available] or [unavailable: <ImportError>], and dies, against the
      spec, when a typelib is missing.

    ** Bounds and evaluation

    The calendar proofs reduce the 400-year period of the Gregorian
    calendar to arithmetic ([lia] after [Z.div_mod_to_equations]) and a
    table of 365 days checked by evaluation ([all_range], a few hundred
    evaluations, cheap for the kernel checker).  Every loop of the scripts
    is a fold over a finite list.  Fuel appears in libical's day loops
    (the day count, proved enough by [icaltime_adjust_normalized]) and in
    the JSON reader (the length of the text, proved enough for every value
    [json.dumps] writes).  Integers are
    Python's unbounded [int], so [Z] without wrap-around; the [datetime]
    range (years 1..9999), the four-digit years of the query (1000..9999),
    the script's range (1970..2100) and the 4300 digits [int()] accepts
    are the bounds that matter and are stated in the theorems; a timestamp
    [datetime] accepts has at most twelve digits
    ([fromtimestamp_abs_bound]).

    ** Not modelled

    The real calendar service (only its interface and a fake) and its
    recurrence expansion; libical's zone database (a class of offsets:
    libical's search of a zone's transitions is C code outside the
    repository); the message of a [UnicodeDecodeError] (the byte and its
    position) and the traceback Python writes when a script dies; C's 32-bit [int] in [icaltime_adjust]
    (the offsets involved are far below its range); the algorithm of
    [list.sort] itself (TimSort, in CPython's C runtime): [Sort] proves
    that every stable sort returns the model's result, which is all the
    script relies on; the typelib repository of GObject introspection
    (how typelibs are found and their dependencies loaded), abstracted by
    the environment [py_env]; the Unicode tables of [int()] are those of
    Unicode 15.0 (CPython 3.12), other versions add digits of new scripts;
    [sys.set_int_max_str_digits] is never called, so [int()] keeps its
    default limit of 4300 digits.  The summary of an [ECal.Component] is
    an [ECal.ComponentText] object that no record can hold; the model
    passes no text for it, which changes nothing the script does, since
    such a component never gives a record.

    ** Further work

    Every statement of the three scripts is translated.  What remains is
    outside the repository: the calendar service and libical's zone
    database, which the development takes as the classes
    [CalendarBackend] and [TzDatabase]. *)

From Stdlib Require Import ZArith List String Bool Lia.
Import ListNotations.
Open Scope Z_scope.

(** ** Exceptions of the Python runtime *)

(** The exceptions the modelled code can raise or catch.  Only the class
    matters to the handlers of the scripts; the payload is the text
    [str(e)] gives (for a [GLib.Error], [domain: message (code)]). *)
Inductive PyExc : Type :=
| ValueError (msg : string)
| OverflowError (msg : string)
| AttributeError (attr : string)
| ImportError (msg : string)
| IndexError (msg : string)
| UnicodeDecodeError (msg : string)
| GLibError (msg : string).

(** A computation that returns a value or raises. *)
Inductive exc (A : Type) : Type :=
| Ok (a : A)
| Raise (e : PyExc).
Arguments Ok {A} a.
Arguments Raise {A} e.

Definition exc_bind {A B} (c : exc A) (k : A -> exc B) : exc B :=
  match c with
  | Ok a => k a
  | Raise e => Raise e
  end.

(** [try: c  except Exception: h] *)
Definition exc_catch {A} (c : exc A) (h : PyExc -> A) : A :=
  match c with
  | Ok a => a
  | Raise e => h e
  end.

Declare Scope exc_scope.
Delimit Scope exc_scope with exc.
Notation "x <- c ;; k" := (exc_bind c (fun x => k))
  (at level 61, c at next level, right associativity) : exc_scope.
Notation "' p <- c ;; k" := (exc_bind c (fun x => match x with p => k end))
  (at level 61, p pattern, c at next level, right associativity) : exc_scope.

(** ** State and exceptions

    Python code that mutates a shared object inside a [try] keeps the
    mutations made before an exception.  [stexc S A] threads the state [S]
    through the computation and returns it also when the computation
    raises. *)
Definition stexc (S A : Type) : Type := S -> exc A * S.

Definition st_ret {S A} (a : A) : stexc S A := fun s => (Ok a, s).
Definition st_raise {S A} (e : PyExc) : stexc S A := fun s => (Raise e, s).
Definition st_lift {S A} (c : exc A) : stexc S A := fun s => (c, s).
Definition st_modify {S} (f : S -> S) : stexc S unit := fun s => (Ok tt, f s).
Definition st_bind {S A B} (c : stexc S A) (k : A -> stexc S B) : stexc S B :=
  fun s => match c s with
           | (Ok a, s') => k a s'
           | (Raise e, s') => (Raise e, s')
           end.
(** [try: c  except Exception as e: h e]: the handler runs on the state
    the failed computation left behind. *)
Definition st_catch {S} (c : stexc S unit) (h : PyExc -> S -> S) : S -> S :=
  fun s => match c s with
           | (Ok _, s') => s'
           | (Raise e, s') => h e s'
           end.

Notation "x <-- c ;;; k" := (st_bind c (fun x => k))
  (at level 61, c at next level, right associativity) : exc_scope.
Notation "c ;;; k" := (st_bind c (fun _ => k))
  (at level 61, right associativity) : exc_scope.

(** ** Python values *)

(** [s or d] on a string that may be [None]: both [None] and the empty
    string are false in Python. *)
Definition py_or_str (o : option string) (d : string) : string :=
  match o with
  | Some s => if String.eqb s EmptyString then d else s
  | None => d
  end.

(** The list of the value of an option: [[x]] or [[]]. *)
Definition list_of_option {A} (o : option A) : list A :=
  match o with Some x => [x] | None => [] end.

(** [x is not None] *)
Definition isSome {A} (o : option A) : bool :=
  match o with Some _ => true | None => false end.

(** ** Bounded checking by reflection

    [all_range f p lo] tests [f] on the [Zpos p] integers from [lo].  It
    recurses on the binary digits of [p], so a range of a few hundred
    thousand values evaluates under [vm_compute]. *)
Fixpoint all_range (f : Z -> bool) (p : positive) (lo : Z) : bool :=
  match p with
  | xH => f lo
  | xO q => all_range f q lo && all_range f q (lo + Zpos q)
  | xI q => f lo && all_range f q (lo + 1) && all_range f q (lo + 1 + Zpos q)
  end.

(** ** Tactics *)

(** Replace every boolean comparison on [Z] in the goal and the context by
    the case analysis on the proposition it decides. *)
Ltac zbool :=
  repeat match goal with
  | |- context [Z.leb ?a ?b] => destruct (Z.leb_spec a b)
  | |- context [Z.ltb ?a ?b] => destruct (Z.ltb_spec a b)
  | |- context [Z.eqb ?a ?b] => destruct (Z.eqb_spec a b)
  | H : context [Z.leb ?a ?b] |- _ => destruct (Z.leb_spec a b)
  | H : context [Z.ltb ?a ?b] |- _ => destruct (Z.ltb_spec a b)
  | H : context [Z.eqb ?a ?b] |- _ => destruct (Z.eqb_spec a b)
  end.

(** Reduce the constant parts of a goal without unfolding the arithmetic
    operators applied to variables. *)
Ltac zsimpl := cbn -[Z.add Z.sub Z.mul Z.div Z.modulo Z.opp] in *.

(** Linear arithmetic with [/] and [mod] by constants. *)
Ltac zdiv := Z.div_mod_to_equations; lia.

(** The operations of the two monads, for [autounfold]: a proof about a
    handler unfolds them all at once and then cases on the calls. *)
Create HintDb monads.
#[export] Hint Unfold exc_bind st_ret st_raise st_lift st_modify st_bind st_catch : monads.

(** Rewriting of lists built by appending, as the logs and the record
    lists are: [autorewrite with lists]. *)
Create Rewrite HintDb lists.
#[export] Hint Rewrite app_nil_r flat_map_app : lists.
#[export] Hint Rewrite <- app_assoc : lists.

(** ** Generic lemmas *)

Lemma all_range_spec f p lo :
  all_range f p lo = true -> forall z, lo <= z < lo + Zpos p -> f z = true.
Proof.
  revert lo; induction p as [q IH | q IH |]; intros lo H z Hz; simpl in H;
    repeat rewrite andb_true_iff in H.
  - rewrite Pos2Z.inj_xI in Hz. destruct H as [[H0 H1] H2].
    destruct (Z.eq_dec z lo) as [->|]; [exact H0|].
    destruct (Z.lt_ge_cases z (lo + 1 + Zpos q)).
    + apply (IH (lo + 1)); [exact H1 | lia].
    + apply (IH (lo + 1 + Zpos q)); [exact H2 | lia].
  - rewrite Pos2Z.inj_xO in Hz. destruct H as [H1 H2].
    destruct (Z.lt_ge_cases z (lo + Zpos q)).
    + apply (IH lo); [exact H1 | lia].
    + apply (IH (lo + Zpos q)); [exact H2 | lia].
  - replace z with lo by lia. exact H.
Qed.

Lemma string_app_assoc (a b c : string) : ((a ++ b) ++ c = a ++ (b ++ c))%string.
Proof. induction a as [|x a IH]; simpl; [reflexivity | now rewrite IH]. Qed.

Lemma string_app_nil_r (a : string) : (a ++ EmptyString = a)%string.
Proof. induction a as [|x a IH]; simpl; [reflexivity | now rewrite IH]. Qed.

Lemma exc_bind_Ok {A B} (c : exc A) (k : A -> exc B) b :
  exc_bind c k = Ok b -> exists a, c = Ok a /\ k a = Ok b.
Proof. destruct c; simpl; [eauto | discriminate]. Qed.

Lemma py_or_str_nonempty o d :
  d <> EmptyString -> py_or_str o d <> EmptyString.
Proof.
  destruct o as [s|]; simpl; [|auto].
  destruct (String.eqb_spec s EmptyString); auto.
Qed.

Lemma option_map_cons_Some {A} (x : A) o l :
  option_map (cons x) o = Some l -> exists l', o = Some l' /\ l = x :: l'.
Proof. destruct o as [l'|]; simpl; [intros [= <-]; eauto | discriminate]. Qed.

Lemma forallb_impl {A} (p q : A -> bool) l :
  (forall x, p x = true -> q x = true) -> forallb p l = true -> forallb q l = true.
Proof.
  intros H. rewrite !forallb_forall. auto.
Qed.

(** A view of the state of a [fold_left] whose step appends [g x] to the
    view: the loop appends [g] of every element, in order.  The loops
    over the sources and their views (records, connections, final lines)
    are instances. *)
Lemma fold_left_view {S A B} (step : S -> A -> S) (view : S -> list B) (g : A -> list B) :
  (forall s x, view (step s x) = view s ++ g x) ->
  forall l s, view (fold_left step l s) = view s ++ flat_map g l.
Proof.
  intros Hstep l; induction l as [|x l IH]; intros s; cbn [fold_left flat_map].
  - now autorewrite with lists.
  - rewrite IH, Hstep. now autorewrite with lists.
Qed.

Lemma flat_map_filter {A B} (p : A -> bool) (f : A -> B) l :
  flat_map (fun x => if p x then [f x] else []) l = map f (filter p l).
Proof. induction l as [|x l IH]; cbn; [|destruct (p x)]; now rewrite ?IH. Qed.

Lemma flat_map_single {A B} (f : A -> B) l : flat_map (fun x => [f x]) l = map f l.
Proof. induction l as [|x l IH]; cbn; now rewrite ?IH. Qed.
