(* ===== verification/Utf8.v ===== *)
(** * Utf8: Python strings and the bytes the calendar service hands over

    The texts the scripts print (summaries, locations, descriptions,
    calendar names, uids) reach Python through PyGObject, which turns the
    service's NUL-terminated UTF-8 [gchar *] into a [str] with CPython's
    strict UTF-8 decoder.  The development keeps a text as its UTF-8 bytes
    (a [string] of the Standard Library, one [ascii] per byte) and gives
    here the decoding to the code points Python sees ([utf8_decode], the
    arithmetic of CPython's [Objects/stringlib/codecs.h]) and the encoding
    back ([utf8_encode]).  Decoding succeeds exactly on well-formed UTF-8
    and yields Unicode scalar values (no surrogates, nothing above
    U+10FFFF); the two functions are inverse on these.  [py_text] is the
    conversion itself, as the accessors perform it: the text, or
    [UnicodeDecodeError]. *)

From Stdlib Require Import ZArith String Ascii List Bool Lia.
From S2P Require Import Prelude.
Import ListNotations.
Open Scope Z_scope.

(** The value of a byte, and the byte of a value in [[0, 256)]. *)
Definition byte_of (a : ascii) : Z := Z.of_nat (nat_of_ascii a).
Definition byte (b : Z) : ascii := ascii_of_nat (Z.to_nat b).

(** A UTF-16 surrogate, which no scalar value is. *)
Definition is_surrogate (c : Z) : bool := (0xD800 <=? c) && (c <=? 0xDFFF).

(** A Unicode scalar value: what a decoded [str] holds. *)
Definition is_scalar (c : Z) : bool := (0 <=? c) && (c <? 0x110000) && negb (is_surrogate c).

(** A continuation byte [10xxxxxx]. *)
Definition is_cont (b : Z) : bool := (0x80 <=? b) && (b <? 0xC0).

(** Strict decoding: the lead byte gives the length, every following byte
    must be a continuation byte, and the code point must not be overlong,
    a surrogate or above U+10FFFF. *)
Fixpoint utf8_decode (s : string) : option (list Z) :=
  match s with
  | EmptyString => Some []
  | String a r =>
      let b0 := byte_of a in
      if b0 <? 0x80 then option_map (cons b0) (utf8_decode r)
      else if b0 <? 0xC2 then None
      else if b0 <? 0xE0 then
        match r with
        | String a1 r1 =>
            let b1 := byte_of a1 in
            if is_cont b1
            then option_map (cons ((b0 - 0xC0) * 64 + (b1 - 0x80))) (utf8_decode r1)
            else None
        | EmptyString => None
        end
      else if b0 <? 0xF0 then
        match r with
        | String a1 (String a2 r2) =>
            let b1 := byte_of a1 in let b2 := byte_of a2 in
            let c := (b0 - 0xE0) * 4096 + (b1 - 0x80) * 64 + (b2 - 0x80) in
            if is_cont b1 && is_cont b2 && (0x800 <=? c) && negb (is_surrogate c)
            then option_map (cons c) (utf8_decode r2)
            else None
        | _ => None
        end
      else if b0 <? 0xF5 then
        match r with
        | String a1 (String a2 (String a3 r3)) =>
            let b1 := byte_of a1 in let b2 := byte_of a2 in let b3 := byte_of a3 in
            let c := (b0 - 0xF0) * 262144 + (b1 - 0x80) * 4096 + (b2 - 0x80) * 64
                     + (b3 - 0x80) in
            if is_cont b1 && is_cont b2 && is_cont b3 && (0x10000 <=? c) && (c <=? 0x10FFFF)
            then option_map (cons c) (utf8_decode r3)
            else None
        | _ => None
        end
      else None
  end.

(** The UTF-8 bytes of one code point ([str.encode('utf-8')]). *)
Definition utf8_encode_char (c : Z) : string :=
  if c <? 0x80 then String (byte c) EmptyString
  else if c <? 0x800 then
    String (byte (0xC0 + c / 64)) (String (byte (0x80 + c mod 64)) EmptyString)
  else if c <? 0x10000 then
    String (byte (0xE0 + c / 4096))
      (String (byte (0x80 + (c / 64) mod 64)) (String (byte (0x80 + c mod 64)) EmptyString))
  else
    String (byte (0xF0 + c / 262144))
      (String (byte (0x80 + (c / 4096) mod 64))
         (String (byte (0x80 + (c / 64) mod 64)) (String (byte (0x80 + c mod 64)) EmptyString))).

Fixpoint utf8_encode (cs : list Z) : string :=
  match cs with
  | [] => EmptyString
  | c :: r => (utf8_encode_char c ++ utf8_encode r)%string
  end.

(** A text is valid when it decodes. *)
Definition valid_utf8 (s : string) : bool :=
  match utf8_decode s with Some _ => true | None => false end.

(** PyGObject's conversion of a [utf8] value to [str]
    ([PyUnicode_FromString], strict): [UnicodeDecodeError] when the bytes
    are not UTF-8.  The model keeps the bytes of a text that decodes; its
    [str] is [utf8_decode] of them.  The exception's message (the byte and
    its position) is not modelled. *)
Definition utf8_error : PyExc := UnicodeDecodeError "'utf-8' codec can't decode".

Definition py_text (s : string) : exc string :=
  if valid_utf8 s then Ok s else Raise utf8_error.

(** An optional text property: [None] stays [None]. *)
Definition py_text_opt (o : option string) : exc (option string) :=
  match o with
  | None => Ok None
  | Some s => match py_text s with Ok t => Ok (Some t) | Raise e => Raise e end
  end.

(** ** Bytes *)

Lemma byte_of_range a : 0 <= byte_of a < 256.
Proof.
  unfold byte_of. pose proof (nat_ascii_bounded a). lia.
Qed.

Lemma byte_of_byte b : 0 <= b < 256 -> byte_of (byte b) = b.
Proof.
  intros Hb. unfold byte_of, byte. rewrite nat_ascii_embedding; lia.
Qed.

Lemma byte_byte_of a : byte (byte_of a) = a.
Proof. unfold byte, byte_of. rewrite Nat2Z.id. apply ascii_nat_embedding. Qed.

Lemma is_cont_spec b : is_cont b = true <-> 0x80 <= b < 0xC0.
Proof. unfold is_cont. rewrite andb_true_iff, Z.leb_le, Z.ltb_lt. lia. Qed.

Lemma is_scalar_spec c :
  is_scalar c = true <-> 0 <= c < 0x110000 /\ ~ (0xD800 <= c <= 0xDFFF).
Proof.
  unfold is_scalar, is_surrogate.
  rewrite !andb_true_iff, negb_true_iff, andb_false_iff, Z.leb_le, Z.ltb_lt,
    !Z.leb_gt. lia.
Qed.

(** ** Decoding the encoding *)

(** The four shapes of a well-formed sequence, read by [utf8_decode]. *)
Lemma utf8_decode_1 b0 s :
  0 <= b0 < 0x80 ->
  utf8_decode (String (byte b0) s) = option_map (cons b0) (utf8_decode s).
Proof.
  intros H0. cbn [utf8_decode]. rewrite byte_of_byte by lia.
  now destruct (Z.ltb_spec b0 0x80); [|lia].
Qed.

Lemma utf8_decode_2 b0 b1 s :
  0xC2 <= b0 < 0xE0 -> 0x80 <= b1 < 0xC0 ->
  utf8_decode (String (byte b0) (String (byte b1) s))
  = option_map (cons ((b0 - 0xC0) * 64 + (b1 - 0x80))) (utf8_decode s).
Proof.
  intros H0 H1. cbn [utf8_decode]. rewrite !byte_of_byte by lia.
  apply is_cont_spec in H1. rewrite H1.
  destruct (Z.ltb_spec b0 0x80), (Z.ltb_spec b0 0xC2), (Z.ltb_spec b0 0xE0); lia || reflexivity.
Qed.

Lemma utf8_decode_3 b0 b1 b2 s (c := (b0 - 0xE0) * 4096 + (b1 - 0x80) * 64 + (b2 - 0x80)) :
  0xE0 <= b0 < 0xF0 -> 0x80 <= b1 < 0xC0 -> 0x80 <= b2 < 0xC0 ->
  0x800 <= c -> ~ (0xD800 <= c <= 0xDFFF) ->
  utf8_decode (String (byte b0) (String (byte b1) (String (byte b2) s)))
  = option_map (cons c) (utf8_decode s).
Proof.
  intros H0 H1 H2 Hc Hs. cbn [utf8_decode]. rewrite !byte_of_byte by lia.
  apply is_cont_spec in H1, H2. rewrite H1, H2. fold c.
  assert (E : (0x800 <=? c) && negb (is_surrogate c) = true).
  { unfold is_surrogate. rewrite andb_true_iff, negb_true_iff, andb_false_iff, Z.leb_le,
      !Z.leb_gt. lia. }
  cbn [andb]. rewrite E.
  destruct (Z.ltb_spec b0 0x80), (Z.ltb_spec b0 0xC2), (Z.ltb_spec b0 0xE0),
    (Z.ltb_spec b0 0xF0); lia || reflexivity.
Qed.

Lemma utf8_decode_4 b0 b1 b2 b3 s
    (c := (b0 - 0xF0) * 262144 + (b1 - 0x80) * 4096 + (b2 - 0x80) * 64 + (b3 - 0x80)) :
  0xF0 <= b0 < 0xF5 -> 0x80 <= b1 < 0xC0 -> 0x80 <= b2 < 0xC0 -> 0x80 <= b3 < 0xC0 ->
  0x10000 <= c <= 0x10FFFF ->
  utf8_decode (String (byte b0) (String (byte b1) (String (byte b2) (String (byte b3) s))))
  = option_map (cons c) (utf8_decode s).
Proof.
  intros H0 H1 H2 H3 Hc. cbn [utf8_decode]. rewrite !byte_of_byte by lia.
  apply is_cont_spec in H1, H2, H3. rewrite H1, H2, H3. fold c.
  destruct (Z.leb_spec 0x10000 c), (Z.leb_spec c 0x10FFFF); try lia. cbn [andb].
  destruct (Z.ltb_spec b0 0x80), (Z.ltb_spec b0 0xC2), (Z.ltb_spec b0 0xE0),
    (Z.ltb_spec b0 0xF0), (Z.ltb_spec b0 0xF5); lia || reflexivity.
Qed.

(** Decoding the bytes of a scalar value followed by more bytes reads the
    value and goes on with the rest. *)
Lemma utf8_decode_char c s :
  is_scalar c = true ->
  utf8_decode (utf8_encode_char c ++ s) = option_map (cons c) (utf8_decode s).
Proof.
  rewrite is_scalar_spec. intros Hc. unfold utf8_encode_char.
  destruct (Z.ltb_spec c 0x80); [now apply utf8_decode_1; lia|].
  destruct (Z.ltb_spec c 0x800); [|destruct (Z.ltb_spec c 0x10000)]; cbn [append].
  - rewrite utf8_decode_2 by zdiv. do 2 f_equal. zdiv.
  - rewrite utf8_decode_3 by zdiv. do 2 f_equal. zdiv.
  - rewrite utf8_decode_4 by zdiv. do 2 f_equal. zdiv.
Qed.

(** ** Encoding the decoding *)

Lemma byte_eq a e : byte_of a = e -> a = byte e.
Proof. intros <-. symmetry. apply byte_byte_of. Qed.

(** The bytes of a decoded sequence are those of the encoding of its
    code point. *)
Ltac bytes_eq :=
  repeat match goal with
  | |- String _ _ = String _ _ => apply (f_equal2 String); [apply byte_eq; zdiv|]
  end.

(** The code point of a sequence of [k] bytes is in the range of [k]-byte
    encodings. *)
Ltac encode_range :=
  unfold utf8_encode_char;
  repeat match goal with
  | |- context [?x <? ?y] => destruct (Z.ltb_spec x y); [try zdiv|try zdiv]
  end; cbn [append]; bytes_eq; reflexivity.

Ltac andb_facts H :=
  repeat rewrite andb_true_iff in H;
  repeat match type of H with
  | _ /\ _ => let H' := fresh H in destruct H as [H H']; andb_facts H'
  | is_cont _ = true => apply is_cont_spec in H
  | (_ <=? _) = true => apply Z.leb_le in H
  | negb (is_surrogate _) = true =>
      unfold is_surrogate in H; rewrite negb_true_iff, andb_false_iff, !Z.leb_gt in H
  end.

Ltac destruct_if H C :=
  match type of H with
  | (if ?b then _ else _) = _ => destruct b eqn:C; [|discriminate]
  end.

(** A successful decoding reads the encoding of a scalar value and goes
    on with the rest. *)
Lemma utf8_decode_cons_inv a r cs :
  utf8_decode (String a r) = Some cs ->
  exists c s' cs', cs = c :: cs' /\ String a r = (utf8_encode_char c ++ s')%string /\
    utf8_decode s' = Some cs' /\ is_scalar c = true.
Proof.
  intros H. cbn [utf8_decode] in H. pose proof (byte_of_range a) as Ha.
  destruct (Z.ltb_spec (byte_of a) 0x80).
  { apply option_map_cons_Some in H as (cs' & E & ->).
    exists (byte_of a), r, cs'. rewrite is_scalar_spec. split; [reflexivity|].
    split; [|split; [exact E | lia]]. encode_range. }
  destruct (Z.ltb_spec (byte_of a) 0xC2); [discriminate|].
  destruct (Z.ltb_spec (byte_of a) 0xE0); [|destruct (Z.ltb_spec (byte_of a) 0xF0);
    [|destruct (Z.ltb_spec (byte_of a) 0xF5); [|discriminate]]].
  - destruct r as [|a1 r1]; [discriminate|].
    destruct (is_cont (byte_of a1)) eqn:C; [|discriminate]. andb_facts C.
    apply option_map_cons_Some in H as (cs' & E & ->).
    eexists _, r1, cs'. rewrite is_scalar_spec. split; [reflexivity|].
    split; [|split; [exact E | lia]]. encode_range.
  - destruct r as [|a1 [|a2 r2]]; try discriminate.
    destruct_if H C.
    andb_facts C. apply option_map_cons_Some in H as (cs' & E & ->).
    eexists _, r2, cs'. rewrite is_scalar_spec. split; [reflexivity|].
    split; [|split; [exact E | lia]]. encode_range.
  - destruct r as [|a1 [|a2 [|a3 r3]]]; try discriminate.
    destruct_if H C.
    andb_facts C. apply option_map_cons_Some in H as (cs' & E & ->).
    eexists _, r3, cs'. rewrite is_scalar_spec. split; [reflexivity|].
    split; [|split; [exact E | lia]]. encode_range.
Qed.

(** ** Round trips *)

(** Encoding scalar values and decoding gives them back. *)
Lemma utf8_decode_encode cs :
  forallb is_scalar cs = true -> utf8_decode (utf8_encode cs) = Some cs.
Proof.
  induction cs as [|c cs IH]; simpl; [reflexivity|].
  rewrite andb_true_iff. intros [Hc Hcs].
  now rewrite utf8_decode_char, IH.
Qed.

(** Decoding then encoding gives the text back, and the decoded code
    points are scalar values. *)
Lemma utf8_encode_decode s cs :
  utf8_decode s = Some cs -> utf8_encode cs = s /\ forallb is_scalar cs = true.
Proof.
  revert s; induction cs as [|c cs IH]; intros [|a r] H.
  - split; reflexivity.
  - apply utf8_decode_cons_inv in H as (? & ? & ? & [=] & _).
  - discriminate.
  - apply utf8_decode_cons_inv in H as (c' & s' & cs' & [= <- <-] & -> & E & Hc).
    destruct (IH s' E) as [<- Hcs]. simpl. now rewrite Hc, Hcs.
Qed.

(** Valid text has one decoding: [utf8_decode] is injective. *)
Lemma utf8_decode_inj s1 s2 cs :
  utf8_decode s1 = Some cs -> utf8_decode s2 = Some cs -> s1 = s2.
Proof.
  intros H1 H2. apply utf8_encode_decode in H1 as [<- _], H2 as [<- _]. reflexivity.
Qed.
