(* ===== verification/Civil.v ===== *)
(** * Civil: the calendar arithmetic of Python's [datetime]

    [calendar-events.py] turns broken-down UTC times into Unix timestamps
    with [datetime(y, m, d, hh, mm, ss, tzinfo=timezone.utc).timestamp()]
    ([safe_get_time]) and Unix timestamps into broken-down UTC times with
    [datetime.fromtimestamp(t, tz=timezone.utc)] (the query of the main
    loop).  This file models both after CPython's [datetime] module: the
    proleptic Gregorian helpers [_is_leap], [_days_in_month],
    [_days_before_year], [_days_before_month], [_ymd2ord] and [_ord2ymd],
    the field checks of the [datetime] constructor, and the two
    conversions.  The main results are the two round trips between day
    ordinals and dates; they reduce, by the 400-year period of the
    calendar, to a check of one period by evaluation. *)

From Stdlib Require Import ZArith String Bool Lia.
From S2P Require Import Prelude.
Open Scope Z_scope.
Open Scope string_scope.
Open Scope Z_scope.

(** ** CPython's calendar helpers *)

(** [_is_leap(year)] *)
Definition is_leap (year : Z) : bool :=
  (year mod 4 =? 0) && (negb (year mod 100 =? 0) || (year mod 400 =? 0)).

(** [_DAYS_IN_MONTH[month]]; index 0 holds the placeholder [-1]. *)
Definition DAYS_IN_MONTH (month : Z) : Z :=
  match month with
  | 1 => 31 | 2 => 28 | 3 => 31 | 4 => 30 | 5 => 31 | 6 => 30
  | 7 => 31 | 8 => 31 | 9 => 30 | 10 => 31 | 11 => 30 | 12 => 31
  | _ => -1
  end.

(** [_DAYS_BEFORE_MONTH[month]], the running sums of [_DAYS_IN_MONTH]. *)
Definition DAYS_BEFORE_MONTH (month : Z) : Z :=
  match month with
  | 1 => 0 | 2 => 31 | 3 => 59 | 4 => 90 | 5 => 120 | 6 => 151
  | 7 => 181 | 8 => 212 | 9 => 243 | 10 => 273 | 11 => 304 | 12 => 334
  | _ => -1
  end.

(** [_days_before_year(year)]: days before January 1st of [year]. *)
Definition days_before_year (year : Z) : Z :=
  let y := year - 1 in y * 365 + y / 4 - y / 100 + y / 400.

(** [_days_in_month(year, month)] *)
Definition days_in_month (year month : Z) : Z :=
  if (month =? 2) && is_leap year then 29 else DAYS_IN_MONTH month.

(** [_days_before_month(year, month)] *)
Definition days_before_month (year month : Z) : Z :=
  DAYS_BEFORE_MONTH month + (if (month >? 2) && is_leap year then 1 else 0).

(** [_ymd2ord(year, month, day)]: 01-Jan-0001 is day 1. *)
Definition ymd2ord (year month day : Z) : Z :=
  days_before_year year + days_before_month year month + day.

Definition DI400Y : Z := 146097.   (* _days_before_year(401) *)
Definition DI100Y : Z := 36524.    (* _days_before_year(101) *)
Definition DI4Y : Z := 1461.       (* _days_before_year(5) *)

(** The last lines of [_ord2ymd]: month and day of day [n] (from 0) of a
    year, from the estimate [(n + 50) >> 5] corrected by one month. *)
Definition month_day (n : Z) (leapyear : bool) : Z * Z :=
  let month := Z.shiftr (n + 50) 5 in
  let preceding :=
    DAYS_BEFORE_MONTH month + (if (month >? 2) && leapyear then 1 else 0) in
  let '(month, preceding) :=
    if preceding >? n then
      let month := month - 1 in
      (month, preceding - (DAYS_IN_MONTH month
                           + (if (month =? 2) && leapyear then 1 else 0)))
    else (month, preceding) in
  (month, n - preceding + 1).

(** The body of [_ord2ymd] after [n400, n = divmod(n - 1, _DI400Y)]: the
    date of day [n] (from 0) of a 400-year period whose first year is 1. *)
Definition ord2ymd_period (n : Z) : Z * Z * Z :=
  let year := 1 in
  let n100 := n / DI100Y in let n := n mod DI100Y in
  let n4 := n / DI4Y in let n := n mod DI4Y in
  let n1 := n / 365 in let n := n mod 365 in
  let year := year + n100 * 100 + n4 * 4 + n1 in
  if (n1 =? 4) || (n100 =? 4) then (year - 1, 12, 31)
  else
    let leapyear := (n1 =? 3) && (negb (n4 =? 24) || (n100 =? 3)) in
    let '(month, day) := month_day n leapyear in
    (year, month, day).

(** [_ord2ymd(n)]: the date of day ordinal [n]. *)
Definition ord2ymd (n : Z) : Z * Z * Z :=
  let n400 := (n - 1) / DI400Y in
  let '(y, m, d) := ord2ymd_period ((n - 1) mod DI400Y) in
  (n400 * 400 + y, m, d).

(** A date is valid when the month is in [1..12] and the day in the month. *)
Definition valid_date (year month day : Z) : bool :=
  (1 <=? month) && (month <=? 12) && (1 <=? day) && (day <=? days_in_month year month).

(** ** The month table, checked by evaluation *)

Definition month_day_ok (leap : bool) (n : Z) : bool :=
  let '(m, d) := month_day n leap in
  (DAYS_BEFORE_MONTH m + (if (m >? 2) && leap then 1 else 0) + d =? n + 1)
  && (1 <=? m) && (m <=? 12) && (1 <=? d)
  && (d <=? (if (m =? 2) && leap then 29 else DAYS_IN_MONTH m)).

Lemma month_day_check leap : all_range (month_day_ok leap) 365 0 = true.
Proof. destruct leap; vm_compute; reflexivity. Qed.

(** ** The 400-year period *)

Lemma is_leap_shift y q : is_leap (y + 400 * q) = is_leap y.
Proof.
  unfold is_leap.
  replace (y + 400 * q) with (y + (100 * q) * 4) by lia.
  rewrite Z.mod_add by lia.
  replace (y + 100 * q * 4) with (y + (4 * q) * 100) by lia.
  rewrite Z.mod_add by lia.
  replace (y + 4 * q * 100) with (y + q * 400) by lia.
  rewrite Z.mod_add by lia. reflexivity.
Qed.

Lemma days_before_year_shift y q :
  days_before_year (y + 400 * q) = days_before_year y + DI400Y * q.
Proof. unfold days_before_year, DI400Y. zdiv. Qed.

Lemma ymd2ord_shift y m d q :
  ymd2ord (y + 400 * q) m d = ymd2ord y m d + DI400Y * q.
Proof.
  unfold ymd2ord, days_before_month.
  rewrite days_before_year_shift, is_leap_shift. lia.
Qed.

Lemma days_in_month_shift y m q :
  days_in_month (y + 400 * q) m = days_in_month y m.
Proof. unfold days_in_month. now rewrite is_leap_shift. Qed.

(** Inside a period, year [1 + 100 a + 4 b + c] is a leap year exactly as
    [_ord2ymd] predicts it. *)
Lemma is_leap_period a b c :
  0 <= a <= 3 -> 0 <= b <= 24 -> 0 <= c <= 3 ->
  is_leap (1 + a * 100 + b * 4 + c) = (c =? 3) && (negb (b =? 24) || (a =? 3)).
Proof.
  intros Ha Hb Hc. unfold is_leap.
  zbool; simpl; try reflexivity; exfalso; zdiv.
Qed.

Lemma days_before_year_period a b c :
  0 <= a <= 3 -> 0 <= b <= 24 -> 0 <= c <= 3 ->
  days_before_year (1 + a * 100 + b * 4 + c) = a * DI100Y + b * DI4Y + c * 365.
Proof. intros Ha Hb Hc. unfold days_before_year, DI100Y, DI4Y. zdiv. Qed.

Lemma month_day_spec leap n :
  0 <= n < 365 ->
  let '(m, d) := month_day n leap in
  DAYS_BEFORE_MONTH m + (if (m >? 2) && leap then 1 else 0) + d = n + 1
  /\ 1 <= m <= 12 /\ 1 <= d <= (if (m =? 2) && leap then 29 else DAYS_IN_MONTH m).
Proof.
  intros Hn. pose proof (all_range_spec _ _ _ (month_day_check leap) n ltac:(lia)) as H.
  unfold month_day_ok in H. destruct (month_day n leap) as [m d].
  repeat rewrite andb_true_iff in H. rewrite Z.eqb_eq in H.
  repeat rewrite Z.leb_le in H. lia.
Qed.

(** Every day of a period has a valid date, and the date has that day's
    ordinal. *)
Lemma ord2ymd_period_spec r :
  0 <= r < DI400Y ->
  let '(y, m, d) := ord2ymd_period r in
  ymd2ord y m d = r + 1 /\ valid_date y m d = true /\ 1 <= y <= 400.
Proof.
  intros Hr. unfold ord2ymd_period, DI400Y, DI100Y, DI4Y in *.
  remember (r / 36524) as a eqn:Ea. remember (r mod 36524 / 1461) as b eqn:Eb.
  remember (r mod 36524 mod 1461 / 365) as c eqn:Ec.
  remember (r mod 36524 mod 1461 mod 365) as n eqn:En.
  assert (Hdec : r = a * 36524 + b * 1461 + c * 365 + n
                 /\ 0 <= a <= 4 /\ 0 <= b <= 24 /\ 0 <= c <= 4 /\ 0 <= n < 365
                 /\ (a = 4 -> b = 0 /\ c = 0 /\ n = 0) /\ (c = 4 -> n = 0)
                 /\ (b = 24 -> c <= 3)) by (subst; zdiv).
  clear Ea Eb Ec En.
  unfold valid_date, ymd2ord, days_before_month, days_in_month.
  destruct ((c =? 4) || (a =? 4)) eqn:Hlast.
  - (* the last day of a leap year *)
    remember (1 + a * 100 + b * 4 + c - 1) as y eqn:Ey.
    assert (Hl : is_leap y = true)
      by (unfold is_leap; zbool; simpl; try reflexivity; exfalso; zdiv).
    rewrite Hl. simpl.
    unfold days_before_year. split; [|split]; [zbool; zdiv | reflexivity | zbool; zdiv].
  - assert (Ha : a <= 3) by (zbool; simpl in Hlast; lia).
    assert (Hc : c <= 3) by (zbool; simpl in Hlast; lia).
    pose proof (month_day_spec ((c =? 3) && (negb (b =? 24) || (a =? 3))) n
                  ltac:(lia)) as Hmd.
    destruct (month_day n _) as [m d]. cbn beta iota.
    rewrite is_leap_period by lia.
    rewrite days_before_year_period by lia. unfold DI100Y, DI4Y.
    split; [lia|]. split; [|lia].
    destruct Hmd as (_ & Hm & Hd).
    repeat rewrite andb_true_iff. repeat rewrite Z.leb_le. lia.
Qed.

Lemma valid_date_shift y m d q :
  valid_date (y + 400 * q) m d = valid_date y m d.
Proof. unfold valid_date. now rewrite days_in_month_shift. Qed.

(** Case analysis on a month known to lie in [1..12]. *)
Ltac month_cases m :=
  let H := fresh in
  assert (H : m = 1 \/ m = 2 \/ m = 3 \/ m = 4 \/ m = 5 \/ m = 6 \/ m = 7
              \/ m = 8 \/ m = 9 \/ m = 10 \/ m = 11 \/ m = 12) by lia;
  repeat destruct H as [H | H]; subst m.

Lemma valid_date_iff y m d :
  valid_date y m d = true <-> 1 <= m <= 12 /\ 1 <= d <= days_in_month y m.
Proof. unfold valid_date. repeat rewrite andb_true_iff, ?Z.leb_le. lia. Qed.

Lemma days_in_month_le_31 y m : 1 <= m <= 12 -> days_in_month y m <= 31.
Proof. intros Hm. unfold days_in_month. destruct (is_leap y); month_cases m; zsimpl; lia. Qed.

(** The day of the year of a valid date lies in the year. *)
Lemma day_of_year_bounds y m d :
  valid_date y m d = true ->
  1 <= days_before_month y m + d <= 365 + (if is_leap y then 1 else 0).
Proof.
  rewrite valid_date_iff. unfold days_before_month, days_in_month. intros [Hm Hd].
  revert Hd; destruct (is_leap y); month_cases m; zsimpl; lia.
Qed.

(** Two valid dates of one year with the same day of the year are equal. *)
Lemma day_of_year_inj y m d m' d' :
  valid_date y m d = true -> valid_date y m' d' = true ->
  days_before_month y m + d = days_before_month y m' + d' -> m = m' /\ d = d'.
Proof.
  rewrite !valid_date_iff. unfold days_before_month, days_in_month.
  intros [Hm Hd] [Hm' Hd']. revert Hd Hd'.
  destruct (is_leap y); month_cases m; month_cases m'; zsimpl; lia.
Qed.

Lemma days_before_year_succ y :
  days_before_year (y + 1) = days_before_year y + 365 + (if is_leap y then 1 else 0).
Proof. unfold days_before_year, is_leap. zbool; simpl; zdiv. Qed.

(** The ordinal of a day, counted from the first of the next month. *)
Lemma ymd2ord_next_month y m d :
  1 <= m <= 11 -> ymd2ord y m d = ymd2ord y (m + 1) (d - days_in_month y m).
Proof.
  intros Hm. unfold ymd2ord, days_before_month, days_in_month.
  destruct (is_leap y); month_cases m; cbn -[days_before_year]; lia.
Qed.

Lemma ymd2ord_next_year y d : ymd2ord y 12 d = ymd2ord (y + 1) 1 (d - days_in_month y 12).
Proof.
  unfold ymd2ord, days_before_month, days_in_month. rewrite days_before_year_succ.
  destruct (is_leap y); cbn -[days_before_year]; lia.
Qed.

Lemma days_before_year_mono y y' :
  y <= y' -> days_before_year y <= days_before_year y'.
Proof. unfold days_before_year. zdiv. Qed.

(** [_ymd2ord] is injective on valid dates. *)
Lemma ymd2ord_inj y m d y' m' d' :
  valid_date y m d = true -> valid_date y' m' d' = true ->
  ymd2ord y m d = ymd2ord y' m' d' -> y = y' /\ m = m' /\ d = d'.
Proof.
  intros V V' E. unfold ymd2ord in E.
  pose proof (day_of_year_bounds _ _ _ V). pose proof (day_of_year_bounds _ _ _ V').
  assert (y = y').
  { destruct (Z.lt_total y y') as [Hl | [Hl | Hl]]; [exfalso | exact Hl | exfalso].
    - pose proof (days_before_year_succ y).
      pose proof (days_before_year_mono (y + 1) y' ltac:(lia)). lia.
    - pose proof (days_before_year_succ y').
      pose proof (days_before_year_mono (y' + 1) y ltac:(lia)). lia. }
  subst y'. split; [reflexivity|].
  apply (day_of_year_inj y); auto. lia.
Qed.

(** ** Round trips between day ordinals and dates *)

(** [_ord2ymd] returns a valid date, and [_ymd2ord] maps it back to the
    ordinal. *)
Theorem ymd2ord_ord2ymd n :
  let '(y, m, d) := ord2ymd n in ymd2ord y m d = n /\ valid_date y m d = true.
Proof.
  unfold ord2ymd.
  pose proof (ord2ymd_period_spec ((n - 1) mod DI400Y)
                ltac:(unfold DI400Y; zdiv)) as H.
  destruct (ord2ymd_period _) as [[y m] d].
  replace ((n - 1) / DI400Y * 400 + y) with (y + 400 * ((n - 1) / DI400Y)) by lia.
  rewrite ymd2ord_shift, valid_date_shift.
  destruct H as (H1 & H2 & _). split; [|exact H2].
  rewrite H1. unfold DI400Y. zdiv.
Qed.

(** [_ord2ymd] inverts [_ymd2ord] on valid dates. *)
Theorem ord2ymd_ymd2ord y m d :
  valid_date y m d = true -> ord2ymd (ymd2ord y m d) = (y, m, d).
Proof.
  intros V. pose proof (ymd2ord_ord2ymd (ymd2ord y m d)) as H.
  destruct (ord2ymd _) as [[y' m'] d'].
  destruct H as [E V'].
  destruct (ymd2ord_inj _ _ _ _ _ _ V' V E) as (-> & -> & ->). reflexivity.
Qed.

(** ** Aware UTC datetimes *)

(** The fields of a [datetime] (microseconds are always 0 here). *)
Record civil : Type := mk_civil {
  c_year : Z; c_month : Z; c_day : Z;
  c_hour : Z; c_minute : Z; c_second : Z }.

Definition MINYEAR : Z := 1.
Definition MAXYEAR : Z := 9999.

(** [_check_date_fields] of the [datetime] constructor. *)
Definition check_date_fields (year month day : Z) : exc unit :=
  if negb ((MINYEAR <=? year) && (year <=? MAXYEAR)) then
    Raise (ValueError "year is out of range")
  else if negb ((1 <=? month) && (month <=? 12)) then
    Raise (ValueError "month must be in 1..12")
  else if negb ((1 <=? day) && (day <=? days_in_month year month)) then
    Raise (ValueError "day is out of range for month")
  else Ok tt.

(** [_check_time_fields] of the [datetime] constructor. *)
Definition check_time_fields (hour minute second : Z) : exc unit :=
  if negb ((0 <=? hour) && (hour <=? 23)) then
    Raise (ValueError "hour must be in 0..23")
  else if negb ((0 <=? minute) && (minute <=? 59)) then
    Raise (ValueError "minute must be in 0..59")
  else if negb ((0 <=? second) && (second <=? 59)) then
    Raise (ValueError "second must be in 0..59")
  else Ok tt.

(** [datetime(year, month, day, hour, minute, second, tzinfo=timezone.utc)] *)
Definition datetime_utc (year month day hour minute second : Z) : exc civil :=
  (_ <- check_date_fields year month day ;;
   _ <- check_time_fields hour minute second ;;
   Ok (mk_civil year month day hour minute second))%exc.

(** [_ymd2ord(1970, 1, 1)], the ordinal of the Unix epoch. *)
Definition EPOCH_ORD : Z := 719163.

(** [dt.timestamp()] of an aware datetime: [(dt - _EPOCH).total_seconds()].
    The value is an integer below 2^53, so the float and [int()] are
    exact. *)
Definition timestamp (c : civil) : Z :=
  (ymd2ord (c_year c) (c_month c) (c_day c) - EPOCH_ORD) * 86400
  + c_hour c * 3600 + c_minute c * 60 + c_second c.

(** [gmtime(t)]: the UTC fields of the Unix time [t], by floor division
    into days and seconds of the day. *)
Definition gmtime (t : Z) : civil :=
  let days := t / 86400 in
  let secs := t mod 86400 in
  let '(y, m, d) := ord2ymd (days + EPOCH_ORD) in
  mk_civil y m d (secs / 3600) ((secs mod 3600) / 60) (secs mod 60).

(** [datetime.fromtimestamp(t, tz=timezone.utc)] for an integer [t]: the
    fields of [gmtime], checked by the constructor. *)
Definition fromtimestamp_utc (t : Z) : exc civil :=
  let c := gmtime t in
  datetime_utc (c_year c) (c_month c) (c_day c) (c_hour c) (c_minute c) (c_second c).

(** The checks of the constructor, as one boolean. *)
Definition valid_civil (c : civil) : bool :=
  (MINYEAR <=? c_year c) && (c_year c <=? MAXYEAR)
  && valid_date (c_year c) (c_month c) (c_day c)
  && (0 <=? c_hour c) && (c_hour c <=? 23) && (0 <=? c_minute c) && (c_minute c <=? 59)
  && (0 <=? c_second c) && (c_second c <=? 59).

Lemma valid_civil_iff c :
  valid_civil c = true <->
  MINYEAR <= c_year c <= MAXYEAR /\ 1 <= c_month c <= 12
  /\ 1 <= c_day c <= days_in_month (c_year c) (c_month c)
  /\ 0 <= c_hour c <= 23 /\ 0 <= c_minute c <= 59 /\ 0 <= c_second c <= 59.
Proof. unfold valid_civil, valid_date. repeat rewrite andb_true_iff, ?Z.leb_le. lia. Qed.

(** Case analysis on the [if]s of a chain of checks, in order. *)
Ltac check_cases :=
  repeat match goal with |- context [if ?b then _ else _] => destruct b eqn:? end;
  rewrite ?negb_true_iff, ?negb_false_iff, ?andb_true_iff, ?andb_false_iff,
    ?Z.leb_le, ?Z.leb_gt in *.

Lemma check_date_fields_Ok y m d :
  check_date_fields y m d = Ok tt <->
  MINYEAR <= y <= MAXYEAR /\ 1 <= m <= 12 /\ 1 <= d <= days_in_month y m.
Proof. unfold check_date_fields, MINYEAR, MAXYEAR. check_cases; split; intros; first [discriminate | reflexivity | lia | exfalso; lia]. Qed.

Lemma check_time_fields_Ok h mi s :
  check_time_fields h mi s = Ok tt <-> 0 <= h <= 23 /\ 0 <= mi <= 59 /\ 0 <= s <= 59.
Proof. unfold check_time_fields. check_cases; split; intros; first [discriminate | reflexivity | lia | exfalso; lia]. Qed.

(** The constructor returns its fields exactly when they pass the checks. *)
Lemma datetime_utc_Ok y m d h mi s c :
  datetime_utc y m d h mi s = Ok c <->
  valid_civil (mk_civil y m d h mi s) = true /\ c = mk_civil y m d h mi s.
Proof.
  rewrite valid_civil_iff; cbn [c_year c_month c_day c_hour c_minute c_second].
  unfold datetime_utc.
  destruct (check_date_fields y m d) as [[]|e] eqn:E1;
    destruct (check_time_fields h mi s) as [[]|e'] eqn:E2; cbn [exc_bind].
  - apply check_date_fields_Ok in E1. apply check_time_fields_Ok in E2.
    split; [intros [= <-]; split; [tauto | reflexivity] | intros [_ ->]; reflexivity].
  - split; [discriminate | intros [V _]].
    assert (check_time_fields h mi s = Ok tt) by (apply check_time_fields_Ok; tauto). congruence.
  - split; [discriminate | intros [V _]].
    assert (check_date_fields y m d = Ok tt) by (apply check_date_fields_Ok; tauto). congruence.
  - split; [discriminate | intros [V _]].
    assert (check_date_fields y m d = Ok tt) by (apply check_date_fields_Ok; tauto). congruence.
Qed.

Lemma timestamp_mk_civil_div y m d h mi s :
  0 <= h <= 23 -> 0 <= mi <= 59 -> 0 <= s <= 59 ->
  let t := timestamp (mk_civil y m d h mi s) in
  t / 86400 = ymd2ord y m d - EPOCH_ORD
  /\ t mod 86400 / 3600 = h /\ t mod 86400 mod 3600 / 60 = mi /\ t mod 86400 mod 60 = s.
Proof.
  intros Hh Hmi Hs t. subst t. unfold timestamp; cbn [c_year c_month c_day c_hour c_minute c_second].
  generalize (ymd2ord y m d - EPOCH_ORD). intros o. zdiv.
Qed.

(** [gmtime] reads back the fields of a valid date and time of day. *)
Lemma gmtime_timestamp c :
  valid_date (c_year c) (c_month c) (c_day c) = true ->
  0 <= c_hour c <= 23 -> 0 <= c_minute c <= 59 -> 0 <= c_second c <= 59 ->
  gmtime (timestamp c) = c.
Proof.
  destruct c as [y m d h mi s]; cbn [c_year c_month c_day c_hour c_minute c_second].
  intros V Hh Hmi Hs.
  destruct (timestamp_mk_civil_div y m d h mi s) as (E1 & E2 & E3 & E4); try lia.
  unfold gmtime. rewrite E1.
  replace (ymd2ord y m d - EPOCH_ORD + EPOCH_ORD) with (ymd2ord y m d) by lia.
  rewrite ord2ymd_ymd2ord by exact V. now rewrite E2, E3, E4.
Qed.

(** C34: [datetime.fromtimestamp(t, tz=utc)] inverts [timestamp()]: every
    valid UTC datetime is read back from its timestamp. *)
Theorem fromtimestamp_timestamp c :
  valid_civil c = true -> fromtimestamp_utc (timestamp c) = Ok c.
Proof.
  intros V. pose proof V as V'. rewrite valid_civil_iff in V'.
  destruct c as [y m d h mi s]; cbn [c_year c_month c_day c_hour c_minute c_second] in *.
  destruct (timestamp_mk_civil_div y m d h mi s) as (E1 & E2 & E3 & E4); try lia.
  unfold fromtimestamp_utc, gmtime. rewrite E1.
  replace (ymd2ord y m d - EPOCH_ORD + EPOCH_ORD) with (ymd2ord y m d) by lia.
  rewrite ord2ymd_ymd2ord by (rewrite valid_date_iff; lia).
  rewrite E2, E3, E4. apply datetime_utc_Ok. auto.
Qed.

(** [gmtime] returns valid fields and [timestamp] maps them back to [t]. *)
Lemma gmtime_spec t :
  timestamp (gmtime t) = t
  /\ valid_date (c_year (gmtime t)) (c_month (gmtime t)) (c_day (gmtime t)) = true
  /\ 0 <= c_hour (gmtime t) <= 23 /\ 0 <= c_minute (gmtime t) <= 59
  /\ 0 <= c_second (gmtime t) <= 59.
Proof.
  unfold gmtime.
  pose proof (ymd2ord_ord2ymd (t / 86400 + EPOCH_ORD)) as H.
  destruct (ord2ymd _) as [[y m] d]. destruct H as [H V].
  unfold timestamp; cbn [c_year c_month c_day c_hour c_minute c_second].
  rewrite H. split; [zdiv | split; [exact V | zdiv]].
Qed.

(** [fromtimestamp] returns the fields of [gmtime] when it returns. *)
Lemma fromtimestamp_Ok t c : fromtimestamp_utc t = Ok c -> c = gmtime t.
Proof. unfold fromtimestamp_utc. rewrite datetime_utc_Ok. intros [_ ->]. now destruct (gmtime t). Qed.

(** C35: [timestamp()] inverts [datetime.fromtimestamp(t, tz=utc)]: whenever
    the conversion returns, the timestamp of its result is [t]. *)
Theorem timestamp_fromtimestamp t c :
  fromtimestamp_utc t = Ok c -> timestamp c = t.
Proof. intros E. rewrite (fromtimestamp_Ok _ _ E). apply gmtime_spec. Qed.

Lemma valid_civil_gmtime u :
  MINYEAR <= c_year (gmtime u) <= MAXYEAR -> valid_civil (gmtime u) = true.
Proof.
  intros Hy. destruct (gmtime_spec u) as (_ & V & Hh & Hmi & Hs).
  apply valid_civil_iff. rewrite valid_date_iff in V. tauto.
Qed.

(** [fromtimestamp] returns the fields of [gmtime] when their year is one
    of [datetime]'s. *)
Lemma fromtimestamp_gmtime t :
  MINYEAR <= c_year (gmtime t) <= MAXYEAR -> fromtimestamp_utc t = Ok (gmtime t).
Proof.
  intros Hy. apply datetime_utc_Ok. split; [|now destruct (gmtime t)].
  rewrite <- (valid_civil_gmtime t Hy). now destruct (gmtime t).
Qed.

(** The timestamps of [datetime]'s years 1..9999 have at most twelve
    digits. *)
Lemma timestamp_abs_bound c : valid_civil c = true -> Z.abs (timestamp c) < 10 ^ 12.
Proof.
  rewrite valid_civil_iff. unfold MINYEAR, MAXYEAR. intros (Hy & Hm & Hd & Hh & Hmi & Hs).
  assert (V : valid_date (c_year c) (c_month c) (c_day c) = true) by (apply valid_date_iff; lia).
  pose proof (day_of_year_bounds _ _ _ V) as D.
  pose proof (days_before_year_mono 1 (c_year c) (proj1 Hy)) as L.
  pose proof (days_before_year_mono (c_year c) 9999 (proj2 Hy)) as U.
  change (days_before_year 1) with 0 in L. change (days_before_year 9999) with 3651694 in U.
  unfold timestamp, ymd2ord, EPOCH_ORD. destruct (is_leap (c_year c)); lia.
Qed.

Lemma fromtimestamp_abs_bound t c : fromtimestamp_utc t = Ok c -> Z.abs t < 10 ^ 12.
Proof.
  intros E. pose proof (proj1 (gmtime_spec t)) as T. unfold fromtimestamp_utc in E.
  apply datetime_utc_Ok in E as [V _]. destruct (gmtime t). rewrite <- T.
  exact (timestamp_abs_bound _ V).
Qed.

(** ** Concrete runs *)

(** 2023-11-14 23:13:20 UTC, Unix time 1700003600. *)
Definition standup_civil : civil := mk_civil 2023 11 14 23 13 20.

Lemma fromtimestamp_timestamp_witness :
  valid_civil standup_civil = true
  /\ fromtimestamp_utc (timestamp standup_civil) = Ok standup_civil.
Proof.
  assert (V : valid_civil standup_civil = true) by reflexivity.
  split; [exact V | exact (fromtimestamp_timestamp _ V)].
Defined.

Lemma timestamp_fromtimestamp_witness :
  fromtimestamp_utc 1700003600 = Ok standup_civil /\ timestamp standup_civil = 1700003600.
Proof.
  assert (E : fromtimestamp_utc 1700003600 = Ok standup_civil) by (vm_compute; reflexivity).
  split; [exact E | exact (timestamp_fromtimestamp _ _ E)].
Defined.
