(* ===== verification/ICalTime.v ===== *)
(** * ICalTime: libical's time values and their conversion to UTC

    [safe_get_time] receives the [ICalGLib.Time] of a component's DTSTART
    or DTEND and, when it is not in UTC, converts it with
    [convert_to_zone(ICalGLib.Timezone.get_utc_timezone())].  This file
    models the value ([struct icaltimetype]: the broken-down fields, the
    DATE flag and the zone) and libical's conversion:
    [icaltime_convert_to_zone] returns a DATE value unchanged and gives a
    floating time the UTC zone; for a time of a named zone
    [icaltimezone_convert_time] subtracts the zone's UTC offset at that
    wall-clock time with [icaltime_adjust], then adds the offset of UTC.
    [icaltime_adjust] is written as libical writes it: truncating C
    division with the sign correction ([carry]), the month normalisation,
    and the two loops over months ([days_up], [days_down]), with libical's
    own month lengths (Julian leap years up to 1752).  The loops run on
    fuel, the day count, which each turn lowers by at least 28.

    The offsets come from a time-zone database given as the type class
    [TzDatabase].  The theorems show that the loops always exit by their
    own tests ([icaltime_adjust_normalized]) and that, for fields with a
    month in range in Gregorian years, [icaltime_adjust] computes the UTC
    fields [gmtime] gives ([icaltime_adjust_gmtime]), hence the conversion
    of [convert_to_utc_tzid]. *)

From Stdlib Require Import ZArith String Bool Lia.
From S2P Require Import Prelude Civil.
Open Scope Z_scope.

(** The zone of a time: none (floating), UTC, or a VTIMEZONE by TZID. *)
Inductive zone : Type :=
| Floating
| UTC
| Tzid (name : string).

(** [struct icaltimetype] *)
Record icaltime : Type := mk_icaltime {
  year : Z; month : Z; day : Z;
  hour : Z; minute : Z; second : Z;
  is_date : bool;
  tzone : zone }.

(** [icaltime_null_time()]: what libical returns for an absent property. *)
Definition null_time : icaltime := mk_icaltime 0 0 0 0 0 0 false Floating.

(** The time-zone database: the UTC offset, in seconds east of UTC, of a
    zone at a wall-clock time (given as the seconds of its fields read as
    if they were UTC). *)
Class TzDatabase : Type := {
  tz_utc_offset : string -> Z -> Z }.

(** [icaltime_is_utc(t)]: the zone is the UTC zone. *)
Definition is_utc (t : icaltime) : bool :=
  match tzone t with UTC => true | _ => false end.

(** The fields of a time, read as a UTC datetime. *)
Definition fields (t : icaltime) : civil :=
  mk_civil (year t) (month t) (day t) (hour t) (minute t) (second t).

(** A time with the given fields in UTC. *)
Definition of_fields (c : civil) (d : bool) : icaltime :=
  mk_icaltime (c_year c) (c_month c) (c_day c) (c_hour c) (c_minute c) (c_second c) d UTC.

(** ** [icaltime_adjust] *)

(** [icaltime_is_leap_year]: the Julian rule up to 1752, the Gregorian
    one after. *)
Definition ical_is_leap_year (year : Z) : bool :=
  if year <=? 1752 then year mod 4 =? 0
  else ((year mod 4 =? 0) && negb (year mod 100 =? 0)) || (year mod 400 =? 0).

(** [icaltime_days_in_month(month, year)]: 30 for a month out of range. *)
Definition ical_days_in_month (month year : Z) : Z :=
  if (month <? 1) || (12 <? month) then 30
  else DAYS_IN_MONTH month + (if (month =? 2) && ical_is_leap_year year then 1 else 0).

(** A field and its overflow: C's [v % base] and [v / base], which
    truncate toward zero, then the correction of a negative field. *)
Definition carry (v base : Z) : Z * Z :=
  let f := Z.rem v base in
  let o := Z.quot v base in
  if f <? 0 then (f + base, o - 1) else (f, o).

(** The month brought into 1..12, the years carried into the year. *)
Definition normalize_month (year month : Z) : Z * Z :=
  if 13 <=? month then
    let years_overflow := Z.quot (month - 1) 12 in
    (year + years_overflow, month - years_overflow * 12)
  else if month <=? 0 then
    let years_overflow := Z.quot month 12 - 1 in
    (year + years_overflow, month - years_overflow * 12)
  else (year, month).

(** The loop [for (;;)] for a positive day: take whole months off the day
    while it exceeds the month.  Each turn takes at least 28 days, so
    [Z.to_nat day] turns are enough. *)
Fixpoint days_up (fuel : nat) (year month day : Z) : Z * Z * Z :=
  match fuel with
  | O => (year, month, day)
  | S f =>
      let dim := ical_days_in_month month year in
      if day <=? dim then (year, month, day)
      else if 13 <=? month + 1 then days_up f (year + 1) 1 (day - dim)
      else days_up f year (month + 1) (day - dim)
  end.

(** The loop [while (day <= 0)]: add whole months before it. *)
Fixpoint days_down (fuel : nat) (year month day : Z) : Z * Z * Z :=
  match fuel with
  | O => (year, month, day)
  | S f =>
      if 0 <? day then (year, month, day)
      else if month =? 1 then days_down f (year - 1) 12 (day + ical_days_in_month 12 (year - 1))
      else days_down f year (month - 1) (day + ical_days_in_month (month - 1) year)
  end.

(** [icaltime_adjust(&tt, days, hours, minutes, seconds)] *)
Definition icaltime_adjust (t : icaltime) (days hours minutes seconds : Z) : icaltime :=
  let '(h, mi, s, days_overflow) :=
    if is_date t then (hour t, minute t, second t, 0)
    else
      let '(s, minutes_overflow) := carry (second t + seconds) 60 in
      let '(mi, hours_overflow) := carry (minute t + minutes + minutes_overflow) 60 in
      let '(h, days_overflow) := carry (hour t + hours + hours_overflow) 24 in
      (h, mi, s, days_overflow) in
  let '(y, m) := normalize_month (year t) (month t) in
  let day := day t + days + days_overflow in
  let '(y', m', d') :=
    if 0 <? day then days_up (Z.to_nat day) y m day
    else days_down (Z.to_nat (1 - day)) y m day in
  mk_icaltime y' m' d' h mi s (is_date t) (tzone t).

Section Convert.
Context `{TzDatabase}.

(** The time with another zone. *)
Definition with_zone (t : icaltime) (z : zone) : icaltime :=
  mk_icaltime (year t) (month t) (day t) (hour t) (minute t) (second t) (is_date t) z.

(** [icaltime_convert_to_zone(t, icaltimezone_get_utc_timezone())]: a
    DATE value and a UTC time are returned unchanged, a floating time only
    gets the zone; otherwise [icaltimezone_convert_time] subtracts the
    zone's offset at the wall-clock time with [icaltime_adjust], then adds
    the UTC zone's offset, 0. *)
Definition convert_to_utc (t : icaltime) : icaltime :=
  if is_date t then t
  else match tzone t with
       | UTC => t
       | Floating => with_zone t UTC
       | Tzid z =>
           let utc_offset := tz_utc_offset z (timestamp (fields t)) in
           let t1 := icaltime_adjust t 0 0 0 (- utc_offset) in
           with_zone (icaltime_adjust t1 0 0 0 0) UTC
       end.

End Convert.

(** ** The arithmetic of [icaltime_adjust] *)

(** C's truncating [%] and [/] with the sign correction are floor
    division. *)
Lemma carry_floor v b : 0 < b -> carry v b = (v mod b, v / b).
Proof.
  intros Hb. unfold carry. pose proof (Z.quot_rem' v b) as E.
  pose proof (Z.rem_bound_abs v b ltac:(lia)) as B.
  destruct (Z.ltb_spec (Z.rem v b) 0); f_equal.
  - apply (Z.mod_unique v b (Z.quot v b - 1)); lia.
  - apply (Z.div_unique v b _ (Z.rem v b + b)); lia.
  - apply (Z.mod_unique v b (Z.quot v b)); lia.
  - apply (Z.div_unique v b _ (Z.rem v b)); lia.
Qed.

Lemma ical_days_in_month_bounds m y : 28 <= ical_days_in_month m y <= 31.
Proof.
  unfold ical_days_in_month.
  destruct (Z.ltb_spec m 1), (Z.ltb_spec 12 m); cbn [orb]; try lia.
  destruct (ical_is_leap_year y); month_cases m; cbn; lia.
Qed.

(** After 1752 libical's month lengths are the Gregorian ones. *)
Lemma ical_days_in_month_gregorian m y :
  1 <= m <= 12 -> 1753 <= y -> ical_days_in_month m y = days_in_month y m.
Proof.
  intros Hm Hy. unfold ical_days_in_month, days_in_month, ical_is_leap_year, is_leap.
  destruct (Z.ltb_spec m 1), (Z.ltb_spec 12 m); cbn [orb]; try lia.
  destruct (Z.leb_spec y 1752); [lia|].
  assert (L : ((y mod 4 =? 0) && negb (y mod 100 =? 0)) || (y mod 400 =? 0)
              = (y mod 4 =? 0) && (negb (y mod 100 =? 0) || (y mod 400 =? 0))).
  { destruct (Z.eqb_spec (y mod 4) 0), (Z.eqb_spec (y mod 100) 0), (Z.eqb_spec (y mod 400) 0);
      reflexivity || (exfalso; zdiv). }
  rewrite L. destruct ((y mod 4 =? 0) && (negb (y mod 100 =? 0) || (y mod 400 =? 0)));
    month_cases m; reflexivity.
Qed.

Lemma normalize_month_range y m : 1 <= snd (normalize_month y m) <= 12.
Proof.
  unfold normalize_month. pose proof (Z.quot_rem' (m - 1) 12). pose proof (Z.quot_rem' m 12).
  pose proof (Z.rem_bound_abs (m - 1) 12 ltac:(lia)). pose proof (Z.rem_bound_abs m 12 ltac:(lia)).
  destruct (Z.leb_spec 13 m); [|destruct (Z.leb_spec m 0)]; cbn [snd].
  - pose proof (Z.rem_nonneg (m - 1) 12 ltac:(lia) ltac:(lia)). lia.
  - assert (Z.rem m 12 <= 0) by (rewrite <- (Z.opp_involutive m), Z.rem_opp_l by lia;
      pose proof (Z.rem_nonneg (- m) 12 ltac:(lia) ltac:(lia)); lia). lia.
  - lia.
Qed.

Lemma normalize_month_id y m : 1 <= m <= 12 -> normalize_month y m = (y, m).
Proof.
  intros Hm. unfold normalize_month.
  destruct (Z.leb_spec 13 m), (Z.leb_spec m 0); reflexivity || lia.
Qed.

(** *** The day loops *)

(** Each loop ends by its own test before the fuel runs out, on a day of
    its month. *)
Lemma days_up_exit fuel y m d :
  1 <= m <= 12 -> 0 < d -> (Z.to_nat d <= fuel)%nat ->
  let '(y', m', d') := days_up fuel y m d in 1 <= m' <= 12 /\ 1 <= d' <= ical_days_in_month m' y'.
Proof.
  revert y m d; induction fuel as [|f IH]; intros y m d Hm Hd Hf; [lia|].
  cbn [days_up]. pose proof (ical_days_in_month_bounds m y).
  destruct (Z.leb_spec d (ical_days_in_month m y)); [lia|].
  destruct (Z.leb_spec 13 (m + 1)); apply IH; lia.
Qed.

Lemma days_down_exit fuel y m d :
  1 <= m <= 12 -> d <= ical_days_in_month m y -> (Z.to_nat (1 - d) <= fuel)%nat ->
  let '(y', m', d') := days_down fuel y m d in 1 <= m' <= 12 /\ 1 <= d' <= ical_days_in_month m' y'.
Proof.
  revert y m d; induction fuel as [|f IH]; intros y m d Hm Hd Hf; cbn [days_down]; [lia|].
  destruct (Z.ltb_spec 0 d); [lia|].
  pose proof (ical_days_in_month_bounds 12 (y - 1)).
  pose proof (ical_days_in_month_bounds (m - 1) y).
  destruct (Z.eqb_spec m 1); apply IH; lia.
Qed.

(** Counting forward whole months keeps the day's ordinal. *)
Lemma days_up_ord fuel y m d :
  1 <= m <= 12 -> 1753 <= y ->
  let '(y', m', d') := days_up fuel y m d in ymd2ord y' m' d' = ymd2ord y m d /\ y <= y'.
Proof.
  revert y m d; induction fuel as [|f IH]; intros y m d Hm Hy; cbn [days_up]; [lia|].
  rewrite ical_days_in_month_gregorian by lia.
  destruct (Z.leb_spec d (days_in_month y m)); [lia|].
  destruct (Z.leb_spec 13 (m + 1)).
  - assert (m = 12) by lia. subst m.
    specialize (IH (y + 1) 1 (d - days_in_month y 12) ltac:(lia) ltac:(lia)).
    destruct (days_up f _ _ _) as [[y' m'] d']. rewrite ymd2ord_next_year. lia.
  - specialize (IH y (m + 1) (d - days_in_month y m) ltac:(lia) ltac:(lia)).
    destruct (days_up f _ _ _) as [[y' m'] d']. rewrite (ymd2ord_next_month y m d) by lia. lia.
Qed.

Lemma days_down_year_le fuel y m d : fst (fst (days_down fuel y m d)) <= y.
Proof.
  revert y m d; induction fuel as [|f IH]; intros y m d; cbn [days_down]; [simpl; lia|].
  destruct (0 <? d); [simpl; lia|].
  destruct (m =? 1); [specialize (IH (y - 1) 12 (d + ical_days_in_month 12 (y - 1))) |
    specialize (IH y (m - 1) (d + ical_days_in_month (m - 1) y))]; lia.
Qed.

(** Counting backward whole months keeps the day's ordinal, as long as
    the months it crosses are Gregorian. *)
Lemma days_down_ord fuel y m d :
  1 <= m <= 12 -> 1753 <= fst (fst (days_down fuel y m d)) ->
  let '(y', m', d') := days_down fuel y m d in ymd2ord y' m' d' = ymd2ord y m d.
Proof.
  revert y m d; induction fuel as [|f IH]; intros y m d Hm Hy; cbn [days_down] in *; [reflexivity|].
  destruct (Z.ltb_spec 0 d); [reflexivity|].
  destruct (Z.eqb_spec m 1) as [->|].
  - pose proof (days_down_year_le f (y - 1) 12 (d + ical_days_in_month 12 (y - 1))).
    specialize (IH (y - 1) 12 _ ltac:(lia) Hy).
    destruct (days_down f _ _ _) as [[y' m'] d']. rewrite IH.
    rewrite ical_days_in_month_gregorian, ymd2ord_next_year by (cbn in *; lia).
    replace (y - 1 + 1) with y by lia. f_equal. lia.
  - pose proof (days_down_year_le f y (m - 1) (d + ical_days_in_month (m - 1) y)).
    specialize (IH y (m - 1) _ ltac:(lia) Hy).
    destruct (days_down f _ _ _) as [[y' m'] d']. rewrite IH.
    rewrite ical_days_in_month_gregorian, ymd2ord_next_month by (cbn in *; lia).
    replace (m - 1 + 1) with m by lia. f_equal. lia.
Qed.

(** *** [icaltime_adjust] *)

(** The day loops of [icaltime_adjust] from a month in range. *)
Definition day_loops (y m day : Z) : Z * Z * Z :=
  if 0 <? day then days_up (Z.to_nat day) y m day else days_down (Z.to_nat (1 - day)) y m day.

Lemma day_loops_exit y m day :
  1 <= m <= 12 ->
  let '(y', m', d') := day_loops y m day in 1 <= m' <= 12 /\ 1 <= d' <= ical_days_in_month m' y'.
Proof.
  intros Hm. unfold day_loops. pose proof (ical_days_in_month_bounds m y).
  destruct (Z.ltb_spec 0 day); [apply days_up_exit | apply days_down_exit]; lia.
Qed.

(** [icaltime_adjust] as its steps: the carries of the time of day, the
    month normalised, then the day loops. *)
Lemma icaltime_adjust_steps t days hours minutes seconds :
  icaltime_adjust t days hours minutes seconds =
  let '(y, m) := normalize_month (year t) (month t) in
  if is_date t then
    let '(y', m', d') := day_loops y m (day t + days) in
    mk_icaltime y' m' d' (hour t) (minute t) (second t) true (tzone t)
  else
    let S1 := second t + seconds in
    let MI := minute t + minutes + S1 / 60 in
    let H := hour t + hours + MI / 60 in
    let '(y', m', d') := day_loops y m (day t + days + H / 24) in
    mk_icaltime y' m' d' (H mod 24) (MI mod 60) (S1 mod 60) false (tzone t).
Proof.
  unfold icaltime_adjust, day_loops. destruct (is_date t) eqn:Hd.
  - destruct (normalize_month _ _). now rewrite Z.add_0_r.
  - rewrite !carry_floor by lia. reflexivity.
Qed.

(** C29: The loops of [icaltime_adjust] always exit by their own tests
    within the fuel given: whatever the adjustment, the result has a
    month in 1..12, a day within libical's length of that month and, for
    a timed value, a time of day in range. *)
Theorem icaltime_adjust_normalized t days hours minutes seconds :
  let r := icaltime_adjust t days hours minutes seconds in
  1 <= month r <= 12 /\ 1 <= day r <= ical_days_in_month (month r) (year r)
  /\ (is_date t = false -> 0 <= hour r < 24 /\ 0 <= minute r < 60 /\ 0 <= second r < 60).
Proof.
  cbv zeta. rewrite icaltime_adjust_steps.
  pose proof (normalize_month_range (year t) (month t)) as Hn.
  destruct (normalize_month _ _) as [y m]. cbn [snd] in Hn.
  destruct (is_date t); cbv zeta;
    match goal with |- context [day_loops y m ?D] =>
      pose proof (day_loops_exit y m D Hn); destruct (day_loops y m D) as [[y' m'] d'] end;
    cbn [month day year hour minute second]; (split; [lia | split; [lia|]]).
  - discriminate.
  - intros _. zdiv.
Qed.

(** C30: For a timed value with a month in range, in Gregorian years,
    [icaltime_adjust] by [s] seconds gives the UTC fields of the Unix
    time [s] seconds after the fields read as UTC: the loops compute
    [gmtime]. *)
Theorem icaltime_adjust_gmtime t s :
  is_date t = false -> 1 <= month t <= 12 -> 1753 <= year t ->
  1753 <= year (icaltime_adjust t 0 0 0 s) ->
  fields (icaltime_adjust t 0 0 0 s) = gmtime (timestamp (fields t) + s).
Proof.
  intros Hd Hm Hy Hy'. rewrite icaltime_adjust_steps in *.
  rewrite normalize_month_id in * by lia. rewrite Hd in *. cbv beta iota zeta in *.
  set (S1 := second t + s) in *. set (MI := minute t + 0 + S1 / 60) in *.
  set (H := hour t + 0 + MI / 60) in *. set (D := day t + 0 + H / 24) in *.
  assert (L : let '(y', m', d') := day_loops (year t) (month t) D in
              valid_date y' m' d' = true /\ ymd2ord y' m' d' = ymd2ord (year t) (month t) D).
  { pose proof (day_loops_exit (year t) (month t) D Hm) as X.
    unfold day_loops in *. destruct (Z.ltb_spec 0 D).
    - pose proof (days_up_ord (Z.to_nat D) (year t) (month t) D Hm Hy) as O.
      destruct (days_up _ _ _ _) as [[y' m'] d'].
      rewrite valid_date_iff, <- ical_days_in_month_gregorian by lia. lia.
    - pose proof (days_down_ord (Z.to_nat (1 - D)) (year t) (month t) D Hm) as O.
      destruct (days_down _ _ _ _) as [[y' m'] d']. cbn in Hy', O.
      rewrite valid_date_iff, <- ical_days_in_month_gregorian by lia. split; [lia | apply O; lia]. }
  destruct (day_loops _ _ _) as [[y' m'] d']. destruct L as [V O].
  unfold fields at 1. cbn [year month day hour minute second].
  rewrite <- (gmtime_timestamp (mk_civil y' m' d' (H mod 24) (MI mod 60) (S1 mod 60)))
    by (cbn [c_year c_month c_day c_hour c_minute c_second]; first [exact V | zdiv]).
  f_equal. unfold timestamp, fields. cbn [c_year c_month c_day c_hour c_minute c_second]. rewrite O.
  unfold ymd2ord in *. unfold D, H, MI, S1. zdiv.
Qed.

Lemma icaltime_adjust_flags t days hours minutes seconds :
  is_date (icaltime_adjust t days hours minutes seconds) = is_date t
  /\ tzone (icaltime_adjust t days hours minutes seconds) = tzone t.
Proof.
  rewrite icaltime_adjust_steps. destruct (normalize_month _ _) as [y m].
  destruct (is_date t) eqn:Hd; cbv zeta;
    match goal with |- context [day_loops y m ?D] => destruct (day_loops y m D) as [[y' m'] d'] end;
    split; reflexivity.
Qed.

(** Adjusting a valid timed value of a Gregorian year by nothing leaves it
    as it is. *)
Lemma icaltime_adjust_zero t :
  is_date t = false -> valid_date (year t) (month t) (day t) = true ->
  0 <= hour t <= 23 -> 0 <= minute t <= 59 -> 0 <= second t <= 59 -> 1753 <= year t ->
  icaltime_adjust t 0 0 0 0 = t.
Proof.
  intros Hd V Hh Hmi Hs Hy. apply valid_date_iff in V as [Hm Hday].
  rewrite icaltime_adjust_steps, normalize_month_id, Hd by lia. cbv beta iota zeta.
  replace ((second t + 0) / 60) with 0 by zdiv. replace ((minute t + 0 + 0) / 60) with 0 by zdiv.
  replace ((hour t + 0 + 0) / 24) with 0 by zdiv.
  replace (day t + 0 + 0) with (day t) by lia. unfold day_loops.
  destruct (Z.ltb_spec 0 (day t)); [|lia].
  destruct (Z.to_nat (day t)) eqn:E; [lia|]. cbn [days_up].
  rewrite ical_days_in_month_gregorian by lia. destruct (Z.leb_spec (day t) (days_in_month (year t) (month t))); [|lia].
  destruct t; cbn in *. subst is_date0. f_equal; zdiv.
Qed.

Section ConvertSpec.
Context `{TzDatabase}.

Lemma convert_to_utc_is_date t : is_date (convert_to_utc t) = is_date t.
Proof.
  unfold convert_to_utc. destruct (is_date t) eqn:Hd; [exact Hd|].
  destruct (tzone t); cbn [with_zone is_date]; [exact Hd | exact Hd|].
  rewrite (proj1 (icaltime_adjust_flags _ _ _ _ _)), (proj1 (icaltime_adjust_flags _ _ _ _ _)).
  exact Hd.
Qed.

(** A timed value of a named zone, in Gregorian years, is converted to the
    UTC fields of its wall-clock time minus the zone's offset. *)
Lemma convert_to_utc_tzid t z :
  is_date t = false -> tzone t = Tzid z -> 1 <= month t <= 12 -> 1753 <= year t ->
  let off := tz_utc_offset z (timestamp (fields t)) in
  1753 <= year (icaltime_adjust t 0 0 0 (- off)) ->
  convert_to_utc t = of_fields (gmtime (timestamp (fields t) - off)) false.
Proof.
  intros Hd Hz Hm Hy off Hy'. unfold convert_to_utc. rewrite Hd, Hz. fold off.
  pose proof (icaltime_adjust_gmtime t (- off) Hd Hm Hy Hy') as F.
  replace (timestamp (fields t) + - off) with (timestamp (fields t) - off) in F by lia.
  set (t1 := icaltime_adjust t 0 0 0 (- off)) in *.
  destruct (icaltime_adjust_flags t 0 0 0 (- off)) as [D1 _]. fold t1 in D1. rewrite Hd in D1.
  destruct (gmtime_spec (timestamp (fields t) - off)) as (_ & V & Hh & Hmi & Hs).
  rewrite <- F in V, Hh, Hmi, Hs. unfold fields in V, Hh, Hmi, Hs. cbn [c_year c_month c_day c_hour
    c_minute c_second] in V, Hh, Hmi, Hs.
  rewrite icaltime_adjust_zero by assumption. rewrite <- F.
  unfold with_zone, of_fields, fields. cbn [c_year c_month c_day c_hour c_minute c_second].
  now rewrite D1.
Qed.

End ConvertSpec.

(** ** Concrete runs *)

(** 2023-11-15 06:13:20 in Asia/Jakarta, moved back by its offset of
    seven hours: 2023-11-14 23:13:20, across a day boundary. *)
Lemma icaltime_adjust_gmtime_witness :
  fields (icaltime_adjust (mk_icaltime 2023 11 15 6 13 20 false (Tzid "Asia/Jakarta")) 0 0 0 (-25200))
  = mk_civil 2023 11 14 23 13 20
  /\ fields (icaltime_adjust (mk_icaltime 2023 11 15 6 13 20 false (Tzid "Asia/Jakarta")) 0 0 0 (-25200))
     = gmtime (timestamp (fields (mk_icaltime 2023 11 15 6 13 20 false (Tzid "Asia/Jakarta"))) + -25200).
Proof.
  split; [vm_compute; reflexivity|].
  apply icaltime_adjust_gmtime; [reflexivity | cbn; lia | cbn; lia | vm_compute; discriminate].
Defined.
