(* ===== verification/TimeNorm.v ===== *)
(** * TimeNorm: [safe_get_time] of [calendar-events.py]

    [safe_get_time(ical_time)] (lines 21-49) turns the DTSTART or DTEND of a
    component into a Unix timestamp, or [None]:
    - [None] in, [None] out;
    - a time that is not in UTC is converted with [convert_to_zone];
    - a year outside [1970..2100], a month outside [1..12] or a day outside
      [1..31] gives [None];
    - a DATE value goes through [time.mktime] of local midnight;
    - any other value through [datetime(..., tzinfo=timezone.utc)] and
      [timestamp()];
    - any exception gives [None].
    The value passed in is a Python object: [time_value] distinguishes
    [None], an [ICalGLib.Time] and an [ECal.ComponentDateTime] (what
    [ECal.Component.get_dtstart] returns), which has no [is_utc] method.
    The local time zone that [time.mktime] consults is the type class
    [LocalZone].  The range check sees the converted fields, so the date of
    a zoned time is normalised by libical before it is checked
    ([malformed_zoned_time_accepted]). *)

From Stdlib Require Import ZArith String Bool Lia.
From S2P Require Import Prelude Civil ICalTime.
Open Scope Z_scope.

(** The Python value handed to [safe_get_time]. *)
Inductive time_value : Type :=
| TNone
| TIcal (t : icaltime)
| TComponentDateTime (t : icaltime).

(** The local time zone of the process: the UTC offset ([tm_gmtoff]) that
    [mktime] picks for a local wall-clock time, given as the seconds of its
    fields read as if they were UTC. *)
Class LocalZone : Type := {
  local_utc_offset : Z -> Z }.

Section SafeGetTime.
Context `{TzDatabase} `{LocalZone}.

(** [int(time.mktime(time.struct_time((year, month, day, 0, 0, 0, 0, 0, -1))))]:
    local midnight of the date.  [mktime] normalises a day past the end of
    the month into the next month, which the linear day count does. *)
Definition mktime_midnight (year month day : Z) : Z :=
  let wall := (ymd2ord year month day - EPOCH_ORD) * 86400 in
  wall - local_utc_offset wall.

(** The body of the [try] of [safe_get_time]. *)
Definition safe_get_time_body (v : time_value) : exc (option Z) :=
  match v with
  | TNone => Ok None
  | TComponentDateTime _ => Raise (AttributeError "is_utc")
  | TIcal ical_time =>
      let ical_time := if is_utc ical_time then ical_time else convert_to_utc ical_time in
      let y := year ical_time in
      let m := month ical_time in
      let d := day ical_time in
      if (y <? 1970) || (y >? 2100) || (m <? 1) || (m >? 12) || (d <? 1) || (d >? 31)
      then Ok None
      else if is_date ical_time then Ok (Some (mktime_midnight y m d))
      else (dt <- datetime_utc y m d (hour ical_time) (minute ical_time) (second ical_time) ;;
            Ok (Some (timestamp dt)))%exc
  end.

(** [safe_get_time(ical_time)]: [except Exception: return None]. *)
Definition safe_get_time (v : time_value) : option Z :=
  exc_catch (safe_get_time_body v) (fun _ => None).

(** The fields tested by the range check of line 35. *)
Definition in_range (y m d : Z) : bool :=
  (1970 <=? y) && (y <=? 2100) && (1 <=? m) && (m <=? 12) && (1 <=? d) && (d <=? 31).

(** ** The shape of [safe_get_time] on an [ICalGLib.Time] *)

Lemma range_check_in_range y m d :
  (y <? 1970) || (y >? 2100) || (m <? 1) || (m >? 12) || (d <? 1) || (d >? 31)
  = negb (in_range y m d).
Proof. unfold in_range. zbool; reflexivity || lia. Qed.

Lemma datetime_utc_fields c :
  datetime_utc (c_year c) (c_month c) (c_day c) (c_hour c) (c_minute c) (c_second c) =
  if valid_civil c then Ok c
  else datetime_utc (c_year c) (c_month c) (c_day c) (c_hour c) (c_minute c) (c_second c).
Proof.
  destruct (valid_civil c) eqn:V; [|reflexivity].
  apply datetime_utc_Ok. destruct c; auto.
Qed.

(** After the conversion, [safe_get_time] is a case analysis on the range
    check, the DATE flag and the [datetime] checks. *)
Lemma safe_get_time_shape t :
  let t' := if is_utc t then t else convert_to_utc t in
  safe_get_time (TIcal t) =
  if in_range (year t') (month t') (day t') then
    if is_date t' then Some (mktime_midnight (year t') (month t') (day t'))
    else if valid_civil (fields t') then Some (timestamp (fields t')) else None
  else None.
Proof.
  intros t'. unfold safe_get_time, safe_get_time_body. fold t'.
  rewrite range_check_in_range.
  destruct (in_range _ _ _); [|reflexivity]. destruct (is_date t'); [reflexivity|].
  pose proof (datetime_utc_fields (fields t')) as E; cbn in E; rewrite E.
  destruct (valid_civil (fields t')) eqn:V; [reflexivity|].
  destruct (datetime_utc _ _ _ _ _ _) eqn:D; [|reflexivity].
  apply datetime_utc_Ok in D. destruct D as [D ->]. unfold fields in V. congruence.
Qed.

(** ** Helper facts *)

(** On valid fields, the range check of line 35 is the check of the year. *)
Lemma in_range_valid c :
  valid_civil c = true ->
  in_range (c_year c) (c_month c) (c_day c) = (1970 <=? c_year c) && (c_year c <=? 2100).
Proof.
  rewrite valid_civil_iff. intros (Hy & Hm & Hd & _).
  pose proof (days_in_month_le_31 (c_year c) (c_month c) Hm).
  unfold in_range. zbool; reflexivity || lia.
Qed.

Lemma in_range_valid_fields t :
  valid_civil (fields t) = true ->
  in_range (year t) (month t) (day t) = (1970 <=? year t) && (year t <=? 2100).
Proof. exact (in_range_valid (fields t)). Qed.

Lemma fields_of_fields c d : fields (of_fields c d) = c.
Proof. destruct c; reflexivity. Qed.

(** The ordinal of the first day after the range, 1 January 2101. *)
Lemma days_before_year_bounds y :
  1970 <= y <= 2100 ->
  days_before_year 1970 <= days_before_year y
  /\ days_before_year (y + 1) <= days_before_year 2101.
Proof. intros Hy. split; apply days_before_year_mono; lia. Qed.

Lemma timestamp_bounds c :
  valid_civil c = true -> 1970 <= c_year c <= 2100 -> 0 <= timestamp c < 4133980800.
Proof.
  intros V Hy. pose proof V as V'. rewrite valid_civil_iff in V'.
  assert (Vd : valid_date (c_year c) (c_month c) (c_day c) = true)
    by (apply valid_date_iff; tauto).
  pose proof (day_of_year_bounds _ _ _ Vd).
  pose proof (days_before_year_succ (c_year c)).
  pose proof (days_before_year_bounds _ Hy).
  assert (days_before_year 1970 = 719162) by reflexivity.
  assert (days_before_year 2101 = 767009) by reflexivity.
  unfold timestamp, ymd2ord, EPOCH_ORD. destruct (is_leap (c_year c)); lia.
Qed.

(** ** Behaviour of [safe_get_time] on each branch *)

(** A UTC or floating timed value, read through its fields. *)
Lemma safe_get_time_utc_eq t :
  is_date t = false -> (forall z, tzone t <> Tzid z) ->
  safe_get_time (TIcal t) =
  if (1970 <=? year t) && (year t <=? 2100) && valid_civil (fields t)
  then Some (timestamp (fields t)) else None.
Proof.
  intros Hd Hz. rewrite safe_get_time_shape.
  assert (E : (if is_utc t then t else convert_to_utc t) =
              mk_icaltime (year t) (month t) (day t) (hour t) (minute t) (second t) false UTC).
  { unfold is_utc, convert_to_utc. rewrite Hd.
    destruct t as [y m d h mi s dt [| |z]]; simpl in *; subst; try reflexivity.
    exfalso; exact (Hz z eq_refl). }
  rewrite E; cbn [year month day is_date].
  change (fields (mk_icaltime _ _ _ _ _ _ false UTC)) with (fields t).
  destruct (valid_civil (fields t)) eqn:V.
  - rewrite (in_range_valid_fields t V). now rewrite andb_true_r.
  - rewrite andb_false_r. now destruct (in_range _ _ _).
Qed.

(** C24: A timed value in UTC, or floating (read as UTC), gives the Unix
    timestamp of its fields when the year is in [1970..2100] and the
    [datetime] constructor accepts the fields, and [None] otherwise. *)
Theorem safe_get_time_utc t :
  is_date t = false -> (forall z, tzone t <> Tzid z) ->
  safe_get_time (TIcal t) =
  if (1970 <=? year t) && (year t <=? 2100) && valid_civil (fields t)
  then Some (timestamp (fields t)) else None.
Proof. apply safe_get_time_utc_eq. Qed.

(** A timed value of a named zone, through libical's conversion. *)
Lemma safe_get_time_tzid_eq t z :
  is_date t = false -> tzone t = Tzid z -> 1 <= month t <= 12 -> 1753 <= year t ->
  let wall := timestamp (fields t) in
  let u := wall - tz_utc_offset z wall in
  1753 <= year (icaltime_adjust t 0 0 0 (- tz_utc_offset z wall)) ->
  safe_get_time (TIcal t) =
  if (1970 <=? c_year (gmtime u)) && (c_year (gmtime u) <=? 2100) then Some u else None.
Proof.
  intros Hd Hz Hm Hy wall u Hy'. rewrite safe_get_time_shape.
  assert (E : (if is_utc t then t else convert_to_utc t) = of_fields (gmtime u) false).
  { unfold is_utc. rewrite Hz. now apply convert_to_utc_tzid. }
  rewrite E. cbn [year month day is_date of_fields]. rewrite fields_of_fields.
  destruct ((1970 <=? c_year (gmtime u)) && (c_year (gmtime u) <=? 2100)) eqn:Y.
  - assert (V : valid_civil (gmtime u) = true)
      by (apply valid_civil_gmtime; unfold MINYEAR, MAXYEAR; zbool; simpl in Y; lia).
    rewrite (in_range_valid _ V), Y, V. f_equal. apply gmtime_spec.
  - destruct (valid_civil (gmtime u)) eqn:V.
    + rewrite (in_range_valid _ V), Y. reflexivity.
    + now destruct (in_range _ _ _).
Qed.

(** C25: A timed value of a named zone, in Gregorian years with a month
    in range, is shifted by the zone's UTC offset at its wall-clock time
    (libical's [icaltime_adjust]): the result is that instant, when its
    UTC year is in [1970..2100], and [None] otherwise. *)
Theorem safe_get_time_tzid t z :
  is_date t = false -> tzone t = Tzid z -> 1 <= month t <= 12 -> 1753 <= year t ->
  let wall := timestamp (fields t) in
  let u := wall - tz_utc_offset z wall in
  1753 <= year (icaltime_adjust t 0 0 0 (- tz_utc_offset z wall)) ->
  safe_get_time (TIcal t) =
  if (1970 <=? c_year (gmtime u)) && (c_year (gmtime u) <=? 2100) then Some u else None.
Proof. apply safe_get_time_tzid_eq. Qed.

(** C26: A DATE value is never converted: when its fields pass the range
    check it gives local midnight of the date, that is UTC midnight of the
    date minus the local UTC offset at that wall-clock time; otherwise
    [None]. *)
Theorem safe_get_time_date t :
  is_date t = true ->
  safe_get_time (TIcal t) =
  if in_range (year t) (month t) (day t)
  then let w := timestamp (mk_civil (year t) (month t) (day t) 0 0 0) in
       Some (w - local_utc_offset w)
  else None.
Proof.
  intros Hd. rewrite safe_get_time_shape.
  assert (E : (if is_utc t then t else convert_to_utc t) = t)
    by (unfold convert_to_utc; rewrite Hd; now destruct (is_utc t)).
  rewrite E, Hd. destruct (in_range _ _ _); [|reflexivity].
  unfold mktime_midnight, timestamp. cbn [c_year c_month c_day c_hour c_minute c_second].
  cbv zeta. now rewrite !Z.mul_0_l, !Z.add_0_r.
Qed.

(** C27: Every timestamp obtained from a timed value lies in the range of
    the years [1970..2100]: from 0 up to the last second of 2100. *)
Theorem safe_get_time_timed_bounds t s :
  is_date t = false -> safe_get_time (TIcal t) = Some s -> 0 <= s < 4133980800.
Proof.
  intros Hd. rewrite safe_get_time_shape.
  assert (Hd' : is_date (if is_utc t then t else convert_to_utc t) = false).
  { destruct (is_utc t); [exact Hd|]. now rewrite convert_to_utc_is_date. }
  set (t' := if is_utc t then t else convert_to_utc t) in *.
  rewrite Hd'. destruct (valid_civil (fields t')) eqn:V;
    destruct (in_range _ _ _) eqn:R; try discriminate.
  intros [= <-]. apply timestamp_bounds; [exact V|].
  rewrite (in_range_valid_fields t' V) in R. change (c_year (fields t')) with (year t').
  zbool; simpl in R; lia.
Qed.

(** C28: A DATE value whose day passes the check [day <= 31] but lies past
    the end of its month is not rejected: [time.mktime] reads it as the
    matching day of the next month. *)
Theorem safe_get_time_date_overflow t :
  is_date t = true -> in_range (year t) (month t) (day t) = true -> month t <= 11 ->
  days_in_month (year t) (month t) < day t ->
  safe_get_time (TIcal t) =
  Some (mktime_midnight (year t) (month t + 1) (day t - days_in_month (year t) (month t))).
Proof.
  intros Hd R Hm Hdim. rewrite safe_get_time_shape.
  assert (E : (if is_utc t then t else convert_to_utc t) = t)
    by (unfold convert_to_utc; rewrite Hd; now destruct (is_utc t)).
  rewrite E, Hd, R. unfold mktime_midnight.
  unfold in_range in R. zbool; simpl in R; try discriminate.
  now rewrite <- ymd2ord_next_month by lia.
Qed.

(** C31: Malformed fields are rejected only when the value is already in
    UTC: a timed value of a named zone whose fields are not a date of
    [datetime] (November 31st, say) is first normalised by libical's
    conversion and read as the instant its fields denote, while the same
    fields in UTC give [None]. *)
Theorem malformed_zoned_time_accepted t z :
  is_date t = false -> tzone t = Tzid z -> 1 <= month t <= 12 -> 1753 <= year t ->
  let wall := timestamp (fields t) in
  let u := wall - tz_utc_offset z wall in
  1753 <= year (icaltime_adjust t 0 0 0 (- tz_utc_offset z wall)) ->
  valid_civil (fields t) = false -> 1970 <= c_year (gmtime u) <= 2100 ->
  safe_get_time (TIcal t) = Some u /\ safe_get_time (TIcal (with_zone t UTC)) = None.
Proof.
  intros Hd Hz Hm Hy wall u Hy' V Hu. split.
  - rewrite (safe_get_time_tzid_eq t z Hd Hz Hm Hy Hy'). fold wall u.
    replace ((1970 <=? c_year (gmtime u)) && (c_year (gmtime u) <=? 2100)) with true
      by (symmetry; apply andb_true_iff; split; apply Z.leb_le; lia).
    reflexivity.
  - rewrite safe_get_time_utc_eq by (exact Hd || discriminate).
    change (fields (with_zone t UTC)) with (fields t). now rewrite V, andb_false_r.
Qed.

End SafeGetTime.

(** ** Concrete runs *)

(** A time-zone database and a local zone for the runs: Western Indonesia
    Time, seven hours east of UTC, without daylight saving time. *)
Definition tzdb_wib : TzDatabase :=
  {| tz_utc_offset := fun z _ => if String.eqb z "Asia/Jakarta" then 25200 else 0 |}.
Definition local_wib : LocalZone := {| local_utc_offset := fun _ => 25200 |}.
#[local] Existing Instances tzdb_wib local_wib.

(** 2023-11-14 23:13:20 UTC, Unix time 1700003600. *)
Definition standup_utc : icaltime := mk_icaltime 2023 11 14 23 13 20 false UTC.
(** The same instant on the wall clock of Jakarta. *)
Definition standup_wib : icaltime := mk_icaltime 2023 11 15 6 13 20 false (Tzid "Asia/Jakarta").
(** The all-day date 2023-11-15. *)
Definition day_nov15 : icaltime := mk_icaltime 2023 11 15 0 0 0 true Floating.
(** The all-day "date" 2023-02-30. *)
Definition day_feb30 : icaltime := mk_icaltime 2023 2 30 0 0 0 true Floating.

Lemma safe_get_time_utc_witness :
  is_date standup_utc = false /\ safe_get_time (TIcal standup_utc) = Some 1700003600.
Proof.
  split; [reflexivity|].
  rewrite (safe_get_time_utc standup_utc eq_refl ltac:(intros z; discriminate)).
  vm_compute. reflexivity.
Defined.

Lemma safe_get_time_tzid_witness :
  tzone standup_wib = Tzid "Asia/Jakarta" /\ safe_get_time (TIcal standup_wib) = Some 1700003600.
Proof.
  split; [reflexivity|].
  assert (Hy' : 1753 <= year (icaltime_adjust standup_wib 0 0 0
                   (- tz_utc_offset "Asia/Jakarta" (timestamp (fields standup_wib)))))
    by (vm_compute; discriminate).
  rewrite (safe_get_time_tzid standup_wib "Asia/Jakarta" eq_refl eq_refl
             ltac:(cbn; lia) ltac:(cbn; lia) Hy').
  vm_compute. reflexivity.
Defined.

Lemma safe_get_time_date_witness :
  is_date day_nov15 = true /\ safe_get_time (TIcal day_nov15) = Some 1699981200.
Proof.
  split; [reflexivity|].
  rewrite (safe_get_time_date day_nov15 eq_refl). vm_compute. reflexivity.
Defined.

Lemma safe_get_time_timed_bounds_witness :
  safe_get_time (TIcal standup_utc) = Some 1700003600 /\ 0 <= 1700003600 < 4133980800.
Proof.
  split; [vm_compute; reflexivity|].
  apply (safe_get_time_timed_bounds standup_utc 1700003600 eq_refl). vm_compute. reflexivity.
Defined.

Lemma safe_get_time_date_overflow_witness :
  safe_get_time (TIcal day_feb30) = Some (mktime_midnight 2023 3 2)
  /\ safe_get_time (TIcal (mk_icaltime 2023 2 30 0 0 0 false UTC)) = None.
Proof.
  split; [|vm_compute; reflexivity].
  rewrite (safe_get_time_date_overflow day_feb30 eq_refl eq_refl ltac:(vm_compute; discriminate)
             ltac:(vm_compute; reflexivity)).
  reflexivity.
Defined.

(** November 31st, 10:00, in Asia/Jakarta. *)
Definition nov31_wib : icaltime := mk_icaltime 2023 11 31 10 0 0 false (Tzid "Asia/Jakarta").

Lemma malformed_zoned_time_accepted_witness :
  is_date nov31_wib = false /\ tzone nov31_wib = Tzid "Asia/Jakarta"
  /\ valid_civil (fields nov31_wib) = false
  /\ safe_get_time (TIcal nov31_wib) = Some 1701399600
  /\ safe_get_time (TIcal (with_zone nov31_wib UTC)) = None.
Proof.
  assert (Hy' : 1753 <= year (icaltime_adjust nov31_wib 0 0 0
                   (- tz_utc_offset "Asia/Jakarta" (timestamp (fields nov31_wib)))))
    by (vm_compute; discriminate).
  assert (Hu : 1970 <= c_year (gmtime (timestamp (fields nov31_wib)
                 - tz_utc_offset "Asia/Jakarta" (timestamp (fields nov31_wib)))) <= 2100)
    by (vm_compute; split; discriminate).
  split; [reflexivity | split; [reflexivity | split; [reflexivity|]]].
  exact (malformed_zoned_time_accepted nov31_wib "Asia/Jakarta" eq_refl eq_refl
           ltac:(cbn; lia) ltac:(cbn; lia) Hy' eq_refl Hu).
Defined.
