(* ===== verification/Backend.v ===== *)
(** * Backend: what the scripts call of evolution-data-server

    The scripts reach the calendar service through GObject introspection:
    [EDataServer.SourceRegistry.new_sync] and [list_sources] give the
    calendar sources, [ECal.Client.connect_sync] opens one,
    [get_object_list_sync] runs a query on it, and
    [ECal.Component.new_from_string] parses an object returned as text.
    The class [CalendarBackend] is this interface: the scripts' models are
    written against it, and [FakeBackend] implements it.  Every call may
    raise a [GLib.Error].

    The data the scripts read: a source ([ESource]: uid, display name,
    enabled flag), a component as the main loop reads it (summary,
    DTSTART, DTEND, location, description) and an object of the result
    list, which is a component or its text. *)

From Stdlib Require Import ZArith String List.
From S2P Require Import Prelude ICalTime TimeNorm.
Import ListNotations.

(** [ESource]: [get_uid()], [get_display_name()], [get_enabled()]. *)
Record source : Type := mk_source {
  uid : string;
  display_name : string;
  enabled : bool }.

(** A component as the main loop reads it: [get_summary()],
    [get_dtstart()], [get_dtend()], [get_location()],
    [get_description()].  The summary, location and description are
    [None] when the property is absent. *)
Record component : Type := mk_component {
  get_summary : option string;
  get_dtstart : time_value;
  get_dtend : time_value;
  get_location : option string;
  get_description : option string }.

(** An [ICalGLib.Component] has [get_dtstart()]/[get_dtend()] returning an
    [ICalGLib.Time]; libical returns the null time for an absent DTEND. *)
Definition ical_component (summary : option string) (dtstart dtend : icaltime)
    (location description : option string) : component :=
  mk_component summary (TIcal dtstart) (TIcal dtend) location description.

(** An [ECal.Component] (libecal 2.0) wraps its times in
    [ECal.ComponentDateTime] values, or returns [None] when the property is
    absent. *)
Record ecal_component : Type := mk_ecal_component {
  ec_summary : option string;
  ec_dtstart : option icaltime;
  ec_dtend : option icaltime;
  ec_location : option string;
  ec_description : option string }.

Definition component_date_time (o : option icaltime) : time_value :=
  match o with Some t => TComponentDateTime t | None => TNone end.

(** The component the main loop reads from an [ECal.Component].  Its
    [get_summary()] returns an [ECal.ComponentText] object (or [None]), not
    a [str]: line 104 only tests its truth and converts nothing, so it
    cannot raise [UnicodeDecodeError].  The model passes no text for it
    (the [ec_summary] of the object is not read): the value would only
    reach a record, and no record is built from an [ECal.Component],
    since [safe_get_time] of its [ECal.ComponentDateTime] start is [None]
    and line 108 moves on ([Event.string_object_skipped]). *)
Definition ecal_as_component (e : ecal_component) : component :=
  mk_component None (component_date_time (ec_dtstart e))
    (component_date_time (ec_dtend e)) (ec_location e) (ec_description e).

(** An element of the list [get_object_list_sync] returns: a component
    object (it has [get_summary]) or the component's text. *)
Inductive ical_object : Type :=
| ObjComponent (c : component)
| ObjString (s : string).

(** The calls the scripts make. *)
Class CalendarBackend : Type := {
  registry : Type;
  client : Type;
  (** [EDataServer.SourceRegistry.new_sync(None)] *)
  registry_new_sync : exc registry;
  (** [registry.list_sources(EDataServer.SOURCE_EXTENSION_CALENDAR)] *)
  list_sources : registry -> exc (list source);
  (** [ECal.Client.connect_sync(source, ECal.ClientSourceType.EVENTS, timeout, None)] *)
  connect_sync : source -> Z -> exc client;
  (** [client.get_object_list_sync(query, None)]: the success flag and the
      objects *)
  get_object_list_sync : client -> string -> exc (bool * list ical_object);
  (** [ECal.Component.new_from_string(text)] *)
  new_from_string : string -> exc (option ecal_component) }.
