(* ===== verification/Query.v ===== *)
(** * Query: the time-range query of the main loop

    For every calendar, lines 76-82 of [calendar-events.py] turn the two
    command-line timestamps into UTC datetimes with
    [datetime.fromtimestamp(t, tz=timezone.utc)], format them with
    [strftime("%Y%m%dT%H%M%SZ")] and build the S-expression
    [(occur-in-time-range? (make-time "<start>") (make-time "<end>"))].
    This file models the formatting ([pad], [format_stamp], [make_query],
    [query_of_range]) and, for the calendar service's side, a parser of the
    query ([parse_query], which reads the spec's [YYYYMMDDTHHMMSSZ]); the
    round trip says that the service reads back exactly the two timestamps
    the script was given.  [strftime]'s [%Y] is glibc's: the year in
    decimal without padding, so a year below 1000 makes a stamp shorter
    than the spec's, which the service refuses. *)

From Stdlib Require Import ZArith String Ascii Bool Lia.
From S2P Require Import Prelude Civil.
Open Scope Z_scope.

(** ** Formatting *)

(** The character of a decimal digit. *)
Definition digit_char (d : Z) : ascii := ascii_of_nat (Z.to_nat (48 + d)).

(** [w] decimal digits of [n], most significant first, zero padded:
    [%0wd] of [n mod 10^w]. *)
Fixpoint pad (w : nat) (n : Z) : string :=
  match w with
  | O => EmptyString
  | S w' => String (digit_char ((n / 10 ^ Z.of_nat w') mod 10)) (pad w' n)
  end.

(** glibc's [%Y] writes [tm_year + 1900] in decimal, without padding: the
    number of digits of a year of [datetime] (1..9999). *)
Definition year_width (year : Z) : nat :=
  if year <? 10 then 1 else if year <? 100 then 2 else if year <? 1000 then 3 else 4.

(** [dt.strftime("%Y%m%dT%H%M%SZ")] *)
Definition format_stamp (c : civil) : string :=
  pad (year_width (c_year c)) (c_year c) ++ pad 2 (c_month c) ++ pad 2 (c_day c) ++ "T"
  ++ pad 2 (c_hour c) ++ pad 2 (c_minute c) ++ pad 2 (c_second c) ++ "Z".

(** The double quote character. *)
Definition dquote : string := String (ascii_of_nat 34) EmptyString.

Definition query_head : string := "(occur-in-time-range? (make-time " ++ dquote.
Definition query_middle : string := dquote ++ ") (make-time " ++ dquote.
Definition query_tail : string := dquote ++ "))".

(** Line 82: [f'(occur-in-time-range? (make-time "{start_str}") (make-time "{end_str}"))'] *)
Definition make_query (start_str end_str : string) : string :=
  query_head ++ start_str ++ query_middle ++ end_str ++ query_tail.

(** Lines 76-82: the query of the range [start_time]..[end_time]; the
    conversions raise when a timestamp is outside the years of
    [datetime]. *)
Definition query_of_range (start_time end_time : Z) : exc string :=
  (start_dt <- fromtimestamp_utc start_time ;;
   end_dt <- fromtimestamp_utc end_time ;;
   Ok (make_query (format_stamp start_dt) (format_stamp end_dt)))%exc.

(** ** Parsing, on the calendar service's side *)

Definition parse_digit (c : ascii) : option Z :=
  let n := Z.of_nat (nat_of_ascii c) - 48 in
  if (0 <=? n) && (n <=? 9) then Some n else None.

(** Read [w] digits after the accumulated value [acc]. *)
Fixpoint parse_fixed (w : nat) (acc : Z) (s : string) : option (Z * string) :=
  match w with
  | O => Some (acc, s)
  | S w' =>
      match s with
      | EmptyString => None
      | String c s' =>
          match parse_digit c with
          | Some d => parse_fixed w' (acc * 10 + d) s'
          | None => None
          end
      end
  end.

(** Remove the literal [lit] from the front of [s]. *)
Fixpoint expect (lit s : string) : option string :=
  match lit with
  | EmptyString => Some s
  | String c lit' =>
      match s with
      | String c' s' => if Ascii.eqb c c' then expect lit' s' else None
      | EmptyString => None
      end
  end.

Declare Scope option_scope.
Local Notation "x <- c ;; k" := (match c with Some x => k | None => None end)
  (at level 61, c at next level, right associativity) : option_scope.
Local Notation "' ( x , y ) <- c ;; k" :=
  (match c with Some (x, y) => k | None => None end)
  (at level 61, x name, y name, c at next level, right associativity) : option_scope.
Local Open Scope option_scope.

(** A stamp [YYYYMMDDTHHMMSSZ] at the front of [s], and the rest. *)
Definition parse_stamp (s : string) : option (civil * string) :=
  '(y, s) <- parse_fixed 4 0 s ;;
  '(m, s) <- parse_fixed 2 0 s ;;
  '(d, s) <- parse_fixed 2 0 s ;;
  s <- expect "T" s ;;
  '(hh, s) <- parse_fixed 2 0 s ;;
  '(mm, s) <- parse_fixed 2 0 s ;;
  '(ss, s) <- parse_fixed 2 0 s ;;
  s <- expect "Z" s ;;
  Some (mk_civil y m d hh mm ss, s).

(** The two bounds of a query. *)
Definition parse_query (q : string) : option (civil * civil) :=
  s <- expect query_head q ;;
  '(c1, s) <- parse_stamp s ;;
  s <- expect query_middle s ;;
  '(c2, s) <- parse_stamp s ;;
  s <- expect query_tail s ;;
  match s with EmptyString => Some (c1, c2) | _ => None end.

(** ** Round trip *)

Lemma parse_digit_char d : 0 <= d <= 9 -> parse_digit (digit_char d) = Some d.
Proof.
  intros Hd. unfold parse_digit, digit_char.
  rewrite nat_ascii_embedding by lia. rewrite Z2Nat.id by lia.
  replace (48 + d - 48) with d by lia. zbool; simpl; reflexivity || lia.
Qed.

Lemma parse_fixed_pad w acc n rest :
  0 <= n ->
  parse_fixed w acc (pad w n ++ rest) = Some (acc * 10 ^ Z.of_nat w + n mod 10 ^ Z.of_nat w, rest).
Proof.
  intros Hn. revert acc; induction w as [|w IH]; intros acc; cbn [pad parse_fixed String.append].
  - cbn [Z.of_nat Z.pow Z.pow_pos Pos.iter]. now rewrite Z.mod_1_r, Z.mul_1_r, Z.add_0_r.
  - rewrite parse_digit_char by (pose proof (Z.mod_pos_bound (n / 10 ^ Z.of_nat w) 10); lia).
    rewrite IH. f_equal. f_equal.
    rewrite Nat2Z.inj_succ, Z.pow_succ_r by lia.
    replace (10 * 10 ^ Z.of_nat w) with (10 ^ Z.of_nat w * 10) by lia.
    rewrite Z.rem_mul_r by (try apply Z.pow_nonzero; lia). lia.
Qed.

Lemma expect_app lit rest : expect lit (lit ++ rest) = Some rest.
Proof. induction lit as [|c lit IH]; simpl; [reflexivity | now rewrite Ascii.eqb_refl]. Qed.

Lemma expect_self lit : expect lit lit = Some EmptyString.
Proof. rewrite <- (string_app_nil_r lit) at 2. apply expect_app. Qed.

(** The fields [strftime] writes as the spec's stamp: a year of four
    digits, the others of two. *)
Definition stamp_fields (c : civil) : Prop :=
  1000 <= c_year c < 10000 /\ 0 <= c_month c < 100 /\ 0 <= c_day c < 100
  /\ 0 <= c_hour c < 100 /\ 0 <= c_minute c < 100 /\ 0 <= c_second c < 100.

Lemma parse_fixed_pad_exact w n rest :
  0 <= n < 10 ^ Z.of_nat w -> parse_fixed w 0 (pad w n ++ rest) = Some (n, rest).
Proof. intros Hn. rewrite parse_fixed_pad by lia. rewrite Z.mod_small by lia. reflexivity. Qed.

Lemma parse_stamp_format c rest :
  stamp_fields c -> parse_stamp (format_stamp c ++ rest) = Some (c, rest).
Proof.
  intros (Hy & Hm & Hd & Hh & Hmi & Hs). unfold parse_stamp, format_stamp.
  replace (year_width (c_year c)) with 4%nat
    by (unfold year_width; zbool; cbn; reflexivity || lia).
  repeat rewrite string_app_assoc.
  rewrite parse_fixed_pad_exact by (simpl; lia).
  rewrite parse_fixed_pad_exact by (simpl; lia).
  rewrite parse_fixed_pad_exact by (simpl; lia).
  rewrite expect_app.
  rewrite parse_fixed_pad_exact by (simpl; lia).
  rewrite parse_fixed_pad_exact by (simpl; lia).
  rewrite parse_fixed_pad_exact by (simpl; lia).
  rewrite expect_app. now destruct c.
Qed.

Lemma parse_query_make c1 c2 :
  stamp_fields c1 -> stamp_fields c2 ->
  parse_query (make_query (format_stamp c1) (format_stamp c2)) = Some (c1, c2).
Proof.
  intros H1 H2. unfold parse_query, make_query.
  rewrite expect_app, parse_stamp_format by exact H1.
  rewrite expect_app, parse_stamp_format by exact H2.
  now rewrite expect_self.
Qed.

Lemma stamp_fields_valid c : valid_civil c = true -> 1000 <= c_year c -> stamp_fields c.
Proof.
  rewrite valid_civil_iff. unfold stamp_fields, MINYEAR, MAXYEAR. intros (Hy & Hm & Hd & Hrest) Hk.
  pose proof (days_in_month_le_31 (c_year c) (c_month c) Hm). lia.
Qed.

(** The query is built exactly when both conversions return. *)
Lemma query_of_range_inv start_time end_time q :
  query_of_range start_time end_time = Ok q ->
  exists c1 c2, fromtimestamp_utc start_time = Ok c1 /\ fromtimestamp_utc end_time = Ok c2
                /\ q = make_query (format_stamp c1) (format_stamp c2).
Proof.
  unfold query_of_range.
  destruct (fromtimestamp_utc start_time) as [c1|] eqn:E1; [|discriminate].
  destruct (fromtimestamp_utc end_time) as [c2|] eqn:E2; [|discriminate].
  intros [= <-]. now exists c1, c2.
Qed.

(** Within [datetime]'s years, the query is that of the UTC fields of the
    two timestamps. *)
Lemma query_of_range_gmtime start_time end_time :
  MINYEAR <= c_year (gmtime start_time) <= MAXYEAR ->
  MINYEAR <= c_year (gmtime end_time) <= MAXYEAR ->
  query_of_range start_time end_time =
  Ok (make_query (format_stamp (gmtime start_time)) (format_stamp (gmtime end_time))).
Proof.
  intros H1 H2. unfold query_of_range.
  now rewrite (fromtimestamp_gmtime _ H1), (fromtimestamp_gmtime _ H2).
Qed.

(** The query parses back into the UTC fields of the two timestamps when
    their years have four digits. *)
Lemma query_of_range_parse start_time end_time q :
  query_of_range start_time end_time = Ok q ->
  1000 <= c_year (gmtime start_time) -> 1000 <= c_year (gmtime end_time) ->
  exists c1 c2, parse_query q = Some (c1, c2)
                /\ timestamp c1 = start_time /\ timestamp c2 = end_time.
Proof.
  intros Q K1 K2. destruct (query_of_range_inv _ _ _ Q) as (c1 & c2 & E1 & E2 & ->).
  exists c1, c2.
  pose proof (fromtimestamp_Ok _ _ E1) as G1. pose proof (fromtimestamp_Ok _ _ E2) as G2.
  unfold fromtimestamp_utc in E1, E2.
  apply datetime_utc_Ok in E1, E2. destruct E1 as [V1 ->]. destruct E2 as [V2 ->].
  rewrite <- G1 in K1. rewrite <- G2 in K2.
  rewrite parse_query_make by (apply stamp_fields_valid; assumption).
  split; [reflexivity|].
  rewrite G1, G2. split; apply gmtime_spec.
Qed.

(** ** Stamps the service refuses *)

(** The number of decimal digits at the front of a string. *)
Fixpoint lead_digits (s : string) : nat :=
  match s with
  | String c s' => if isSome (parse_digit c) then S (lead_digits s') else O
  | EmptyString => O
  end.

Lemma lead_digits_pad w n rest : lead_digits (pad w n ++ rest) = (w + lead_digits rest)%nat.
Proof.
  induction w as [|w IH]; [reflexivity|]. cbn [pad String.append lead_digits].
  rewrite parse_digit_char by (pose proof (Z.mod_pos_bound (n / 10 ^ Z.of_nat w) 10); lia).
  cbn [isSome]. now rewrite IH.
Qed.

Lemma parse_fixed_lead w acc s v r :
  parse_fixed w acc s = Some (v, r) -> lead_digits s = (w + lead_digits r)%nat.
Proof.
  revert acc s; induction w as [|w IH]; intros acc s; cbn [parse_fixed].
  - now intros [= -> ->].
  - destruct s as [|c s]; [discriminate|]. cbn [lead_digits].
    destruct (parse_digit c) eqn:D; [|discriminate]. intros P. cbn [isSome].
    rewrite (IH _ _ P). reflexivity.
Qed.

Lemma expect_T_lead s r : expect "T" s = Some r -> lead_digits s = O.
Proof.
  destruct s as [|c s]; [discriminate|]. cbn [expect lead_digits].
  destruct (Ascii.eqb "T" c) eqn:E; [|discriminate]. apply Ascii.eqb_eq in E. now subst c.
Qed.

(** A stamp the service reads starts with exactly eight digits. *)
Lemma parse_stamp_lead s c r : parse_stamp s = Some (c, r) -> lead_digits s = 8%nat.
Proof.
  unfold parse_stamp.
  destruct (parse_fixed 4 0 s) as [[y s1]|] eqn:P1; [|discriminate].
  destruct (parse_fixed 2 0 s1) as [[m s2]|] eqn:P2; [|discriminate].
  destruct (parse_fixed 2 0 s2) as [[d s3]|] eqn:P3; [|discriminate].
  destruct (expect "T" s3) as [s4|] eqn:P4; [|discriminate]. intros _.
  rewrite (parse_fixed_lead _ _ _ _ _ P1), (parse_fixed_lead _ _ _ _ _ P2),
    (parse_fixed_lead _ _ _ _ _ P3), (expect_T_lead _ _ P4). reflexivity.
Qed.

(** The stamp of a year below 1000 starts with fewer than eight digits. *)
Lemma format_stamp_short c rest :
  c_year c < 1000 -> (lead_digits (format_stamp c ++ rest) < 8)%nat.
Proof.
  intros Hy. unfold format_stamp. rewrite !string_app_assoc, !lead_digits_pad.
  assert (W : (year_width (c_year c) <= 3)%nat)
    by (unfold year_width; zbool; cbn; lia).
  assert (T : forall r, lead_digits ("T" ++ r) = O) by reflexivity.
  rewrite T. lia.
Qed.

(** The service refuses a stamp that does not start with eight digits. *)
Lemma parse_stamp_short c rest :
  c_year c < 1000 -> parse_stamp (format_stamp c ++ rest) = None.
Proof.
  intros Hy. destruct (parse_stamp _) as [[c' r]|] eqn:P; [|reflexivity].
  apply parse_stamp_lead in P. pose proof (format_stamp_short c rest Hy). lia.
Qed.

Lemma parse_query_short c1 c2 :
  valid_civil c1 = true -> c_year c1 < 1000 \/ c_year c2 < 1000 ->
  parse_query (make_query (format_stamp c1) (format_stamp c2)) = None.
Proof.
  intros V1 Hy. unfold parse_query, make_query. rewrite expect_app.
  destruct (Z.lt_ge_cases (c_year c1) 1000) as [Y1|Y1].
  - now rewrite parse_stamp_short.
  - rewrite parse_stamp_format by (apply stamp_fields_valid; assumption).
    rewrite expect_app, parse_stamp_short by lia. reflexivity.
Qed.

(** C32: The service reads back from the query exactly the two timestamps
    the script was given, when their UTC years have four digits. *)
Theorem query_of_range_roundtrip start_time end_time q :
  query_of_range start_time end_time = Ok q ->
  1000 <= c_year (gmtime start_time) -> 1000 <= c_year (gmtime end_time) ->
  exists c1 c2, parse_query q = Some (c1, c2)
                /\ timestamp c1 = start_time /\ timestamp c2 = end_time.
Proof. apply query_of_range_parse. Qed.

(** C33: Against the spec's [YYYYMMDDTHHMMSSZ], a timestamp whose UTC year
    is below 1000 (and at least 1, or [datetime] raises) is formatted
    with fewer than four year digits, as glibc's [%Y] writes it: the
    query is built, but no stamp of the spec's form can be read from it,
    and the service refuses it. *)
Theorem query_of_range_short_year start_time end_time q :
  query_of_range start_time end_time = Ok q ->
  c_year (gmtime start_time) < 1000 \/ c_year (gmtime end_time) < 1000 ->
  parse_query q = None.
Proof.
  intros Q Hy. destruct (query_of_range_inv _ _ _ Q) as (c1 & c2 & E1 & E2 & ->).
  rewrite <- (fromtimestamp_Ok _ _ E1), <- (fromtimestamp_Ok _ _ E2) in Hy.
  apply parse_query_short; [|exact Hy].
  unfold fromtimestamp_utc in E1. apply datetime_utc_Ok in E1 as [V ->]. exact V.
Qed.

(** ** Concrete runs *)

(** The range of the spec's example: from 2023-11-14 22:13:20 UTC to one
    day later. *)
Lemma query_of_range_roundtrip_witness :
  query_of_range 1700000000 1700086400 = Ok (make_query "20231114T221320Z" "20231115T221320Z")
  /\ 1000 <= c_year (gmtime 1700000000) /\ 1000 <= c_year (gmtime 1700086400)
  /\ exists c1 c2, parse_query (make_query "20231114T221320Z" "20231115T221320Z") = Some (c1, c2)
                   /\ timestamp c1 = 1700000000 /\ timestamp c2 = 1700086400.
Proof.
  assert (E : query_of_range 1700000000 1700086400
              = Ok (make_query "20231114T221320Z" "20231115T221320Z"))
    by (vm_compute; reflexivity).
  assert (K1 : 1000 <= c_year (gmtime 1700000000)) by (vm_compute; discriminate).
  assert (K2 : 1000 <= c_year (gmtime 1700086400)) by (vm_compute; discriminate).
  split; [exact E | split; [exact K1 | split; [exact K2|]]].
  exact (query_of_range_roundtrip _ _ _ E K1 K2).
Defined.

(** A range from 0999-01-01 00:00:00 UTC ([-30641760000]) to the spec's
    example day: the query starts with [9990101T000000Z]. *)
Lemma query_of_range_short_year_witness :
  query_of_range (-30641760000) 1700086400
  = Ok (make_query "9990101T000000Z" "20231115T221320Z")
  /\ (c_year (gmtime (-30641760000)) < 1000 \/ c_year (gmtime 1700086400) < 1000)
  /\ parse_query (make_query "9990101T000000Z" "20231115T221320Z") = None.
Proof.
  assert (E : query_of_range (-30641760000) 1700086400
              = Ok (make_query "9990101T000000Z" "20231115T221320Z"))
    by (vm_compute; reflexivity).
  assert (Y : c_year (gmtime (-30641760000)) < 1000 \/ c_year (gmtime 1700086400) < 1000)
    by (left; vm_compute; reflexivity).
  split; [exact E | split; [exact Y|]].
  exact (query_of_range_short_year _ _ _ E Y).
Defined.
