(* ===== verification/FakeBackend.v ===== *)
(** * FakeBackend: an in-memory calendar service

    An implementation of [Backend.CalendarBackend] without a calendar
    service, as the spec's design notes ask for: a world of calendars,
    each with its source, an optional connection error and its objects,
    each object stored with the interval [[from, to)] it occupies.  The
    object-list call parses the S-expression query with
    [Query.parse_query] and returns the objects whose interval meets the
    queried range, which is the meaning of [occur-in-time-range?].  It is
    used for the concrete runs of the scripts and for the theorems that
    need the query's meaning. *)

From Stdlib Require Import ZArith String List Bool.
From S2P Require Import Prelude Civil Backend Query.
Import ListNotations.
Open Scope Z_scope.
Open Scope list_scope.

(** A calendar of the fake service. *)
Record fake_calendar : Type := mk_fake_calendar {
  fc_source : source;
  fc_connect_error : option string;
  fc_objects : list (ical_object * (Z * Z)) }.

(** The service: whether the registry fails to open, its calendars, and
    what [new_from_string] answers for the texts it knows (a component,
    [None], or an error); it answers [None] for any other text. *)
Record fake_world : Type := mk_fake_world {
  fw_registry_error : option string;
  fw_calendars : list fake_calendar;
  fw_texts : list (string * exc (option ecal_component)) }.

(** [occur-in-time-range?]: the interval [[a, b)] meets [[t1, t2)]. *)
Definition meets (ab : Z * Z) (t1 t2 : Z) : bool :=
  (fst ab <? t2) && (t1 <? snd ab).

(** The objects of a calendar that occur in the range of the query. *)
Definition fake_object_list (fc : fake_calendar) (q : string) : exc (bool * list ical_object) :=
  match parse_query q with
  | None => Raise (GLibError "Invalid query")
  | Some (c1, c2) =>
      Ok (true, map fst (filter (fun oab => meets (snd oab) (timestamp c1) (timestamp c2))
                           (fc_objects fc)))
  end.

Definition fake_connect (w : fake_world) (src : source) : exc fake_calendar :=
  match find (fun fc => String.eqb (uid (fc_source fc)) (uid src)) (fw_calendars w) with
  | Some fc =>
      match fc_connect_error fc with
      | Some msg => Raise (GLibError msg)
      | None => Ok fc
      end
  | None => Raise (GLibError "No such source")
  end.

Definition fake_new_from_string (w : fake_world) (text : string) : exc (option ecal_component) :=
  match find (fun te => String.eqb (fst te) text) (fw_texts w) with
  | Some (_, r) => r
  | None => Ok None
  end.

Definition fake_backend (w : fake_world) : CalendarBackend := {|
  registry := unit;
  client := fake_calendar;
  registry_new_sync :=
    match fw_registry_error w with Some msg => Raise (GLibError msg) | None => Ok tt end;
  list_sources := fun _ => Ok (map fc_source (fw_calendars w));
  connect_sync := fun src _ => fake_connect w src;
  get_object_list_sync := fake_object_list;
  new_from_string := fake_new_from_string w |}.
