(* ===== verification/Event.v ===== *)
(** * Event: the per-event body of the main loop of [calendar-events.py]

    For every object of a calendar's result list (lines 94-130) the loop
    takes the object itself when it has [get_summary], parses it with
    [ECal.Component.new_from_string] otherwise, skips a missing component,
    defaults the summary to ["(No title)"], skips an event whose start
    [safe_get_time] rejects, defaults a missing or non-advancing end to one
    hour after the start, and appends the record to the global list
    [all_events].  The summary, location and description are converted
    to [str] as they are read; one that is not UTF-8 raises
    [UnicodeDecodeError] there.  Every tenth object a progress line is printed; any
    exception is printed and the object skipped.

    The state the loop mutates is [run_state]: the shared list
    [all_events] and the lines written to stderr ([diag], one constructor
    per [print] of the loop).  The per-object step is a [stexc]
    computation caught by [st_catch], so an exception keeps what was done
    before it. *)

From Stdlib Require Import ZArith String List Bool Lia.
From S2P Require Import Prelude Utf8 ICalTime TimeNorm Backend FakeBackend.
Import ListNotations.
Open Scope Z_scope.

(** The dictionary appended to [all_events] (lines 117-124). *)
Record event_record : Type := mk_event {
  summary : string;
  start : Z;
  end_ : Z;
  location : string;
  description : string;
  calendar : string }.

(** The lines [calendar-events.py] writes to stderr, by the line that prints them. *)
Inductive diag : Type :=
| DStarting (start_time end_time : Z)                 (* line 17 *)
| DGettingRegistry                                    (* line 51 *)
| DRegistryObtained                                   (* line 53 *)
| DFoundSources (count : nat)                         (* line 56 *)
| DSkippingDisabled (name : string)                   (* line 60 *)
| DProcessing (name : string)                         (* line 64 *)
| DConnecting (name : string)                         (* line 67 *)
| DConnected (name : string)                          (* line 74 *)
| DQuery (query : string)                             (* line 83 *)
| DGettingObjects (name : string)                     (* line 85 *)
| DGotObjects (name : string) (success : bool) (count : nat)  (* line 87 *)
| DNoEvents (name : string)                           (* line 90 *)
| DProcessingEvents (name : string) (count : nat)     (* line 93 *)
| DProcessed (name : string) (count : nat)            (* line 127 *)
| DEventError (idx : nat) (name : string) (e : PyExc) (* line 129 *)
| DFinished (name : string) (count : nat)             (* line 132 *)
| DCalendarError (name : string) (e : PyExc)          (* line 135 *)
| DSorting (count : nat)                              (* line 137 *)
| DDone.                                              (* line 139 *)

(** The global list [all_events] and the stderr output. *)
Record run_state : Type := mk_state {
  all_events : list event_record;
  log : list diag }.

(** [all_events.append(ev)] *)
Definition append_event (ev : event_record) (s : run_state) : run_state :=
  mk_state (all_events s ++ [ev]) (log s).

(** [print(..., file=sys.stderr)] *)
Definition emit (d : diag) (s : run_state) : run_state :=
  mk_state (all_events s) (log s ++ [d]).

(** The [Processed N events] lines of a log (line 127), by calendar. *)
Definition progress_lines (l : list diag) : list (string * nat) :=
  flat_map (fun d => match d with DProcessed n k => [(n, k)] | _ => [] end) l.

Section Events.
Context `{CalendarBackend} `{TzDatabase} `{LocalZone}.

(** Lines 96-102: the component itself, or [new_from_string] of its text. *)
Definition to_component (obj : ical_object) : exc (option component) :=
  match obj with
  | ObjComponent c => Ok (Some c)
  | ObjString s =>
      (e <- new_from_string s ;; Ok (option_map ecal_as_component e))%exc
  end.

(** Lines 104-124: the record of a component, or [None] when the loop
    [continue]s at line 108.  Each text property is converted to [str] as
    it is read (line 104, then lines 114-115), and raises
    [UnicodeDecodeError] when it is not UTF-8. *)
Definition event_of_component (calendar_name : string) (comp : component)
    : exc (option event_record) :=
  match py_text_opt (get_summary comp) with
  | Raise e => Raise e
  | Ok summary0 =>
      let summary := py_or_str summary0 "(No title)" in
      match safe_get_time (get_dtstart comp) with
      | None => Ok None
      | Some start_timestamp =>
          let end_timestamp :=
            match safe_get_time (get_dtend comp) with
            | None => start_timestamp + 3600
            | Some e => if e =? start_timestamp then start_timestamp + 3600 else e
            end in
          match py_text_opt (get_location comp) with
          | Raise e => Raise e
          | Ok location =>
              match py_text_opt (get_description comp) with
              | Raise e => Raise e
              | Ok description =>
                  Ok (Some (mk_event summary start_timestamp end_timestamp
                              (py_or_str location "") (py_or_str description "")
                              calendar_name))
              end
          end
      end
  end.

Local Open Scope exc_scope.

(** Lines 96-127: the body of the per-object [try]. *)
Definition event_body (calendar_name : string) (idx : nat) (obj : ical_object)
    : stexc run_state unit :=
  comp <-- st_lift (to_component obj) ;;;
  match comp with
  | None => st_ret tt
  | Some comp =>
      r <-- st_lift (event_of_component calendar_name comp) ;;;
      match r with
      | None => st_ret tt
      | Some ev =>
          st_modify (append_event ev) ;;;
          if Nat.eqb (Nat.modulo (idx + 1) 10) 0
          then st_modify (emit (DProcessed calendar_name (idx + 1)))
          else st_ret tt
      end
  end.

(** Lines 95-130: the body and its handler. *)
Definition process_event (calendar_name : string) (idx : nat) (obj : ical_object)
    (s : run_state) : run_state :=
  st_catch (event_body calendar_name idx obj)
    (fun e s' => emit (DEventError idx calendar_name e) s') s.

(** Line 94: [for idx, ical_obj in enumerate(ical_objects)], from index
    [idx]. *)
Fixpoint process_events (calendar_name : string) (idx : nat) (objs : list ical_object)
    (s : run_state) : run_state :=
  match objs with
  | [] => s
  | obj :: rest => process_events calendar_name (S idx) rest (process_event calendar_name idx obj s)
  end.

(** The record an object contributes when nothing raises. *)
Definition event_of_object (calendar_name : string) (obj : ical_object) : option event_record :=
  match to_component obj with
  | Ok (Some c) =>
      match event_of_component calendar_name c with Ok r => r | Raise _ => None end
  | _ => None
  end.

(** The counts the object loop reports from index [idx]: the position
    [idx + 1] of every object that gives a record, when it is a multiple
    of ten. *)
Definition progress_marks (calendar_name : string) (idx : nat) (objs : list ical_object)
    : list nat :=
  map fst (filter (fun ko => Nat.eqb (Nat.modulo (fst ko) 10) 0
                             && isSome (event_of_object calendar_name (snd ko)))
             (combine (seq (S idx) (length objs)) objs)).

(** ** One object *)

(** An object adds its record, if any, at the end of [all_events]; an
    exception adds nothing. *)
Lemma process_event_all_events name idx obj s :
  all_events (process_event name idx obj s) =
  all_events s ++ list_of_option (event_of_object name obj).
Proof.
  unfold process_event, event_body, event_of_object; autounfold with monads.
  destruct (to_component obj) as [[c|]|e]; simpl; try now rewrite app_nil_r.
  destruct (event_of_component name c) as [[ev|]|e]; simpl; try now rewrite app_nil_r.
  unfold st_bind, st_modify. destruct (Nat.eqb _ _); reflexivity.
Qed.

(** The per-object handler: when reading the object raises, the
    exception is printed with the object's index and calendar and the
    list of events is left as it was. *)
Theorem process_event_raise name idx obj s e :
  to_component obj = Raise e ->
  process_event name idx obj s = emit (DEventError idx name e) s.
Proof. intros E. unfold process_event, event_body; autounfold with monads. now rewrite E. Qed.

(** ** The records *)

(** What a record is made of: the decoded texts, the start, and the end
    computed from DTEND. *)
Lemma event_of_component_some name c ev :
  event_of_component name c = Ok (Some ev) ->
  exists su lo de st,
    py_text_opt (get_summary c) = Ok su /\ safe_get_time (get_dtstart c) = Some st
    /\ py_text_opt (get_location c) = Ok lo /\ py_text_opt (get_description c) = Ok de
    /\ ev = mk_event (py_or_str su "(No title)") st
              (match safe_get_time (get_dtend c) with
               | None => st + 3600
               | Some e => if e =? st then st + 3600 else e
               end)
              (py_or_str lo "") (py_or_str de "") name.
Proof.
  unfold event_of_component.
  destruct (py_text_opt (get_summary c)) as [su|]; [|discriminate].
  destruct (safe_get_time (get_dtstart c)) as [st|]; [|discriminate].
  destruct (py_text_opt (get_location c)) as [lo|]; [|discriminate].
  destruct (py_text_opt (get_description c)) as [de|]; [|discriminate].
  intros Hev. injection Hev as <-. exists su, lo, de, st. auto.
Qed.

Lemma event_end_ne_start_core name c ev :
  event_of_component name c = Ok (Some ev) -> end_ ev <> start ev.
Proof.
  intros Hev. destruct (event_of_component_some _ _ _ Hev) as (su & lo & de & st & _ & _ & _ & _ & ->).
  cbn [end_ start]. destruct (safe_get_time (get_dtend c)) as [e|]; [zbool|]; lia.
Qed.

(** C17: A missing or unreadable end, or an end equal to the start, becomes
    one hour after the start. *)
Theorem event_end_default name c ev :
  event_of_component name c = Ok (Some ev) ->
  safe_get_time (get_dtend c) = None \/ safe_get_time (get_dtend c) = Some (start ev) ->
  end_ ev = start ev + 3600.
Proof.
  intros Hev. destruct (event_of_component_some _ _ _ Hev) as (su & lo & de & st & _ & _ & _ & _ & ->).
  cbn [end_ start]. intros [E | E]; rewrite E; [reflexivity|]. now rewrite Z.eqb_refl.
Qed.

(** C19: Any other end is kept as it is read: against the spec's
    invariant [end > start], a DTEND that reads to an instant before the
    DTSTART gives a record that ends before it starts. *)
Theorem event_end_kept name c ev e :
  event_of_component name c = Ok (Some ev) ->
  safe_get_time (get_dtend c) = Some e -> e <> start ev -> end_ ev = e.
Proof.
  intros Hev. destruct (event_of_component_some _ _ _ Hev) as (su & lo & de & st & _ & _ & _ & _ & ->).
  cbn [end_ start]. intros E Ne. rewrite E. zbool; [contradiction | reflexivity].
Qed.

(** A missing or empty summary becomes ["(No title)"]. *)
Theorem event_summary_default name c ev :
  event_of_component name c = Ok (Some ev) ->
  get_summary c = None \/ get_summary c = Some EmptyString ->
  summary ev = "(No title)"%string.
Proof.
  intros Hev. destruct (event_of_component_some _ _ _ Hev) as (su & lo & de & st & S & _ & _ & _ & ->).
  cbn [summary]. intros [E | E]; rewrite E in S; injection S as <-; reflexivity.
Qed.

(** An event whose start [safe_get_time] rejects gives no record. *)
Theorem event_start_required name c ev :
  safe_get_time (get_dtstart c) = None -> event_of_component name c <> Ok (Some ev).
Proof.
  intros E Hev. destruct (event_of_component_some _ _ _ Hev) as (su & lo & de & st & _ & S & _).
  congruence.
Qed.

(** C23: An object returned as text is parsed into an [ECal.Component],
    whose start is an [ECal.ComponentDateTime]; [safe_get_time] fails on
    it, so such an object never gives a record. *)
Theorem string_object_skipped name s :
  event_of_object name (ObjString s) = None.
Proof.
  unfold event_of_object, to_component.
  destruct (new_from_string s) as [[e|]|]; try reflexivity. simpl.
  unfold event_of_component. cbn [ecal_as_component get_summary get_dtstart py_text_opt].
  now destruct (ec_dtstart e).
Qed.

(** Every text of a record decodes: the script only keeps texts that
    PyGObject could convert to [str]. *)
Lemma py_text_opt_valid o t s : py_text_opt o = Ok t -> t = Some s -> valid_utf8 s = true.
Proof.
  destruct o as [s'|]; cbn; [|now intros [= <-]].
  unfold py_text. destruct (valid_utf8 s') eqn:V; [|discriminate]. now intros [= <-] [= <-].
Qed.

Lemma py_or_str_valid o d :
  (forall s, o = Some s -> valid_utf8 s = true) -> valid_utf8 d = true ->
  valid_utf8 (py_or_str o d) = true.
Proof. destruct o as [s|]; cbn; [|auto]. intros Hs D. destruct (String.eqb s _); auto. Qed.

Lemma event_of_object_texts name o ev :
  event_of_object name o = Some ev ->
  valid_utf8 (summary ev) && valid_utf8 (location ev) && valid_utf8 (description ev) = true
  /\ calendar ev = name.
Proof.
  unfold event_of_object. destruct (to_component o) as [[c|]|]; try discriminate.
  destruct (event_of_component name c) as [r|] eqn:Hev; [intros ->|discriminate].
  destruct (event_of_component_some _ _ _ Hev) as (su & lo & de & st & S & _ & L & D & ->).
  cbn [summary location description calendar]. split; [|reflexivity].
  rewrite !py_or_str_valid; try reflexivity; eauto using py_text_opt_valid.
Qed.

(** ** The loop over the objects *)

(** The loop over a calendar's objects appends, in order, the record of
    every object that gives one. *)
Lemma process_events_all_events name idx objs s :
  all_events (process_events name idx objs s) =
  all_events s ++ flat_map (fun o => list_of_option (event_of_object name o)) objs.
Proof.
  revert idx s; induction objs as [|o objs IH]; intros idx s; simpl.
  - now rewrite app_nil_r.
  - rewrite IH, process_event_all_events. now rewrite app_assoc.
Qed.

Lemma progress_lines_app l1 l2 :
  progress_lines (l1 ++ l2) = progress_lines l1 ++ progress_lines l2.
Proof. apply flat_map_app. Qed.

Lemma process_event_progress name idx obj s :
  progress_lines (log (process_event name idx obj s)) =
  progress_lines (log s)
  ++ (if isSome (event_of_object name obj) && Nat.eqb (Nat.modulo (idx + 1) 10) 0
      then [(name, (idx + 1)%nat)] else []).
Proof.
  unfold process_event, event_body, event_of_object; autounfold with monads.
  destruct (to_component obj) as [[c|]|e]; cbn [fst snd isSome andb];
    try (unfold emit; cbn [log]; now rewrite ?progress_lines_app, ?app_nil_r).
  destruct (event_of_component name c) as [[ev|]|e]; cbn [isSome andb fst snd];
    try (unfold emit; cbn [log]; now rewrite ?progress_lines_app, ?app_nil_r).
  unfold st_bind, st_modify, st_ret, emit, append_event.
  destruct (Nat.eqb _ _); cbn [fst snd log]; [now rewrite progress_lines_app|].
  now rewrite app_nil_r.
Qed.

(** C18: The loop over a calendar's objects prints [Processed N events]
    for exactly the objects that give a record and whose position
    [N = idx + 1] is a multiple of ten: [N] counts objects, not events,
    and a tenth object that gives no record prints no line. *)
Theorem process_events_progress name idx objs s :
  progress_lines (log (process_events name idx objs s)) =
  progress_lines (log s) ++ map (fun k => (name, k)) (progress_marks name idx objs).
Proof.
  unfold progress_marks. revert idx s; induction objs as [|o objs IH]; intros idx s; cbn [process_events].
  - now rewrite app_nil_r.
  - rewrite IH, process_event_progress, <- app_assoc. f_equal.
    cbn [length seq combine filter fst snd]. rewrite Nat.add_1_r, andb_comm.
    destruct (_ && _); reflexivity.
Qed.

(** C20: An object whose reading raises is skipped without affecting the
    other objects: the events appended are those of the loop without it. *)
Theorem process_events_skip_raising name idx objs1 obj objs2 s e :
  to_component obj = Raise e ->
  all_events (process_events name idx (objs1 ++ obj :: objs2) s) =
  all_events (process_events name idx (objs1 ++ objs2) s).
Proof.
  intros E. assert (N : event_of_object name obj = None)
    by (unfold event_of_object; now rewrite E).
  rewrite !process_events_all_events, !flat_map_app. cbn [flat_map]. now rewrite N.
Qed.

End Events.

(** ** Concrete runs *)

#[local] Existing Instances tzdb_wib local_wib.

(** The spec's example: "Standup", 2023-11-14 23:13:20 to 2023-11-15
    00:13:20 UTC. *)
Definition standup : component :=
  ical_component (Some "Standup"%string) (mk_icaltime 2023 11 14 23 13 20 false UTC)
    (mk_icaltime 2023 11 15 0 13 20 false UTC) None None.

(** The same event without DTEND and without SUMMARY. *)
Definition untitled : component :=
  ical_component None (mk_icaltime 2023 11 14 23 13 20 false UTC) null_time None None.

(** An event whose DTEND precedes its DTSTART. *)
Definition backwards : component :=
  ical_component (Some "Backwards"%string) (mk_icaltime 2023 11 14 23 13 20 false UTC)
    (mk_icaltime 2023 11 14 22 13 20 false UTC) None None.

(** A service whose parser fails on the text ["BEGIN:VEVENT"]. *)
Definition broken_parser : fake_world :=
  mk_fake_world None [] [("BEGIN:VEVENT"%string, Raise (GLibError "Invalid iCalendar"))].

Lemma process_event_raise_witness :
  @to_component (fake_backend broken_parser) (ObjString "BEGIN:VEVENT")
    = Raise (GLibError "Invalid iCalendar")
  /\ @process_event (fake_backend broken_parser) _ _ "Work" 3 (ObjString "BEGIN:VEVENT")
       (mk_state [] [])
     = mk_state [] [DEventError 3 "Work" (GLibError "Invalid iCalendar")].
Proof.
  assert (E : @to_component (fake_backend broken_parser) (ObjString "BEGIN:VEVENT")
              = Raise (GLibError "Invalid iCalendar")) by reflexivity.
  split; [exact E|]. rewrite (@process_event_raise (fake_backend broken_parser) _ _ _ _ _ _ _ E).
  reflexivity.
Defined.

Lemma event_end_default_witness :
  event_of_component "Work" untitled
    = Ok (Some (mk_event "(No title)" 1700003600 1700007200 "" "" "Work"))
  /\ 1700007200 = 1700003600 + 3600.
Proof.
  assert (E : event_of_component "Work" untitled
              = Ok (Some (mk_event "(No title)" 1700003600 1700007200 "" "" "Work")))
    by (vm_compute; reflexivity).
  assert (E2 : safe_get_time (get_dtend untitled) = None) by (vm_compute; reflexivity).
  split; [exact E|]. exact (event_end_default _ _ _ E (or_introl E2)).
Defined.

Lemma event_summary_default_witness :
  get_summary untitled = None /\ summary (mk_event "(No title)" 1700003600 1700007200 "" "" "Work")
                                 = "(No title)"%string.
Proof.
  assert (E : event_of_component "Work" untitled
              = Ok (Some (mk_event "(No title)" 1700003600 1700007200 "" "" "Work")))
    by (vm_compute; reflexivity).
  split; [reflexivity | exact (event_summary_default _ _ _ E (or_introl eq_refl))].
Defined.

Lemma process_events_skip_raising_witness :
  @to_component (fake_backend broken_parser) (ObjString "BEGIN:VEVENT")
    = Raise (GLibError "Invalid iCalendar")
  /\ all_events (@process_events (fake_backend broken_parser) _ _ "Work" 0
                  ([ObjComponent standup] ++ ObjString "BEGIN:VEVENT" :: [ObjComponent untitled])
                  (mk_state [] []))
     = [mk_event "Standup" 1700003600 1700007200 "" "" "Work";
        mk_event "(No title)" 1700003600 1700007200 "" "" "Work"].
Proof.
  assert (E : @to_component (fake_backend broken_parser) (ObjString "BEGIN:VEVENT")
              = Raise (GLibError "Invalid iCalendar")) by reflexivity.
  split; [exact E|].
  rewrite (@process_events_skip_raising (fake_backend broken_parser) _ _ _ _ _ _ _ _ _ E).
  vm_compute. reflexivity.
Defined.

Lemma event_start_required_witness :
  safe_get_time (get_dtstart (ical_component None null_time null_time None None)) = None
  /\ event_of_component "Work" (ical_component None null_time null_time None None)
     <> Ok (Some (mk_event "(No title)" 0 3600 "" "" "Work")).
Proof.
  assert (E : safe_get_time (get_dtstart (ical_component None null_time null_time None None)) = None)
    by (vm_compute; reflexivity).
  split; [exact E | exact (event_start_required _ _ _ E)].
Defined.

(** A DTEND an hour before the DTSTART is kept. *)
Lemma event_end_kept_witness :
  event_of_component "Work" backwards
    = Ok (Some (mk_event "Backwards" 1700003600 1700000000 "" "" "Work"))
  /\ safe_get_time (get_dtend backwards) = Some 1700000000
  /\ 1700000000 <> start (mk_event "Backwards" 1700003600 1700000000 "" "" "Work")
  /\ end_ (mk_event "Backwards" 1700003600 1700000000 "" "" "Work") = 1700000000.
Proof.
  assert (E : event_of_component "Work" backwards
              = Ok (Some (mk_event "Backwards" 1700003600 1700000000 "" "" "Work")))
    by (vm_compute; reflexivity).
  assert (D : safe_get_time (get_dtend backwards) = Some 1700000000) by (vm_compute; reflexivity).
  assert (N : 1700000000 <> start (mk_event "Backwards" 1700003600 1700000000 "" "" "Work"))
    by (cbn; lia).
  split; [exact E | split; [exact D | split; [exact N|]]].
  exact (event_end_kept _ _ _ _ E D N).
Defined.

(** A calendar whose first object is a text the service cannot parse,
    followed by nine events: after the ninth record the loop prints
    [Processed 10 events]. *)
Example progress_counts_objects :
  let objs := ObjString "BEGIN:VEVENT"%string :: repeat (ObjComponent standup) 9 in
  let s := @process_events (fake_backend broken_parser) _ _ "Work"%string 0 objs (mk_state [] []) in
  length (all_events s) = 9%nat /\ progress_lines (log s) = [("Work"%string, 10%nat)].
Proof. vm_compute. split; reflexivity. Qed.

(** A summary that is not UTF-8 (the byte 0xFF) raises
    [UnicodeDecodeError] when line 104 reads it: the object is reported
    and skipped, the next one is kept. *)
Definition garbled : component :=
  ical_component (Some (String (Ascii.ascii_of_nat 255) "Standup"))
    (mk_icaltime 2023 11 14 23 13 20 false UTC) (mk_icaltime 2023 11 15 0 13 20 false UTC)
    None None.

Example undecodable_summary_skipped :
  @process_events (fake_backend broken_parser) _ _ "Work"%string 0
    [ObjComponent garbled; ObjComponent standup] (mk_state [] [])
  = mk_state [mk_event "Standup" 1700003600 1700007200 "" "" "Work"]
      [DEventError 0 "Work" utf8_error].
Proof. vm_compute. reflexivity. Qed.
