(* ===== verification/Sort.v ===== *)
(** * Sort: [all_events.sort(key=lambda x: x['start'])]

    Line 138 of [calendar-events.py] sorts the records in place by their
    [start] with Python's [list.sort], which is stable: records with the
    same start keep the order in which they were appended.  This file
    models the sort by key as an insertion sort ([sort_by]) and proves
    what makes it the result of [list.sort]: the output is sorted by the
    key, is a permutation of the input, keeps the relative order of the
    elements of each key (stability), and a list with these three
    properties is unique ([sorted_same_keys_eq]), so every stable sort
    (Python's TimSort included) returns [sort_by]'s result.  The section
    is generic in the element type and the key. *)

From Stdlib Require Import ZArith List Bool Sorted Permutation Lia.
From S2P Require Import Prelude.
Import ListNotations.
Open Scope Z_scope.

Section StableSort.
Context {A : Type} (key : A -> Z).

(** Insert [x] before the first element whose key is not smaller. *)
Fixpoint insert (x : A) (l : list A) : list A :=
  match l with
  | [] => [x]
  | y :: l' => if key x <=? key y then x :: y :: l' else y :: insert x l'
  end.

(** [l.sort(key=key)] *)
Definition sort_by (l : list A) : list A := fold_right insert [] l.

(** Sorted by the key, non-decreasing. *)
Definition key_le (a b : A) : Prop := key a <= key b.

(** The elements of key [k], in order. *)
Definition with_key (k : Z) (l : list A) : list A := filter (fun x => key x =? k) l.

(** ** The insertion *)

Lemma insert_perm x l : Permutation (x :: l) (insert x l).
Proof.
  induction l as [|y l IH]; simpl; [reflexivity|].
  destruct (key x <=? key y); [reflexivity|].
  rewrite perm_swap. now apply perm_skip.
Qed.

Lemma insert_sorted x l : Sorted key_le l -> Sorted key_le (insert x l).
Proof.
  induction 1 as [|y l Hs IH Hhd]; simpl; [repeat constructor|].
  unfold key_le in *. zbool.
  - constructor; [constructor; assumption | constructor; unfold key_le; lia].
  - constructor; [exact IH|].
    destruct l as [|z l]; simpl; [constructor; unfold key_le; lia|].
    inversion Hhd; subst. zbool; constructor; unfold key_le; lia.
Qed.

Lemma with_key_insert k x l :
  with_key k (insert x l) = with_key k (x :: l).
Proof.
  unfold with_key. induction l as [|y l IH]; simpl; [reflexivity|].
  destruct (key x <=? key y) eqn:Hxy; [reflexivity|]. simpl. rewrite IH. simpl.
  zbool; try reflexivity; lia.
Qed.

Lemma sorted_head_le x l z : Sorted key_le (x :: l) -> In z l -> key x <= key z.
Proof.
  intros S Hz. apply Sorted_StronglySorted in S; [|intros a b c; unfold key_le; lia].
  apply StronglySorted_inv in S as [_ F]. rewrite Forall_forall in F. exact (F z Hz).
Qed.

(** Two lists with the same elements of each key have the same elements. *)
Lemma in_same_keys l1 l2 z :
  (forall k, with_key k l1 = with_key k l2) -> In z l1 -> In z l2.
Proof.
  intros F Hz. assert (H : In z (with_key (key z) l1))
    by (apply filter_In; split; [exact Hz | apply Z.eqb_refl]).
  rewrite F in H. now apply filter_In in H.
Qed.

(** ** The sort *)

(** The sorted list is a permutation of the input. *)
Lemma sort_by_perm l : Permutation l (sort_by l).
Proof.
  induction l as [|x l IH]; simpl; [reflexivity|].
  rewrite <- insert_perm. now apply perm_skip.
Qed.

(** The sorted list is non-decreasing in the key. *)
Lemma sort_by_sorted l : Sorted key_le (sort_by l).
Proof. induction l as [|x l IH]; simpl; [constructor | now apply insert_sorted]. Qed.

(** The sort is stable: the elements of each key come out in the order
    they went in. *)
Lemma sort_by_stable k l : with_key k (sort_by l) = with_key k l.
Proof.
  induction l as [|x l IH]; simpl; [reflexivity|].
  rewrite with_key_insert. unfold with_key in *; simpl. now rewrite IH.
Qed.

(** A list sorted by the key is determined by its elements of each key:
    two sorted lists with the same elements of each key, in the same
    order, are equal. *)
Lemma sorted_same_keys_eq l1 l2 :
  Sorted key_le l1 -> Sorted key_le l2 ->
  (forall k, with_key k l1 = with_key k l2) -> l1 = l2.
Proof.
  revert l2; induction l1 as [|x l1 IH]; intros l2 S1 S2 F.
  - destruct l2 as [|y l2]; [reflexivity|]. exfalso.
    pose proof (in_same_keys _ _ y (fun k => eq_sym (F k)) (or_introl eq_refl)) as [].
  - destruct l2 as [|y l2].
    { exfalso. exact (in_same_keys _ _ x F (or_introl eq_refl)). }
    assert (Hxy : key x = key y).
    { pose proof (in_same_keys _ _ x F (or_introl eq_refl)) as [E | Hx];
        pose proof (in_same_keys _ _ y (fun k => eq_sym (F k)) (or_introl eq_refl)) as [E' | Hy];
        subst; try reflexivity;
        pose proof (sorted_head_le _ _ _ S2 Hx); try pose proof (sorted_head_le _ _ _ S1 Hy); lia. }
    pose proof (F (key x)) as Fx. unfold with_key in Fx; simpl in Fx.
    rewrite Z.eqb_refl, <- Hxy, Z.eqb_refl in Fx. injection Fx as <- _.
    f_equal. apply IH; [now apply Sorted_inv in S1 | now apply Sorted_inv in S2 |].
    intros k. specialize (F k). unfold with_key in *; simpl in F.
    destruct (key x =? k); [now injection F | exact F].
Qed.

(** C8: Any list that is sorted by the key and keeps the order of the
    elements of each key of [l] is [sort_by l]: every stable sort, Python's
    [list.sort] among them, computes the same list. *)
Corollary stable_sort_is_sort_by l l' :
  Sorted key_le l' -> (forall k, with_key k l' = with_key k l) -> l' = sort_by l.
Proof.
  intros S F. apply sorted_same_keys_eq; [exact S | apply sort_by_sorted |].
  intros k. now rewrite F, sort_by_stable.
Qed.

End StableSort.

(** ** Concrete runs *)

(** Five records keyed by their first component, with ties. *)
Definition sample : list (Z * nat) := [(3, 0%nat); (1, 1%nat); (3, 2%nat); (2, 3%nat); (1, 4%nat)].
Definition sample_sorted : list (Z * nat) :=
  [(1, 1%nat); (1, 4%nat); (2, 3%nat); (3, 0%nat); (3, 2%nat)].

Lemma sample_sorted_sorted : Sorted (key_le fst) sample_sorted.
Proof. repeat constructor; unfold key_le; simpl; lia. Qed.

Lemma sample_sorted_stable k : with_key fst k sample_sorted = with_key fst k sample.
Proof.
  unfold with_key, sample, sample_sorted; cbn [filter fst].
  destruct (Z.eqb_spec 1 k), (Z.eqb_spec 2 k), (Z.eqb_spec 3 k); try lia; reflexivity.
Qed.

Lemma stable_sort_is_sort_by_witness :
  Sorted (key_le fst) sample_sorted /\ sample_sorted = sort_by fst sample.
Proof.
  split; [exact sample_sorted_sorted|].
  exact (stable_sort_is_sort_by fst sample sample_sorted sample_sorted_sorted sample_sorted_stable).
Defined.
