(* ===== verification/Json.v ===== *)
(** * Json: [json.dumps] and a reader of what it prints

    Both listing scripts end with [print(json.dumps(...))] of a list of
    dictionaries: [calendar-events.py] line 141, [list-calendars.py] line
    21.  With the default arguments [json.dumps] runs CPython's C encoder
    ([Modules/_json.c]): [ensure_ascii] is on, so a string is written by
    [ascii_escape_unicode] (printable ASCII as itself, two-letter escapes
    for the backslash, the double quote and [\b \f \n \r \t], every
    other code point as [\uXXXX] with lowercase hex digits, and a code
    point above U+FFFF as its UTF-16 surrogate pair); lists and dictionaries use the separators [", "] and
    [": "]; dictionaries keep their insertion order; integers are written by
    [int.__repr__].

    A Python [str] is here its list of code points ([list Z]).  The value
    printed is a [json] tree; [dumps] is the encoder.  For the consumer's
    side, [json_read] reads a JSON text (bytes, decoded as UTF-8) the way
    [json.loads] does for the values the scripts print: whitespace between
    tokens, the escapes of [scanstring] with surrogate pairs joined, and
    integers.  The round trip [json_read (print (dumps v)) = Some v] holds
    for values whose strings hold scalar values, which every [str] decoded
    from UTF-8 does. *)

From Stdlib Require Import ZArith String Ascii List Bool Lia.
From Stdlib Require Import DecimalString DecimalZ.
From S2P Require Import Prelude Utf8.
Import ListNotations.
Open Scope Z_scope.
Open Scope list_scope.

(** ** Values *)

(** The Python values [json.dumps] meets in the scripts: [None], [True]
    and [False], [int], [str], [list] and [dict] with [str] keys. *)
Unset Elimination Schemes.
Inductive json : Type :=
| JNull
| JBool (b : bool)
| JInt (n : Z)
| JStr (s : list Z)
| JArr (l : list json)
| JObj (l : list (list Z * json)).
Set Elimination Schemes.

(** Induction through the lists of arrays and objects. *)
Definition json_ind (P : json -> Prop)
    (fnull : P JNull) (fbool : forall b, P (JBool b)) (fint : forall n, P (JInt n))
    (fstr : forall s, P (JStr s))
    (farr : forall l, Forall P l -> P (JArr l))
    (fobj : forall l, Forall (fun kv => P (snd kv)) l -> P (JObj l)) : forall v, P v :=
  fix F (v : json) : P v :=
    match v with
    | JNull => fnull
    | JBool b => fbool b
    | JInt n => fint n
    | JStr s => fstr s
    | JArr l => farr l ((fix G (l : list json) : Forall P l :=
                          match l with
                          | [] => Forall_nil _
                          | x :: r => Forall_cons _ (F x) (G r)
                          end) l)
    | JObj l => fobj l ((fix G (l : list (list Z * json)) : Forall (fun kv => P (snd kv)) l :=
                          match l with
                          | [] => Forall_nil _
                          | kv :: r => Forall_cons _ (F (snd kv)) (G r)
                          end) l)
    end.

(** The code points of an ASCII text: a [str] literal of the scripts. *)
Definition str (s : string) : list Z := map byte_of (list_ascii_of_string s).

(** ** The encoder *)

(** [Py_hexdigits[n]] for [n] in [[0, 16)]. *)
Definition hexdigit (n : Z) : Z := if n <? 10 then 48 + n else 87 + n.

(** The four hex digits [ascii_escape_unichar] writes after [\u]. *)
Definition hex4 (c : Z) : list Z :=
  [hexdigit (Z.land (Z.shiftr c 12) 15); hexdigit (Z.land (Z.shiftr c 8) 15);
   hexdigit (Z.land (Z.shiftr c 4) 15); hexdigit (Z.land c 15)].

(** [Py_UNICODE_HIGH_SURROGATE] and [Py_UNICODE_LOW_SURROGATE] *)
Definition high_surrogate (c : Z) : Z := 0xD800 - Z.shiftr 0x10000 10 + Z.shiftr c 10.
Definition low_surrogate (c : Z) : Z := 0xDC00 + Z.land c 0x3FF.

(** [S_CHAR(c)]: written as itself. *)
Definition S_CHAR (c : Z) : bool := (32 <=? c) && (c <=? 126) && negb (c =? 92) && negb (c =? 34).

(** [ascii_escape_unichar] *)
Definition ascii_escape_unichar (c : Z) : list Z :=
  92 :: (if c =? 92 then [92]
         else if c =? 34 then [34]
         else if c =? 8 then [98]
         else if c =? 12 then [102]
         else if c =? 10 then [110]
         else if c =? 13 then [114]
         else if c =? 9 then [116]
         else if 0x10000 <=? c
         then 117 :: hex4 (high_surrogate c) ++ [92; 117] ++ hex4 (low_surrogate c)
         else 117 :: hex4 c).

(** One code point of a string. *)
Definition escape_char (c : Z) : list Z := if S_CHAR c then [c] else ascii_escape_unichar c.

(** [ascii_escape_unicode]: the quoted, escaped string. *)
Definition encode_basestring_ascii (s : list Z) : list Z :=
  34 :: flat_map escape_char s ++ [34].

(** [int.__repr__]: decimal, with a minus sign when negative. *)
Definition int_repr (n : Z) : list Z := str (NilZero.string_of_int (Z.to_int n)).

(** The items of a list or dictionary separated by [item_separator]. *)
Fixpoint join (sep : list Z) (items : list (list Z)) : list Z :=
  match items with
  | [] => []
  | [x] => x
  | x :: r => x ++ sep ++ join sep r
  end.

(** [encoder_listencode_obj] with the default encoder: [item_separator]
    [", "], [key_separator] [": "], no sorting of keys. *)
Fixpoint dumps (v : json) : list Z :=
  match v with
  | JNull => str "null"
  | JBool true => str "true"
  | JBool false => str "false"
  | JInt n => int_repr n
  | JStr s => encode_basestring_ascii s
  | JArr [] => str "[]"
  | JArr l => [91] ++ join (str ", ") (map dumps l) ++ [93]
  | JObj [] => str "{}"
  | JObj l => [123] ++ join (str ", ")
                (map (fun kv => encode_basestring_ascii (fst kv) ++ str ": " ++ dumps (snd kv)) l)
              ++ [125]
  end.

(** [print(s)]: the UTF-8 bytes of [s] and a newline. *)
Definition print_line (s : list Z) : string := utf8_encode (s ++ [10]).

(** ** Reading JSON text *)

(** [WHITESPACE = r'[ \t\n\r]*'] *)
Definition is_ws (c : Z) : bool := (c =? 32) || (c =? 9) || (c =? 10) || (c =? 13).

Fixpoint skip_ws (s : list Z) : list Z :=
  match s with
  | c :: r => if is_ws c then skip_ws r else s
  | [] => []
  end.

(** The value of a hex digit, in either case. *)
Definition hex_val (c : Z) : option Z :=
  if (48 <=? c) && (c <=? 57) then Some (c - 48)
  else if (97 <=? c) && (c <=? 102) then Some (c - 87)
  else if (65 <=? c) && (c <=? 70) then Some (c - 55)
  else None.

(** Four hex digits. *)
Definition read_hex4 (s : list Z) : option (Z * list Z) :=
  match s with
  | a :: b :: c :: d :: r =>
      match hex_val a, hex_val b, hex_val c, hex_val d with
      | Some x, Some y, Some z, Some w => Some (((x * 16 + y) * 16 + z) * 16 + w, r)
      | _, _, _, _ => None
      end
  | _ => None
  end.

(** The one-letter escapes of [scanstring]. *)
Definition simple_escape (e : Z) : option Z :=
  if e =? 34 then Some 34 else if e =? 92 then Some 92 else if e =? 47 then Some 47
  else if e =? 98 then Some 8 else if e =? 102 then Some 12 else if e =? 110 then Some 10
  else if e =? 114 then Some 13 else if e =? 116 then Some 9 else None.

(** After [\uXXXX] with a high surrogate: a following [\uXXXX] with a low
    surrogate is joined with it into one code point. *)
Definition join_surrogate (u : Z) (s : list Z) : Z * list Z :=
  if (0xD800 <=? u) && (u <=? 0xDBFF) then
    match s with
    | b :: v :: r =>
        if (b =? 92) && (v =? 117) then
          match read_hex4 r with
          | Some (u2, r2) =>
              if (0xDC00 <=? u2) && (u2 <=? 0xDFFF)
              then (0x10000 + ((u - 0xD800) * 1024 + (u2 - 0xDC00)), r2)
              else (u, s)
          | None => (u, s)
          end
        else (u, s)
    | _ => (u, s)
    end
  else (u, s).

Definition cons_fst {A B} (x : A) (p : list A * B) : list A * B := (x :: fst p, snd p).

(** [scanstring]: the characters of a string up to its closing quote, with
    its escapes; a control character is an error ([strict=True]). *)
Fixpoint scan_string (fuel : nat) (s : list Z) : option (list Z * list Z) :=
  match fuel with
  | O => None
  | S f =>
      match s with
      | [] => None
      | c :: r =>
          if c =? 34 then Some ([], r)
          else if c =? 92 then
            match r with
            | [] => None
            | e :: r' =>
                if e =? 117 then
                  match read_hex4 r' with
                  | Some (u, r'') =>
                      let (u', r3) := join_surrogate u r'' in
                      option_map (cons_fst u') (scan_string f r3)
                  | None => None
                  end
                else match simple_escape e with
                     | Some x => option_map (cons_fst x) (scan_string f r')
                     | None => None
                     end
            end
          else if c <? 32 then None
          else option_map (cons_fst c) (scan_string f r)
      end
  end.

(** The characters of an integer. *)
Definition is_num_char (c : Z) : bool := (c =? 45) || ((48 <=? c) && (c <=? 57)).

Fixpoint span_num (s : list Z) : list Z * list Z :=
  match s with
  | c :: r => if is_num_char c then cons_fst c (span_num r) else ([], s)
  | [] => ([], [])
  end.

(** The text of ASCII code points. *)
Definition text (cs : list Z) : string := string_of_list_ascii (map byte cs).

(** An integer: [int(numstr)] of the longest run of sign and digits. *)
Definition read_int (s : list Z) : option (Z * list Z) :=
  let (tok, rest) := span_num s in
  match NilZero.int_of_string (text tok) with
  | Some d => Some (Z.of_int d, rest)
  | None => None
  end.

(** [s] starts with the literal [w]. *)
Fixpoint starts_with (w s : list Z) : bool :=
  match w, s with
  | [], _ => true
  | a :: w', b :: s' => (a =? b) && starts_with w' s'
  | _ :: _, [] => false
  end.

(** [scan_once]: a value, then the elements of an array and the members
    of an object after their opening bracket. *)
Fixpoint read_value (fuel : nat) (s : list Z) : option (json * list Z) :=
  match fuel with
  | O => None
  | S f =>
      match s with
      | [] => None
      | c :: r =>
          if c =? 34 then option_map (fun p => (JStr (fst p), snd p)) (scan_string f r)
          else if c =? 91 then
            match skip_ws r with
            | c' :: r' =>
                if c' =? 93 then Some (JArr [], r')
                else option_map (fun p => (JArr (fst p), snd p)) (read_elements f (skip_ws r))
            | [] => None
            end
          else if c =? 123 then
            match skip_ws r with
            | c' :: r' =>
                if c' =? 125 then Some (JObj [], r')
                else option_map (fun p => (JObj (fst p), snd p)) (read_members f (skip_ws r))
            | [] => None
            end
          else if starts_with (str "null") s then Some (JNull, skipn 4 s)
          else if starts_with (str "true") s then Some (JBool true, skipn 4 s)
          else if starts_with (str "false") s then Some (JBool false, skipn 5 s)
          else option_map (fun p => (JInt (fst p), snd p)) (read_int s)
      end
  end
with read_elements (fuel : nat) (s : list Z) : option (list json * list Z) :=
  match fuel with
  | O => None
  | S f =>
      match read_value f s with
      | Some (v, r) =>
          match skip_ws r with
          | c :: r' =>
              if c =? 93 then Some ([v], r')
              else if c =? 44 then option_map (cons_fst v) (read_elements f (skip_ws r'))
              else None
          | [] => None
          end
      | None => None
      end
  end
with read_members (fuel : nat) (s : list Z) : option (list (list Z * json) * list Z) :=
  match fuel with
  | O => None
  | S f =>
      match s with
      | q :: s1 =>
          if q =? 34 then
            match scan_string f s1 with
            | Some (k, r1) =>
                match skip_ws r1 with
                | col :: r2 =>
                    if col =? 58 then
                      match read_value f (skip_ws r2) with
                      | Some (v, r3) =>
                          match skip_ws r3 with
                          | c :: r4 =>
                              if c =? 125 then Some ([(k, v)], r4)
                              else if c =? 44
                              then option_map (cons_fst (k, v)) (read_members f (skip_ws r4))
                              else None
                          | [] => None
                          end
                      | None => None
                      end
                    else None
                | [] => None
                end
            | None => None
            end
          else None
      | [] => None
      end
  end.

(** [json.loads] of the bytes of a line: decode, read one value between
    whitespace, nothing else after it. *)
Definition json_read (b : string) : option json :=
  match utf8_decode b with
  | Some cs =>
      match read_value (length cs) (skip_ws cs) with
      | Some (v, r) => match skip_ws r with [] => Some v | _ => None end
      | None => None
      end
  | None => None
  end.

(** Every string of a value, keys included, holds scalar values. *)
Fixpoint wf_json (v : json) : bool :=
  match v with
  | JStr s => forallb is_scalar s
  | JArr l => forallb wf_json l
  | JObj l => forallb (fun kv => forallb is_scalar (fst kv) && wf_json (snd kv)) l
  | _ => true
  end.

(** ** Characters of the output *)

(** A printable ASCII character, space to tilde. *)
Definition is_print (c : Z) : bool := (32 <=? c) && (c <=? 126).

Lemma str_cons a s : str (String a s) = byte_of a :: str s.
Proof. reflexivity. Qed.

Lemma text_str s : text (str s) = s.
Proof.
  unfold text, str. rewrite map_map.
  rewrite (map_ext _ (fun a => a) byte_byte_of), map_id.
  apply string_of_list_ascii_of_string.
Qed.

(** The digits and sign [int.__repr__] writes. *)
Lemma string_of_uint_num d :
  forallb is_num_char (str (NilEmpty.string_of_uint d)) = true.
Proof. induction d; exact IHd || reflexivity. Qed.

Lemma int_repr_num n : forallb is_num_char (int_repr n) = true.
Proof.
  unfold int_repr, NilZero.string_of_int, NilZero.string_of_uint.
  destruct (Z.to_int n) as [d|d]; [|rewrite str_cons; cbn [forallb]];
    destruct d; reflexivity || apply string_of_uint_num.
Qed.

Lemma int_repr_cons n : exists c r, int_repr n = c :: r.
Proof.
  unfold int_repr, NilZero.string_of_int, NilZero.string_of_uint.
  destruct (Z.to_int n) as [d|d]; destruct d; eexists _, _; reflexivity.
Qed.

Lemma num_char_print c : is_num_char c = true -> is_print c = true.
Proof.
  unfold is_num_char, is_print. rewrite orb_true_iff, !andb_true_iff, Z.eqb_eq, !Z.leb_le.
  lia.
Qed.

Lemma hexdigit_print n : is_print (hexdigit (Z.land n 15)) = true.
Proof.
  assert (0 <= Z.land n 15 < 16).
  { change 15 with (Z.ones 4). rewrite Z.land_ones by lia. apply Z.mod_pos_bound. lia. }
  unfold hexdigit, is_print. zbool; reflexivity || lia.
Qed.

Lemma hex4_print c : forallb is_print (hex4 c) = true.
Proof. unfold hex4. cbn [forallb]. now rewrite !hexdigit_print. Qed.

Lemma escape_char_print c : forallb is_print (escape_char c) = true.
Proof.
  unfold escape_char, ascii_escape_unichar, S_CHAR, is_print.
  repeat match goal with
  | |- context [if ?b then _ else _] => destruct b eqn:?
  end; cbn [forallb app]; rewrite ?forallb_app; cbn [forallb app];
    rewrite ?hex4_print; try reflexivity.
  zbool; cbn in *; try discriminate; reflexivity || lia.
Qed.

Lemma join_forallb p sep items :
  forallb p sep = true -> (forall x, In x items -> forallb p x = true) ->
  forallb p (join sep items) = true.
Proof.
  intros Hs; induction items as [|x r IH]; intros H; [reflexivity|].
  destruct r as [|y r]; [apply H; now left|].
  change (join sep (x :: y :: r)) with (x ++ sep ++ join sep (y :: r)).
  rewrite !forallb_app, Hs, H, IH by (simpl in *; auto). reflexivity.
Qed.

Lemma encode_basestring_ascii_ascii s : forallb is_print (encode_basestring_ascii s) = true.
Proof.
  unfold encode_basestring_ascii. cbn [forallb]. rewrite forallb_app.
  induction s as [|c s IH]; [reflexivity|].
  cbn [flat_map]. rewrite forallb_app, escape_char_print. exact IH.
Qed.

(** [ensure_ascii]: every character [json.dumps] writes is printable
    ASCII; in particular the text holds no line break. *)
Lemma dumps_printable v : forallb is_print (dumps v) = true.
Proof.
  induction v as [| [] | n | s | l IH | l IH] using json_ind; try reflexivity.
  - exact (forallb_impl _ _ _ num_char_print (int_repr_num n)).
  - apply encode_basestring_ascii_ascii.
  - destruct l as [|x l]; [reflexivity|]. cbn [dumps].
    rewrite !forallb_app. rewrite join_forallb; [reflexivity..|].
    intros y Hy. apply in_map_iff in Hy as (v & <- & Hv). rewrite Forall_forall in IH. auto.
  - destruct l as [|x l]; [reflexivity|]. cbn [dumps].
    rewrite !forallb_app. rewrite join_forallb; [reflexivity..|].
    intros y Hy. apply in_map_iff in Hy as (kv & <- & Hv). rewrite Forall_forall in IH.
    rewrite !forallb_app, encode_basestring_ascii_ascii, IH by exact Hv. reflexivity.
Qed.

(** ** Reading back what [dumps] writes *)

(** A token ends here: nothing follows, or a character that cannot
    continue an integer. *)
Definition ends_token (s : list Z) : bool :=
  match s with [] => true | c :: _ => negb (is_num_char c) end.

Lemma skip_ws_cons c r : is_ws c = false -> skip_ws (c :: r) = c :: r.
Proof. intros H. simpl. now rewrite H. Qed.

Lemma num_char_not_ws c : is_num_char c = true -> is_ws c = false.
Proof.
  unfold is_num_char, is_ws. intros H. zbool; cbn in *; try discriminate; try reflexivity; lia.
Qed.

(** *** Integers *)

Lemma span_num_app tok rest :
  forallb is_num_char tok = true -> ends_token rest = true -> span_num (tok ++ rest) = (tok, rest).
Proof.
  intros Ht Hr. induction tok as [|c tok IH]; simpl in *.
  - destruct rest as [|c rest]; [reflexivity|]. simpl in *.
    now destruct (is_num_char c).
  - apply andb_true_iff in Ht as [-> Ht]. now rewrite IH.
Qed.

(** [int(repr(d))] is [d]; the empty digit strings the decimal library
    allows print as 0. *)
Lemma int_of_string_of_int d :
  option_map Z.of_int (NilZero.int_of_string (NilZero.string_of_int d)) = Some (Z.of_int d).
Proof.
  destruct d as [[] | []]; try reflexivity; rewrite NilZero.isi; try discriminate; reflexivity.
Qed.

Lemma read_int_repr n rest :
  ends_token rest = true -> read_int (int_repr n ++ rest) = Some (n, rest).
Proof.
  intros Hr. unfold read_int. rewrite span_num_app by (apply int_repr_num || exact Hr).
  unfold int_repr. rewrite text_str.
  pose proof (int_of_string_of_int (Z.to_int n)) as E. rewrite DecimalZ.of_to in E.
  destruct (NilZero.int_of_string _); [|discriminate]. now injection E as ->.
Qed.

(** *** Hex digits *)

Lemma nibble c k : 0 <= k -> Z.land (Z.shiftr c k) 15 = (c / 2 ^ k) mod 16.
Proof.
  intros Hk. change 15 with (Z.ones 4). rewrite Z.land_ones, Z.shiftr_div_pow2 by lia.
  reflexivity.
Qed.

Lemma hex_val_hexdigit n : 0 <= n < 16 -> hex_val (hexdigit n) = Some n.
Proof.
  intros Hn. unfold hexdigit, hex_val.
  destruct (Z.ltb_spec n 10); zbool; cbn [andb]; try lia; f_equal; lia.
Qed.

Lemma read_hex4_hex4 x r : 0 <= x < 65536 -> read_hex4 (hex4 x ++ r) = Some (x, r).
Proof.
  intros Hx. unfold hex4. rewrite !nibble by lia.
  change (Z.land x 15) with (Z.land (Z.shiftr x 0) 15). rewrite nibble by lia.
  cbn [app read_hex4]. rewrite !hex_val_hexdigit by (apply Z.mod_pos_bound; lia).
  do 3 f_equal. change (2 ^ 12) with 4096. change (2 ^ 8) with 256. change (2 ^ 4) with 16.
  change (2 ^ 0) with 1. zdiv.
Qed.

(** *** Strings *)

(** A code point that is not a high surrogate is not joined with what
    follows it. *)
Lemma join_surrogate_other u s :
  ~ (0xD800 <= u <= 0xDBFF) -> join_surrogate u s = (u, s).
Proof.
  intros H. unfold join_surrogate.
  destruct (Z.leb_spec 0xD800 u), (Z.leb_spec u 0xDBFF); reflexivity || lia.
Qed.

(** The surrogate pair of a code point above U+FFFF is joined back into
    it. *)
Lemma join_surrogate_pair c t :
  0x10000 <= c <= 0x10FFFF ->
  join_surrogate (high_surrogate c) (92 :: 117 :: hex4 (low_surrogate c) ++ t) = (c, t).
Proof.
  intros Hc. unfold high_surrogate, low_surrogate.
  change (Z.shiftr 0x10000 10) with 64. rewrite Z.shiftr_div_pow2 by lia.
  change (0x3FF) with (Z.ones 10). rewrite Z.land_ones by lia. change (2 ^ 10) with 1024.
  unfold join_surrogate. rewrite read_hex4_hex4 by zdiv.
  destruct (Z.leb_spec 0xD800 (0xD800 - 64 + c / 1024)); [|zdiv].
  destruct (Z.leb_spec (0xD800 - 64 + c / 1024) 0xDBFF); [|zdiv].
  destruct (Z.leb_spec 0xDC00 (0xDC00 + c mod 1024)); [|zdiv].
  destruct (Z.leb_spec (0xDC00 + c mod 1024) 0xDFFF); [|zdiv].
  cbn [andb Z.eqb Pos.eqb]. f_equal. zdiv.
Qed.

Lemma escape_char_cons c : exists x r, escape_char c = x :: r.
Proof.
  unfold escape_char, ascii_escape_unichar. destruct (S_CHAR c); eauto.
Qed.

(** [scanstring] reads one escaped code point back. *)
Lemma scan_string_escape_char c t f :
  is_scalar c = true ->
  scan_string (S f) (escape_char c ++ t) = option_map (cons_fst c) (scan_string f t).
Proof.
  rewrite is_scalar_spec. intros Hc. unfold escape_char.
  destruct (S_CHAR c) eqn:HS.
  - unfold S_CHAR in HS. cbn [app scan_string]. zbool; cbn in HS; try discriminate; lia || reflexivity.
  - unfold ascii_escape_unichar. cbn [app scan_string Z.eqb Pos.eqb].
    destruct (Z.eqb_spec c 92) as [->|]; [reflexivity|].
    destruct (Z.eqb_spec c 34) as [->|]; [reflexivity|].
    destruct (Z.eqb_spec c 8) as [->|]; [reflexivity|].
    destruct (Z.eqb_spec c 12) as [->|]; [reflexivity|].
    destruct (Z.eqb_spec c 10) as [->|]; [reflexivity|].
    destruct (Z.eqb_spec c 13) as [->|]; [reflexivity|].
    destruct (Z.eqb_spec c 9) as [->|]; [reflexivity|].
    cbn [Z.eqb Pos.eqb]. destruct (Z.leb_spec 0x10000 c); cbn [app Z.eqb Pos.eqb].
    + rewrite <- app_assoc. cbn [app]. rewrite read_hex4_hex4 by (unfold high_surrogate;
        rewrite !Z.shiftr_div_pow2 by lia; change (2 ^ 10) with 1024; zdiv).
      now rewrite join_surrogate_pair by lia.
    + rewrite read_hex4_hex4 by lia. now rewrite join_surrogate_other by lia.
Qed.

(** [scanstring] reads an encoded string back, up to its closing quote. *)
Lemma scan_string_encode s t f :
  forallb is_scalar s = true -> (length (flat_map escape_char s) < f)%nat ->
  scan_string f (flat_map escape_char s ++ 34 :: t) = Some (s, t).
Proof.
  revert f; induction s as [|c s IH]; intros [|f] Hs Hf; try (simpl in Hf; lia).
  - reflexivity.
  - apply andb_true_iff in Hs as [Hc Hs]. cbn [flat_map] in *. rewrite <- app_assoc.
    rewrite scan_string_escape_char, IH by (try exact Hc; try exact Hs;
      destruct (escape_char_cons c) as (x & r & E); rewrite length_app, E in Hf; simpl in Hf; lia).
    reflexivity.
Qed.

(** *** Values *)

(** What [dumps] writes starts with a character that is neither
    whitespace nor a closing bracket. *)
Lemma dumps_head v :
  exists c r, dumps v = c :: r /\ is_ws c = false /\ c <> 93 /\ c <> 125.
Proof.
  destruct v as [| [] | n | s | [|x l] | [|x l]];
    try (eexists _, _; split; [reflexivity | split;
      [reflexivity | split; intros E; vm_compute in E; discriminate]]).
  destruct (int_repr_cons n) as (c & r & E). exists c, r. split; [exact E|].
  pose proof (int_repr_num n) as H. rewrite E in H. apply andb_true_iff in H as [H _].
  split; [now apply num_char_not_ws|]. unfold is_num_char in H. zbool; cbn in H; try discriminate; lia.
Qed.

Lemma skip_ws_dumps v t : skip_ws (dumps v ++ t) = dumps v ++ t.
Proof.
  destruct (dumps_head v) as (c & r & E & H & _). rewrite E. now apply skip_ws_cons.
Qed.

(** [v] is read back from [dumps v] followed by the end of a token, with
    fuel the length of the text. *)
Definition reads_back (v : json) : Prop :=
  forall f rest, (length (dumps v) <= f)%nat -> ends_token rest = true ->
  read_value f (dumps v ++ rest) = Some (v, rest).

Lemma join_cons sep y ys : exists t, join sep (y :: ys) = y ++ t.
Proof. destruct ys; [exists []; symmetry; apply app_nil_r | eexists; reflexivity]. Qed.

(** The text of a member of an object. *)
Definition member (kv : list Z * json) : list Z :=
  encode_basestring_ascii (fst kv) ++ str ": " ++ dumps (snd kv).

Lemma member_text k v t :
  member (k, v) ++ t = 34 :: flat_map escape_char k ++ 34 :: 58 :: 32 :: dumps v ++ t.
Proof. unfold member, encode_basestring_ascii. cbn. now rewrite <- !app_assoc. Qed.

Lemma length_member k v :
  length (member (k, v)) = (length (flat_map escape_char k) + length (dumps v) + 4)%nat.
Proof.
  rewrite <- (app_nil_r (member _)), member_text. cbn [length].
  rewrite !length_app, app_nil_r. cbn [length]. lia.
Qed.

Lemma dumps_obj l : l <> [] -> dumps (JObj l) = [123] ++ join (str ", ") (map member l) ++ [125].
Proof. destruct l; [congruence | reflexivity]. Qed.

(** The elements of an array, up to its closing bracket. *)
Lemma read_elements_join l f rest :
  l <> [] -> Forall (fun v => wf_json v = true -> reads_back v) l ->
  forallb wf_json l = true ->
  (length (join (str ", ") (map dumps l)) < f)%nat ->
  read_elements f (join (str ", ") (map dumps l) ++ 93 :: rest) = Some (l, rest).
Proof.
  revert f; induction l as [|v l IH]; intros [|f] Hne HP Hwf Hf;
    try congruence; try (simpl in Hf; lia).
  inversion HP as [|? ? Hv HP']; subst. apply andb_true_iff in Hwf as [Hwv Hwl].
  destruct l as [|v' l].
  - cbn [map join] in *. cbn [read_elements].
    rewrite (Hv Hwv f (93 :: rest)) by (lia || reflexivity). reflexivity.
  - change (join (str ", ") (map dumps (v :: v' :: l)))
      with (dumps v ++ [44; 32] ++ join (str ", ") (map dumps (v' :: l))) in *.
    rewrite length_app in Hf. rewrite <- app_assoc. cbn [read_elements].
    rewrite (Hv Hwv f) by (lia || reflexivity). cbn [app skip_ws is_ws Z.eqb Pos.eqb orb].
    destruct (join_cons (str ", ") (dumps v') (map dumps l)) as [t E].
    cbn [map] in *. rewrite E, <- app_assoc, skip_ws_dumps, app_assoc, <- E, IH; try easy.
    cbn [length] in Hf. rewrite length_app in Hf. cbn [length] in Hf. lia.
Qed.

(** The members of an object, up to its closing brace. *)
Lemma read_members_join l f rest :
  l <> [] -> Forall (fun kv => wf_json (snd kv) = true -> reads_back (snd kv)) l ->
  forallb (fun kv => forallb is_scalar (fst kv) && wf_json (snd kv)) l = true ->
  (length (join (str ", ") (map member l)) < f)%nat ->
  read_members f (join (str ", ") (map member l) ++ 125 :: rest) = Some (l, rest).
Proof.
  revert f; induction l as [|[k v] l IH]; intros [|f] Hne HP Hwf Hf;
    try congruence; try (simpl in Hf; lia).
  inversion HP as [|? ? Hv HP']; subst.
  apply andb_true_iff in Hwf as [Hwkv Hwl]. apply andb_true_iff in Hwkv as [Hk Hwv].
  cbn [fst snd] in *. change (str ", ") with [44; 32] in *.
  destruct l as [|[k' v'] l].
  - cbn [map join] in *. rewrite length_member in Hf. rewrite member_text.
    cbn [read_members]. rewrite scan_string_encode by (exact Hk || lia).
    cbn [skip_ws is_ws Z.eqb Pos.eqb orb].
    rewrite skip_ws_dumps, (Hv Hwv f (125 :: rest)) by (lia || reflexivity). reflexivity.
  - change (join [44; 32] (map member ((k, v) :: (k', v') :: l)))
      with (member (k, v) ++ [44; 32] ++ join [44; 32] (map member ((k', v') :: l))) in *.
    rewrite length_app, length_member in Hf. rewrite <- app_assoc, member_text. cbn [read_members].
    rewrite scan_string_encode by (exact Hk || lia). cbn [app skip_ws is_ws Z.eqb Pos.eqb orb].
    rewrite skip_ws_dumps, (Hv Hwv f) by (lia || reflexivity).
    cbn [app skip_ws is_ws Z.eqb Pos.eqb orb].
    destruct (join_cons [44; 32] (member (k', v')) (map member l)) as [t E].
    assert (SW : forall r, skip_ws (join [44; 32] (member (k', v') :: map member l) ++ r)
                           = join [44; 32] (member (k', v') :: map member l) ++ r).
    { intros r. rewrite E, <- app_assoc, member_text. reflexivity. }
    cbn [map] in *. rewrite SW, IH; try easy.
    cbn [length] in Hf. rewrite length_app in Hf. cbn [length] in Hf. lia.
Qed.

Lemma dumps_arr l : l <> [] -> dumps (JArr l) = [91] ++ join (str ", ") (map dumps l) ++ [93].
Proof. destruct l; [congruence | reflexivity]. Qed.

(** After an opening bracket: the first item starts at once. *)
Lemma open_bracket_items (items : list (list Z)) x l close r :
  (exists c t, x = c :: t /\ is_ws c = false /\ c <> close) ->
  items = x :: l ->
  exists c t, skip_ws (join (str ", ") items ++ close :: r) = c :: t /\
    join (str ", ") items ++ close :: r = c :: t /\ c <> close.
Proof.
  intros (c & t & -> & Hws & Hc) ->. destruct (join_cons (str ", ") (c :: t) l) as [u E].
  rewrite E. cbn [app]. rewrite skip_ws_cons by exact Hws. eauto.
Qed.

Lemma dumps_length_pos v : (0 < length (dumps v))%nat.
Proof. destruct (dumps_head v) as (c & t & E & _). rewrite E. simpl. lia. Qed.

(** An integer is not taken for a string, an array, an object or a
    literal. *)
Lemma read_value_int n f rest :
  ends_token rest = true -> read_value (S f) (int_repr n ++ rest) = Some (JInt n, rest).
Proof.
  intros Hr. destruct (int_repr_cons n) as (c & t & E).
  pose proof (int_repr_num n) as Hn. rewrite E in Hn. apply andb_true_iff in Hn as [Hc _].
  assert (H : c <> 34 /\ c <> 91 /\ c <> 123 /\ c <> 110 /\ c <> 116 /\ c <> 102)
    by (unfold is_num_char in Hc; zbool; cbn in Hc; try discriminate; lia).
  destruct H as (H1 & H2 & H3 & H4 & H5 & H6).
  rewrite E. cbn [app read_value].
  change (str "null") with [110; 117; 108; 108]. change (str "true") with [116; 114; 117; 101].
  change (str "false") with [102; 97; 108; 115; 101]. cbn [starts_with].
  rewrite (proj2 (Z.eqb_neq c 34) H1), (proj2 (Z.eqb_neq c 91) H2), (proj2 (Z.eqb_neq c 123) H3),
    (proj2 (Z.eqb_neq 110 c) (not_eq_sym H4)), (proj2 (Z.eqb_neq 116 c) (not_eq_sym H5)),
    (proj2 (Z.eqb_neq 102 c) (not_eq_sym H6)).
  cbn [andb]. change (c :: t ++ rest) with ((c :: t) ++ rest). rewrite <- E, read_int_repr by exact Hr.
  reflexivity.
Qed.

(** After the opening bracket of a non-empty array or object: the items
    start at once, with a character that does not close it. *)
Ltac open_bracket items x l close r :=
  let c := fresh "c" in let t := fresh "t" in let E1 := fresh "E" in
  let E2 := fresh "E" in let Hc := fresh "Hc" in
  cbn [app read_value Z.eqb Pos.eqb]; rewrite <- app_assoc; cbn [app];
  destruct (open_bracket_items items x l close r ltac:(eauto) eq_refl) as (c & t & E1 & E2 & Hc);
  rewrite E1; cbv beta iota; rewrite (proj2 (Z.eqb_neq c close) Hc), <- E2.

(** Every well-formed value is read back from its text. *)
Lemma dumps_reads_back v : wf_json v = true -> reads_back v.
Proof.
  induction v as [| [] | n | s | l IH | l IH] using json_ind; intros Hwf f rest Hf Hr;
    (destruct f as [|f]; [match goal with
      | |- read_value 0 (dumps ?v ++ _) = _ => pose proof (dumps_length_pos v); lia
      end|]); try reflexivity.
  - now apply read_value_int.
  - cbn [dumps] in Hf |- *. unfold encode_basestring_ascii in Hf |- *.
    cbn [length] in Hf. rewrite length_app in Hf.
    cbn [app read_value Z.eqb Pos.eqb]. rewrite <- app_assoc. cbn [app].
    rewrite scan_string_encode by (exact Hwf || cbn [length] in Hf; lia). reflexivity.
  - destruct l as [|x l]; [reflexivity|].
    rewrite dumps_arr in * by congruence. rewrite !length_app in Hf. cbn [length] in Hf.
    destruct (dumps_head x) as (c0 & t0 & E0 & W0 & C0 & _).
    open_bracket (map dumps (x :: l)) (dumps x) (map dumps l) 93 rest.
    rewrite read_elements_join by (easy || lia). reflexivity.
  - destruct l as [|[k x] l]; [reflexivity|].
    rewrite dumps_obj in * by congruence. rewrite !length_app in Hf. cbn [length] in Hf.
    assert (M : exists c t, member (k, x) = c :: t /\ is_ws c = false /\ c <> 125).
    { rewrite <- (app_nil_r (member _)), member_text. eexists _, _; split; [reflexivity|].
      split; [reflexivity | lia]. }
    open_bracket (map member ((k, x) :: l)) (member (k, x)) (map member l) 125 rest.
    rewrite read_members_join by (easy || lia). reflexivity.
Qed.

(** A 7-bit character. *)
Definition is_ascii (c : Z) : bool := (0 <=? c) && (c <? 128).

Lemma ascii_scalar c : is_ascii c = true -> is_scalar c = true.
Proof.
  unfold is_ascii. rewrite is_scalar_spec, andb_true_iff, Z.leb_le, Z.ltb_lt. lia.
Qed.

Lemma print_ascii c : is_print c = true -> is_ascii c = true.
Proof.
  unfold is_print, is_ascii. rewrite !andb_true_iff, !Z.leb_le, Z.ltb_lt. lia.
Qed.

Lemma dumps_line_ascii v : forallb is_ascii (dumps v ++ [10]) = true.
Proof.
  rewrite forallb_app, (forallb_impl _ _ _ print_ascii (dumps_printable v)). reflexivity.
Qed.

(** The line [print(json.dumps(v))] writes is read back as [v]. *)
Lemma read_print_line v : wf_json v = true -> json_read (print_line (dumps v)) = Some v.
Proof.
  intros Hwf. unfold json_read, print_line.
  rewrite utf8_decode_encode
    by exact (forallb_impl _ _ _ ascii_scalar (dumps_line_ascii v)).
  rewrite skip_ws_dumps, dumps_reads_back; [reflexivity | exact Hwf | | reflexivity].
  rewrite length_app. lia.
Qed.

(** The bytes of ASCII code points are the code points. *)
Lemma utf8_encode_ascii cs :
  forallb is_ascii cs = true -> list_ascii_of_string (utf8_encode cs) = map byte cs.
Proof.
  induction cs as [|c cs IH]; [reflexivity|]. cbn [forallb]. rewrite andb_true_iff.
  intros [Hc Hcs]. unfold is_ascii in Hc. rewrite andb_true_iff, Z.leb_le, Z.ltb_lt in Hc.
  cbn [utf8_encode]. unfold utf8_encode_char. destruct (Z.ltb_spec c 0x80); [|lia].
  cbn [append list_ascii_of_string]. now rewrite IH.
Qed.

(** An ASCII text decodes to its characters. *)
Lemma utf8_decode_text cs : forallb is_ascii cs = true -> utf8_decode (text cs) = Some cs.
Proof.
  intros A. replace (text cs) with (utf8_encode cs).
  - apply utf8_decode_encode. exact (forallb_impl _ _ _ ascii_scalar A).
  - unfold text. now rewrite <- (utf8_encode_ascii cs A), string_of_list_ascii_of_string.
Qed.

(** C10: The line [print(json.dumps(v))] writes is one line of printable
    ASCII, whatever the strings of [v] hold ([ensure_ascii] escapes every
    other character): its bytes are the characters of [json.dumps(v)],
    all between space and tilde, and a final newline. *)
Theorem print_line_ascii v :
  forallb is_print (dumps v) = true /\
  list_ascii_of_string (print_line (dumps v)) = map byte (dumps v) ++ [byte 10].
Proof.
  split; [apply dumps_printable|]. unfold print_line.
  rewrite utf8_encode_ascii by apply dumps_line_ascii. apply map_app.
Qed.

(** Why the round trip needs scalar values: a lone high surrogate
    followed by a lone low surrogate, which no UTF-8 text decodes to, is
    written as a [\uXXXX\uXXXX] pair and read back as one code point. *)
Lemma surrogates_joined :
  json_read (print_line (dumps (JStr [0xD83D; 0xDE00]))) = Some (JStr [0x1F600]).
Proof. vm_compute. reflexivity. Qed.
