(* ===== verification/Extractor.v ===== *)
(** * Extractor: the source loop and the whole of [calendar-events.py]

    The script (lines 14-140) prints a banner, opens the source registry
    and lists the calendar sources (an exception there ends the script),
    then for every source (lines 58-135): skips a disabled one with a
    message; otherwise connects with a 30-second timeout, builds the
    range query, asks for the objects, gives up on the calendar when the
    call fails or returns nothing, runs the per-object loop of [Event], and
    prints how many events the list holds for that calendar name.  An
    exception anywhere in this per-calendar [try] is printed and the next
    source is processed; the events appended before it stay in the list.
    Finally the list is sorted by [start] and printed.

    [calendar_body] is the [try] body as a [stexc] computation over
    [run_state]; [process_source] adds the enabled check and the handler;
    [process_sources] is the loop, which first converts each display name
    to [str] outside the [try] (a name that is not UTF-8 ends the
    script), and [fold_sources] the loop over sources whose names decode;
    [calendar_events] is the script.  [source_events] is the abstract
    contribution of one source, and the main theorem says that the script
    prints the stable sort by start of the sources' contributions, in the
    order of the sources.  [reports] reads the stderr log back as the
    final line of each source, and [source_report] says which line the
    calls' results lead to: the script reports every source exactly once,
    in order. *)

From Stdlib Require Import ZArith String List Bool Sorted Permutation Lia.
From S2P Require Import Prelude Utf8 Civil ICalTime TimeNorm Backend Query FakeBackend Event Sort.
Import ListNotations.
Open Scope Z_scope.
Open Scope list_scope.

(** Line 132: the number of records in [all_events] whose calendar is
    [name]. *)
Definition count_calendar (name : string) (evs : list event_record) : nat :=
  length (filter (fun e => String.eqb (calendar e) name) evs).

(** [if not ical_objects]: the empty list is false. *)
Definition is_empty {A} (l : list A) : bool :=
  match l with [] => true | _ => false end.

(** The connection timeout of line 71, in seconds. *)
Definition CONNECT_TIMEOUT : Z := 30.

(** The calendar names of the ["Connecting to ..."] lines of a log. *)
Definition connect_attempts (l : list diag) : list string :=
  flat_map (fun d => match d with DConnecting n => [n] | _ => [] end) l.

(** How stderr ends the processing of a source: line 60, 90, 132 or
    135. *)
Inductive report : Type := RSkipped | RNoEvents | RFinished | RFailed.

Definition final_line (d : diag) : list (string * report) :=
  match d with
  | DSkippingDisabled n => [(n, RSkipped)]
  | DNoEvents n => [(n, RNoEvents)]
  | DFinished n _ => [(n, RFinished)]
  | DCalendarError n _ => [(n, RFailed)]
  | _ => []
  end.

(** The final lines of a log, by calendar name. *)
Definition reports (l : list diag) : list (string * report) := flat_map final_line l.

(** The lines the loop over the objects of a calendar prints. *)
Definition object_line (d : diag) : bool :=
  match d with DProcessed _ _ | DEventError _ _ _ => true | _ => false end.

(** The [Finished processing] lines of a log (line 132), with the count
    they print. *)
Definition finished_line (d : diag) : list (string * nat) :=
  match d with DFinished n k => [(n, k)] | _ => [] end.

(** The [Finished] line a source with final line [r] adds after the
    records [evs]: line 132 counts the records so far that bear its name. *)
Definition finished_count (name : string) (r : report) (evs : list event_record)
    : list (string * nat) :=
  match r with RFinished => [(name, count_calendar name evs)] | _ => [] end.

Ltac conn_simpl :=
  unfold connect_attempts, reports, emit, append_event in *; cbn [log all_events fst snd];
  repeat (rewrite ?flat_map_app; cbn [flat_map]); rewrite ?app_nil_r.

Section Extractor.
Context `{CalendarBackend} `{TzDatabase} `{LocalZone}.
Local Open Scope exc_scope.

(** Lines 67-132: the body of the per-calendar [try]. *)
Definition calendar_body (start_time end_time : Z) (calendar_name : string) (src : source)
    : stexc run_state unit :=
  st_modify (emit (DConnecting calendar_name)) ;;;
  client <-- st_lift (connect_sync src CONNECT_TIMEOUT) ;;;
  st_modify (emit (DConnected calendar_name)) ;;;
  query <-- st_lift (query_of_range start_time end_time) ;;;
  st_modify (emit (DQuery query)) ;;;
  st_modify (emit (DGettingObjects calendar_name)) ;;;
  res <-- st_lift (get_object_list_sync client query) ;;;
  let '(success, ical_objects) := res in
  st_modify (emit (DGotObjects calendar_name success (length ical_objects))) ;;;
  if negb success || is_empty ical_objects then
    st_modify (emit (DNoEvents calendar_name))
  else
    st_modify (emit (DProcessingEvents calendar_name (length ical_objects))) ;;;
    st_modify (process_events calendar_name 0 ical_objects) ;;;
    st_modify (fun s => emit (DFinished calendar_name
                                (count_calendar calendar_name (all_events s))) s).

(** Lines 59-135: one iteration of [for source in sources]. *)
Definition process_source (start_time end_time : Z) (s : run_state) (src : source)
    : run_state :=
  if negb (enabled src) then emit (DSkippingDisabled (display_name src)) s
  else
    let calendar_name := display_name src in
    st_catch (calendar_body start_time end_time calendar_name src)
      (fun e s' => emit (DCalendarError calendar_name e) s')
      (emit (DProcessing calendar_name) s).

(** Lines 58-135: the loop over the sources.  Both branches of an
    iteration first convert the source's display name to [str] (line 60
    or 63), outside the per-calendar [try] and before printing anything:
    a name that is not UTF-8 ends the script with [UnicodeDecodeError]. *)
Fixpoint process_sources (start_time end_time : Z) (sources : list source) (s : run_state)
    : exc unit * run_state :=
  match sources with
  | [] => (Ok tt, s)
  | src :: rest =>
      match py_text (display_name src) with
      | Raise e => (Raise e, s)
      | Ok _ => process_sources start_time end_time rest (process_source start_time end_time s src)
      end
  end.

(** The loop over sources whose names decode. *)
Definition fold_sources (start_time end_time : Z) (sources : list source)
    (s : run_state) : run_state :=
  fold_left (process_source start_time end_time) sources s.

(** Whether every display name decodes. *)
Definition names_ok (sources : list source) : bool :=
  forallb (fun src => valid_utf8 (display_name src)) sources.

(** The sources before the first whose name does not decode. *)
Fixpoint decodable_prefix (sources : list source) : list source :=
  match sources with
  | [] => []
  | src :: rest => if valid_utf8 (display_name src) then src :: decodable_prefix rest else []
  end.

(** Lines 14-140: the script, from its two arguments to the list it prints
    as JSON (or the exception it dies of) and the final state. *)
Definition calendar_events (start_time end_time : Z) : exc (list event_record) * run_state :=
  let s := emit DGettingRegistry (emit (DStarting start_time end_time) (mk_state [] [])) in
  match registry_new_sync with
  | Raise e => (Raise e, s)
  | Ok reg =>
      let s := emit DRegistryObtained s in
      match list_sources reg with
      | Raise e => (Raise e, s)
      | Ok sources =>
          let s := emit (DFoundSources (length sources)) s in
          let '(r, s) := process_sources start_time end_time sources s in
          match r with
          | Raise e => (Raise e, s)
          | Ok _ =>
              let s := emit (DSorting (length (all_events s))) s in
              let s := mk_state (sort_by start (all_events s)) (log s) in
              (Ok (all_events s), emit DDone s)
          end
      end
  end.

(** ** What one source contributes *)

(** The records a source adds to [all_events]: none when it is disabled,
    when connecting, building the query or getting the objects raises, or
    when the call reports failure; otherwise the records of its objects. *)
Definition source_events (start_time end_time : Z) (src : source) : list event_record :=
  if negb (enabled src) then []
  else match connect_sync src CONNECT_TIMEOUT, query_of_range start_time end_time with
       | Ok c, Ok q =>
           match get_object_list_sync c q with
           | Ok (true, objs) =>
               flat_map (fun o => list_of_option (event_of_object (display_name src) o)) objs
           | _ => []
           end
       | _, _ => []
       end.

(** The final line the script prints for a source. *)
Definition source_report (start_time end_time : Z) (src : source) : report :=
  if negb (enabled src) then RSkipped
  else match connect_sync src CONNECT_TIMEOUT with
       | Raise _ => RFailed
       | Ok c =>
           match query_of_range start_time end_time with
           | Raise _ => RFailed
           | Ok q =>
               match get_object_list_sync c q with
               | Raise _ => RFailed
               | Ok (success, objs) => if negb success || is_empty objs then RNoEvents else RFinished
               end
           end
       end.

Ltac unfold_st := unfold calendar_body; autounfold with monads.

Lemma process_source_all_events start_time end_time s src :
  all_events (process_source start_time end_time s src) =
  all_events s ++ source_events start_time end_time src.
Proof.
  unfold process_source, source_events.
  destruct (enabled src); simpl; [|now rewrite app_nil_r].
  unfold_st. destruct (connect_sync src CONNECT_TIMEOUT) as [c|e]; simpl; [|now rewrite app_nil_r].
  destruct (query_of_range start_time end_time) as [q|e]; simpl; [|now rewrite app_nil_r].
  destruct (get_object_list_sync c q) as [[[|] objs]|e]; simpl; try now rewrite app_nil_r.
  destruct objs as [|o objs]; cbn -[process_events flat_map]; [now rewrite app_nil_r|].
  now rewrite process_events_all_events.
Qed.

(** The loop over the sources appends, source after source, what each
    one contributes. *)
Lemma fold_sources_all_events start_time end_time sources s :
  all_events (fold_sources start_time end_time sources s) =
  all_events s ++ flat_map (source_events start_time end_time) sources.
Proof.
  exact (fold_left_view _ all_events _ (process_source_all_events start_time end_time) sources s).
Qed.

(** ** The names of the sources *)

Lemma process_sources_spec start_time end_time sources s :
  process_sources start_time end_time sources s =
  (if names_ok sources then Ok tt else Raise utf8_error,
   fold_sources start_time end_time (decodable_prefix sources) s).
Proof.
  unfold fold_sources. revert s; induction sources as [|src sources IH]; intros s; [reflexivity|].
  cbn [process_sources names_ok forallb decodable_prefix]. fold (names_ok sources).
  unfold py_text. destruct (valid_utf8 (display_name src)); cbn [andb fold_left];
    [apply IH | reflexivity].
Qed.

Lemma decodable_prefix_ok sources : names_ok sources = true -> decodable_prefix sources = sources.
Proof.
  induction sources as [|src sources IH]; [reflexivity|]. cbn [names_ok forallb decodable_prefix].
  rewrite andb_true_iff. intros [-> N]. f_equal. exact (IH N).
Qed.

Lemma decodable_prefix_app l1 l2 :
  decodable_prefix (l1 ++ l2) = if names_ok l1 then l1 ++ decodable_prefix l2 else decodable_prefix l1.
Proof.
  induction l1 as [|src l1 IH]; [reflexivity|]. cbn [app names_ok forallb decodable_prefix].
  fold (names_ok l1). rewrite IH. destruct (valid_utf8 (display_name src)); cbn [andb]; [|reflexivity].
  now destruct (names_ok l1).
Qed.

(** ** The script *)

(** C1: When the registry opens and lists its sources, the script prints
    the stable sort by start of the records of all sources, in the order
    of the sources, provided every display name decodes; otherwise it
    dies of [UnicodeDecodeError], and when the registry fails, of that
    exception. *)
Theorem calendar_events_output start_time end_time :
  fst (calendar_events start_time end_time) =
  match registry_new_sync with
  | Raise e => Raise e
  | Ok reg =>
      match list_sources reg with
      | Raise e => Raise e
      | Ok sources =>
          if names_ok sources
          then Ok (sort_by start (flat_map (source_events start_time end_time) sources))
          else Raise utf8_error
      end
  end.
Proof.
  unfold calendar_events.
  destruct registry_new_sync as [reg|e]; [|reflexivity].
  destruct (list_sources reg) as [sources|e]; [|reflexivity].
  rewrite process_sources_spec. destruct (names_ok sources) eqn:N; [|reflexivity].
  cbn. now rewrite decodable_prefix_ok, fold_sources_all_events by exact N.
Qed.

(** The list the script prints, when the registry lists [sources] whose
    names decode. *)
Lemma calendar_events_fst start_time end_time reg sources :
  registry_new_sync = Ok reg -> list_sources reg = Ok sources -> names_ok sources = true ->
  fst (calendar_events start_time end_time) =
  Ok (sort_by start (flat_map (source_events start_time end_time) sources)).
Proof.
  intros R L N. unfold calendar_events. rewrite R, L, process_sources_spec, N. cbn.
  now rewrite decodable_prefix_ok, fold_sources_all_events by exact N.
Qed.

(** A printed list means the names decoded. *)
Lemma calendar_events_names start_time end_time reg sources out :
  registry_new_sync = Ok reg -> list_sources reg = Ok sources ->
  fst (calendar_events start_time end_time) = Ok out -> names_ok sources = true.
Proof.
  intros R L. unfold calendar_events. rewrite R, L, process_sources_spec.
  now destruct (names_ok sources).
Qed.

(** C3: The printed list is sorted by start, non-decreasing. *)
Theorem calendar_events_sorted start_time end_time out :
  fst (calendar_events start_time end_time) = Ok out -> Sorted (key_le start) out.
Proof.
  unfold calendar_events. destruct registry_new_sync as [reg|e]; [|discriminate].
  destruct (list_sources reg) as [sources|e]; [|discriminate].
  destruct (process_sources _ _ _ _) as [[[]|e] s']; [|discriminate].
  intros [= <-]. apply sort_by_sorted.
Qed.

(** C6: Records with the same start are printed in the order they were
    found: source by source, and within a source in the order of its
    objects. *)
Theorem calendar_events_stable start_time end_time reg sources k :
  registry_new_sync = Ok reg -> list_sources reg = Ok sources -> names_ok sources = true ->
  exists out, fst (calendar_events start_time end_time) = Ok out
  /\ with_key start k out = with_key start k (flat_map (source_events start_time end_time) sources).
Proof.
  intros R L N. eexists. split; [exact (calendar_events_fst _ _ _ _ R L N)|].
  apply sort_by_stable.
Qed.

(** Where a printed record comes from: an object of the list an enabled
    source returned for the script's query, read into that record. *)
Lemma calendar_events_origin start_time end_time reg sources out ev :
  registry_new_sync = Ok reg -> list_sources reg = Ok sources ->
  fst (calendar_events start_time end_time) = Ok out -> In ev out ->
  exists src c q objs o, In src sources /\ enabled src = true
    /\ connect_sync src CONNECT_TIMEOUT = Ok c /\ query_of_range start_time end_time = Ok q
    /\ get_object_list_sync c q = Ok (true, objs) /\ In o objs
    /\ event_of_object (display_name src) o = Some ev.
Proof.
  intros R L E. pose proof (calendar_events_names _ _ _ _ _ R L E) as N.
  rewrite (calendar_events_fst _ _ _ _ R L N) in E. injection E as <-. intros Hin.
  apply (Permutation_in _ (Permutation_sym (sort_by_perm start _))) in Hin.
  apply in_flat_map in Hin as (src & Hsrc & Hin).
  unfold source_events in Hin. destruct (enabled src) eqn:Hen; [|contradiction].
  destruct (connect_sync src CONNECT_TIMEOUT) as [c|] eqn:Hc; [|contradiction].
  destruct (query_of_range start_time end_time) as [q|] eqn:Hq; [|contradiction].
  destruct (get_object_list_sync c q) as [[[|] objs]|] eqn:Hg; try contradiction.
  apply in_flat_map in Hin as (o & Ho & Hin).
  destruct (event_of_object (display_name src) o) as [ev'|] eqn:Eo; [|contradiction].
  destruct Hin as [<-|[]]. exists src, c, q, objs, o. auto 8.
Qed.

(** C4: Every printed record comes from an enabled source of the registry,
    carries that source's display name, and ends at a time different from
    its start. *)
Theorem calendar_events_provenance start_time end_time reg sources out ev :
  registry_new_sync = Ok reg -> list_sources reg = Ok sources ->
  fst (calendar_events start_time end_time) = Ok out -> In ev out ->
  exists src, In src sources /\ enabled src = true /\ calendar ev = display_name src
              /\ end_ ev <> start ev.
Proof.
  intros R L E Hin.
  destruct (calendar_events_origin _ _ _ _ _ _ R L E Hin)
    as (src & c & q & objs & o & Hsrc & Hen & _ & _ & _ & _ & Ho).
  exists src. repeat split; auto.
  - exact (proj2 (event_of_object_texts _ _ _ Ho)).
  - unfold event_of_object in Ho. destruct (to_component o) as [[comp|]|]; try discriminate.
    destruct (event_of_component (display_name src) comp) as [r|] eqn:Ec; [subst r|discriminate].
    exact (event_end_ne_start_core _ _ _ Ec).
Qed.

(** A disabled source is only reported as skipped: it is not connected
    to, and it adds no record. *)
Theorem disabled_source_skipped start_time end_time s src :
  enabled src = false ->
  process_source start_time end_time s src = emit (DSkippingDisabled (display_name src)) s.
Proof. intros E. unfold process_source. now rewrite E. Qed.

(** C5: A calendar whose connection raises adds no record and leaves what
    the other calendars add unchanged. *)
Theorem failing_calendar_isolated start_time end_time srcs1 src srcs2 s e :
  connect_sync src CONNECT_TIMEOUT = Raise e -> valid_utf8 (display_name src) = true ->
  all_events (snd (process_sources start_time end_time (srcs1 ++ src :: srcs2) s)) =
  all_events (snd (process_sources start_time end_time (srcs1 ++ srcs2) s)).
Proof.
  intros E V. rewrite !process_sources_spec, !decodable_prefix_app. cbn [snd].
  destruct (names_ok srcs1); [|reflexivity].
  cbn [decodable_prefix]. rewrite V, !fold_sources_all_events, !flat_map_app. cbn [flat_map].
  assert (Ns : source_events start_time end_time src = [])
    by (unfold source_events; rewrite E; now destruct (enabled src)).
  now rewrite Ns.
Qed.

(** ** The connections the script attempts *)

Lemma connect_attempts_app l1 l2 :
  connect_attempts (l1 ++ l2) = connect_attempts l1 ++ connect_attempts l2.
Proof. apply flat_map_app. Qed.

Lemma connect_attempts_app_emit d s :
  connect_attempts (log s ++ [d]) = connect_attempts (log s) ++ connect_attempts [d].
Proof. apply flat_map_app. Qed.

Lemma reports_app l1 l2 : reports (l1 ++ l2) = reports l1 ++ reports l2.
Proof. apply flat_map_app. Qed.

Lemma reports_emit d s : final_line d = [] -> reports (log (emit d s)) = reports (log s).
Proof.
  intros F. unfold emit. cbn [log]. rewrite reports_app. unfold reports at 2.
  cbn [flat_map]. now rewrite F, app_nil_r.
Qed.

Section LogView.
Context {A : Type} (f : diag -> list A).
Hypothesis f_object_line : forall d, object_line d = true -> f d = [].

(** The loop over the objects of a calendar prints nothing a view that
    ignores the per-object lines sees. *)
Lemma process_event_view name idx o s :
  flat_map f (log (process_event name idx o s)) = flat_map f (log s).
Proof.
  unfold process_event, event_body; autounfold with monads.
  unfold emit, append_event; cbn [log].
  assert (Err : forall e, flat_map f (log s ++ [DEventError idx name e]) = flat_map f (log s))
    by (intros e; rewrite flat_map_app; cbn [flat_map]; now rewrite f_object_line, !app_nil_r).
  destruct (to_component o) as [[c|]|e]; [|reflexivity|apply Err].
  destruct (event_of_component name c) as [[ev|]|e]; [|reflexivity|apply Err].
  destruct (Nat.eqb _ _); cbn [fst snd log]; [|reflexivity].
  rewrite flat_map_app; cbn [flat_map].
  now rewrite f_object_line, !app_nil_r.
Qed.

Lemma process_events_view name idx objs s :
  flat_map f (log (process_events name idx objs s)) = flat_map f (log s).
Proof.
  revert idx s; induction objs as [|o objs IH]; intros idx s; simpl; [reflexivity|].
  now rewrite IH, process_event_view.
Qed.

End LogView.

Lemma process_events_connect name idx objs s :
  connect_attempts (log (process_events name idx objs s)) = connect_attempts (log s).
Proof. apply process_events_view. now intros []. Qed.

Lemma process_events_reports name idx objs s :
  reports (log (process_events name idx objs s)) = reports (log s).
Proof. apply process_events_view. now intros []. Qed.

Lemma process_source_connect start_time end_time s src :
  connect_attempts (log (process_source start_time end_time s src)) =
  connect_attempts (log s) ++ (if enabled src then [display_name src] else []).
Proof.
  unfold process_source. destruct (enabled src); cbn [negb];
    [|conn_simpl; reflexivity].
  unfold_st.
  destruct (connect_sync src CONNECT_TIMEOUT) as [c|e]; [|conn_simpl; reflexivity].
  destruct (query_of_range start_time end_time) as [q|e]; [|conn_simpl; reflexivity].
  destruct (get_object_list_sync c q) as [[[|] [|o objs]]|e];
    cbn [negb orb is_empty]; try (conn_simpl; reflexivity).
  cbn [fst snd]. unfold emit at 1. cbn [log].
  rewrite connect_attempts_app_emit, process_events_connect. conn_simpl. reflexivity.
Qed.

(** The script tries to connect to exactly the enabled sources, in the
    order of the registry. *)
Lemma fold_sources_connect start_time end_time sources s :
  connect_attempts (log (fold_sources start_time end_time sources s)) =
  connect_attempts (log s) ++ map display_name (filter enabled sources).
Proof.
  unfold fold_sources. rewrite (fold_left_view _ (fun s => connect_attempts (log s)) _
    (process_source_connect start_time end_time)).
  now rewrite flat_map_filter.
Qed.

(** ** Every source is reported *)

Lemma process_source_reports start_time end_time s src :
  reports (log (process_source start_time end_time s src)) =
  reports (log s) ++ [(display_name src, source_report start_time end_time src)].
Proof.
  unfold process_source, source_report. destruct (enabled src); cbn [negb];
    [|conn_simpl; reflexivity].
  unfold_st.
  destruct (connect_sync src CONNECT_TIMEOUT) as [c|e]; [|conn_simpl; reflexivity].
  destruct (query_of_range start_time end_time) as [q|e]; [|conn_simpl; reflexivity].
  destruct (get_object_list_sync c q) as [[[|] [|o objs]]|e];
    cbn [negb orb is_empty]; try (conn_simpl; reflexivity).
  cbn [fst snd]. unfold emit at 1. cbn [log].
  rewrite reports_app, process_events_reports. conn_simpl. reflexivity.
Qed.

Lemma fold_sources_reports start_time end_time sources s :
  reports (log (fold_sources start_time end_time sources s)) =
  reports (log s) ++ map (fun src => (display_name src, source_report start_time end_time src)) sources.
Proof.
  unfold fold_sources. rewrite (fold_left_view _ (fun s => reports (log s)) _
    (process_source_reports start_time end_time)).
  now rewrite flat_map_single.
Qed.

(** C7: Every source of the registry is seen through to its end, in
    registry order: stderr holds exactly one final line per source,
    [Skipping disabled calendar] for a disabled one, the error line of
    line 135 when connecting, building the query or fetching the objects
    raises, [No events] when the call fails or finds nothing, and
    [Finished] otherwise.  No calendar is left unreported and a failing
    one does not stop the loop. *)
Theorem calendar_events_reports start_time end_time reg sources :
  registry_new_sync = Ok reg -> list_sources reg = Ok sources -> names_ok sources = true ->
  reports (log (snd (calendar_events start_time end_time)))
  = map (fun src => (display_name src, source_report start_time end_time src)) sources.
Proof.
  intros R L N. unfold calendar_events. rewrite R, L, process_sources_spec, N.
  rewrite decodable_prefix_ok by exact N. cbn [snd].
  rewrite reports_emit by reflexivity. cbn [log].
  rewrite reports_emit, fold_sources_reports, !reports_emit by reflexivity.
  reflexivity.
Qed.

(** ** The count of the [Finished] line *)

Lemma process_events_finished name idx objs s :
  flat_map finished_line (log (process_events name idx objs s)) = flat_map finished_line (log s).
Proof. apply process_events_view. now intros []. Qed.

Lemma process_source_finished start_time end_time s src :
  flat_map finished_line (log (process_source start_time end_time s src)) =
  flat_map finished_line (log s)
  ++ finished_count (display_name src) (source_report start_time end_time src)
       (all_events s ++ source_events start_time end_time src).
Proof.
  unfold process_source, source_report, source_events. destruct (enabled src); cbn [negb];
    [|conn_simpl; reflexivity].
  unfold_st.
  destruct (connect_sync src CONNECT_TIMEOUT) as [c|e]; [|conn_simpl; reflexivity].
  destruct (query_of_range start_time end_time) as [q|e]; [|conn_simpl; reflexivity].
  destruct (get_object_list_sync c q) as [[[|] [|o objs]]|e];
    cbn [negb orb is_empty]; try (conn_simpl; reflexivity).
  cbn [fst snd]. unfold emit at 1. cbn [log all_events].
  rewrite flat_map_app, process_events_finished, process_events_all_events. conn_simpl.
  reflexivity.
Qed.

(** The lines of the sources processed so far stay at the front. *)
Lemma fold_sources_finished_prefix start_time end_time sources s :
  exists l, flat_map finished_line (log (fold_sources start_time end_time sources s))
            = flat_map finished_line (log s) ++ l.
Proof.
  unfold fold_sources. revert s; induction sources as [|src sources IH]; intros s.
  - exists []. now rewrite app_nil_r.
  - cbn [fold_left]. destruct (IH (process_source start_time end_time s src)) as [l E].
    rewrite E, process_source_finished. eexists. now rewrite <- app_assoc.
Qed.

Lemma fold_sources_finished start_time end_time pre src post s :
  exists l1 l2,
    flat_map finished_line (log (fold_sources start_time end_time (pre ++ src :: post) s))
    = l1 ++ finished_count (display_name src) (source_report start_time end_time src)
              (all_events s ++ flat_map (source_events start_time end_time) (pre ++ [src])) ++ l2.
Proof.
  unfold fold_sources. rewrite fold_left_app. cbn [fold_left].
  destruct (fold_sources_finished_prefix start_time end_time post
              (process_source start_time end_time (fold_sources start_time end_time pre s) src))
    as [l2 E].
  unfold fold_sources in E. rewrite E, process_source_finished.
  exists (flat_map finished_line (log (fold_left (process_source start_time end_time) pre s))), l2.
  fold (fold_sources start_time end_time pre s).
  rewrite fold_sources_all_events. autorewrite with lists. cbn [flat_map].
  now rewrite app_nil_r.
Qed.

Lemma in_finished_line n k l : In (n, k) (flat_map finished_line l) -> In (DFinished n k) l.
Proof.
  rewrite in_flat_map. intros (d & Hd & Hin).
  destruct d; cbn [finished_line In] in Hin; try contradiction.
  destruct Hin as [[= -> ->]|[]]. exact Hd.
Qed.

(** C21: The count on a calendar's [Finished processing] line (line 132)
    is the number of records so far that bear its display name: those
    of the calendar itself and those of every earlier calendar of the same
    name, so namesakes inflate each other's counts. *)
Theorem finished_count_namesakes start_time end_time reg pre src post :
  registry_new_sync = Ok reg -> list_sources reg = Ok (pre ++ src :: post) ->
  names_ok (pre ++ src :: post) = true ->
  source_report start_time end_time src = RFinished ->
  In (DFinished (display_name src)
        (count_calendar (display_name src)
           (flat_map (source_events start_time end_time) (pre ++ [src]))))
     (log (snd (calendar_events start_time end_time))).
Proof.
  intros R L N F. unfold calendar_events. rewrite R, L, process_sources_spec, N.
  rewrite decodable_prefix_ok by exact N. cbn [snd log emit].
  apply in_or_app; left. apply in_or_app; left. apply in_finished_line.
  destruct (fold_sources_finished start_time end_time pre src post
              (emit (DFoundSources (length (pre ++ src :: post)))
                 (emit DRegistryObtained
                    (emit DGettingRegistry (emit (DStarting start_time end_time) (mk_state [] []))))))
    as (l1 & l2 & E).
  rewrite E, F. cbn [finished_count all_events emit app].
  apply in_or_app; right. now left.
Qed.

End Extractor.

(** ** Concrete runs *)

#[local] Existing Instances tzdb_wib local_wib.

(** Three calendars: "Work" holds the spec's "Standup" event, "Holidays"
    is disabled, and connecting to "Shared" fails. *)
Definition work : source := mk_source "work-uid" "Work" true.
Definition holidays : source := mk_source "holidays-uid" "Holidays" false.
Definition shared : source := mk_source "shared-uid" "Shared" true.

Definition demo_world : fake_world :=
  mk_fake_world None
    [mk_fake_calendar work None [(ObjComponent standup, (1700003600, 1700007200))];
     mk_fake_calendar holidays None [(ObjComponent untitled, (1700003600, 1700007200))];
     mk_fake_calendar shared (Some "Connection refused") []]
    [].

Definition demo_backend : CalendarBackend := fake_backend demo_world.
#[local] Existing Instance demo_backend.

(** The spec's example: the range 1700000000..1700086400 prints the one
    "Standup" record of the enabled, reachable calendar. *)
Example spec_example :
  fst (calendar_events 1700000000 1700086400)
  = Ok [mk_event "Standup" 1700003600 1700007200 "" "" "Work"].
Proof. vm_compute. reflexivity. Qed.

Lemma calendar_events_sorted_witness :
  fst (calendar_events 1700000000 1700086400)
    = Ok [mk_event "Standup" 1700003600 1700007200 "" "" "Work"]
  /\ Sorted (key_le start) [mk_event "Standup" 1700003600 1700007200 "" "" "Work"].
Proof.
  assert (E : fst (calendar_events 1700000000 1700086400)
              = Ok [mk_event "Standup" 1700003600 1700007200 "" "" "Work"])
    by (vm_compute; reflexivity).
  split; [exact E | exact (calendar_events_sorted _ _ _ E)].
Defined.

Lemma calendar_events_stable_witness :
  registry_new_sync = Ok (tt : registry) /\ list_sources (tt : registry) = Ok [work; holidays; shared]
  /\ names_ok [work; holidays; shared] = true
  /\ exists out, fst (calendar_events 1700000000 1700086400) = Ok out
     /\ with_key start 1700003600 out
        = with_key start 1700003600
            (flat_map (source_events 1700000000 1700086400) [work; holidays; shared]).
Proof.
  assert (R : registry_new_sync = Ok (tt : registry)) by reflexivity.
  assert (L : list_sources (tt : registry) = Ok [work; holidays; shared]) by reflexivity.
  assert (N : names_ok [work; holidays; shared] = true) by reflexivity.
  split; [exact R | split; [exact L | split; [exact N|]]].
  exact (calendar_events_stable _ _ _ _ _ R L N).
Defined.

Lemma calendar_events_provenance_witness :
  fst (calendar_events 1700000000 1700086400)
    = Ok [mk_event "Standup" 1700003600 1700007200 "" "" "Work"]
  /\ exists src, In src [work; holidays; shared] /\ enabled src = true
     /\ calendar (mk_event "Standup" 1700003600 1700007200 "" "" "Work") = display_name src
     /\ end_ (mk_event "Standup" 1700003600 1700007200 "" "" "Work")
        <> start (mk_event "Standup" 1700003600 1700007200 "" "" "Work").
Proof.
  assert (R : registry_new_sync = Ok (tt : registry)) by reflexivity.
  assert (L : list_sources (tt : registry) = Ok [work; holidays; shared]) by reflexivity.
  assert (E : fst (calendar_events 1700000000 1700086400)
              = Ok [mk_event "Standup" 1700003600 1700007200 "" "" "Work"])
    by (vm_compute; reflexivity).
  split; [exact E|].
  exact (calendar_events_provenance _ _ _ _ _ _ R L E (or_introl eq_refl)).
Defined.

Lemma disabled_source_skipped_witness :
  enabled holidays = false
  /\ process_source 1700000000 1700086400 (mk_state [] []) holidays
     = mk_state [] [DSkippingDisabled "Holidays"].
Proof.
  assert (E : enabled holidays = false) by reflexivity.
  split; [exact E|].
  rewrite (disabled_source_skipped 1700000000 1700086400 (mk_state [] []) holidays E).
  reflexivity.
Defined.

Lemma failing_calendar_isolated_witness :
  connect_sync shared CONNECT_TIMEOUT = Raise (GLibError "Connection refused")
  /\ valid_utf8 (display_name shared) = true
  /\ all_events (snd (process_sources 1700000000 1700086400 ([work; holidays] ++ shared :: [])
                   (mk_state [] [])))
     = [mk_event "Standup" 1700003600 1700007200 "" "" "Work"].
Proof.
  assert (E : connect_sync shared CONNECT_TIMEOUT = Raise (GLibError "Connection refused"))
    by reflexivity.
  assert (V : valid_utf8 (display_name shared) = true) by reflexivity.
  split; [exact E | split; [exact V|]].
  rewrite (failing_calendar_isolated _ _ _ _ _ _ _ E V). vm_compute. reflexivity.
Defined.

Lemma calendar_events_reports_witness :
  registry_new_sync = Ok (tt : registry) /\ list_sources (tt : registry) = Ok [work; holidays; shared]
  /\ names_ok [work; holidays; shared] = true
  /\ reports (log (snd (calendar_events 1700000000 1700086400)))
     = [("Work", RFinished); ("Holidays", RSkipped); ("Shared", RFailed)].
Proof.
  assert (R : registry_new_sync = Ok (tt : registry)) by reflexivity.
  assert (L : list_sources (tt : registry) = Ok [work; holidays; shared]) by reflexivity.
  assert (N : names_ok [work; holidays; shared] = true) by reflexivity.
  split; [exact R | split; [exact L | split; [exact N|]]].
  rewrite (calendar_events_reports _ _ _ _ R L N). vm_compute. reflexivity.
Defined.

(** Two enabled calendars that share the display name "Team", one event
    each: the second is reported as having found 2 events. *)
Definition team_a : source := mk_source "team-a-uid" "Team" true.
Definition team_b : source := mk_source "team-b-uid" "Team" true.

Definition team_world : fake_world :=
  mk_fake_world None
    [mk_fake_calendar team_a None [(ObjComponent standup, (1700003600, 1700007200))];
     mk_fake_calendar team_b None [(ObjComponent untitled, (1700003600, 1700007200))]]
    [].

Lemma finished_count_namesakes_witness :
  @registry_new_sync (fake_backend team_world) = Ok (tt : unit)
  /\ @list_sources (fake_backend team_world) tt = Ok ([team_a] ++ team_b :: [])
  /\ names_ok ([team_a] ++ team_b :: []) = true
  /\ @source_report (fake_backend team_world) 1700000000 1700086400 team_b = RFinished
  /\ In (DFinished "Team" 2)
       (log (snd (@calendar_events (fake_backend team_world) _ _ 1700000000 1700086400))).
Proof.
  assert (R : @registry_new_sync (fake_backend team_world) = Ok (tt : unit)) by reflexivity.
  assert (L : @list_sources (fake_backend team_world) tt = Ok ([team_a] ++ team_b :: []))
    by reflexivity.
  assert (N : names_ok ([team_a] ++ team_b :: []) = true) by reflexivity.
  assert (F : @source_report (fake_backend team_world) 1700000000 1700086400 team_b = RFinished)
    by (vm_compute; reflexivity).
  assert (C : count_calendar (display_name team_b)
                (flat_map (@source_events (fake_backend team_world) _ _ 1700000000 1700086400)
                   ([team_a] ++ [team_b])) = 2%nat) by (vm_compute; reflexivity).
  split; [exact R | split; [exact L | split; [exact N | split; [exact F|]]]].
  rewrite <- C. exact (finished_count_namesakes _ _ _ _ _ _ R L N F).
Defined.

(** A calendar whose display name is not UTF-8 ends the script at line
    63, before it is connected to: nothing is printed on stdout. *)
Definition garbled_name : source := mk_source "garbled-uid" (String (Ascii.ascii_of_nat 233) "") true.

Definition garbled_world : fake_world :=
  mk_fake_world None
    [mk_fake_calendar work None [(ObjComponent standup, (1700003600, 1700007200))];
     mk_fake_calendar garbled_name None []] [].

Example undecodable_name_kills_script :
  @calendar_events (fake_backend garbled_world) _ _ 1700000000 1700086400
  = (Raise utf8_error,
     mk_state [mk_event "Standup" 1700003600 1700007200 "" "" "Work"]
       [DStarting 1700000000 1700086400; DGettingRegistry; DRegistryObtained; DFoundSources 2;
        DProcessing "Work"; DConnecting "Work"; DConnected "Work";
        DQuery (make_query "20231114T221320Z" "20231115T221320Z"); DGettingObjects "Work";
        DGotObjects "Work" true 1; DProcessingEvents "Work" 1; DFinished "Work" 1]).
Proof. vm_compute. reflexivity. Qed.
