(* ===== verification/FakeService.v ===== *)
(** * FakeService: [calendar-events.py] against the in-memory service

    With [FakeBackend.fake_backend] as the calendar service, the query the
    script builds (lines 76-82) is read back by the service as exactly the
    requested range, so the script prints the stable sort by start of the
    records of the objects, in the enabled calendars it can connect to,
    whose interval overlaps the range.  This is the end-to-end check the
    spec's design notes ask the fake backend for: it ties the formatting
    of the query ([Query]) to the loop that consumes its result
    ([Extractor]). *)

From Stdlib Require Import ZArith String List Bool Lia.
From S2P Require Import Prelude Civil ICalTime TimeNorm Backend Query FakeBackend Event Sort.
From S2P Require Import Extractor.
Import ListNotations.
Open Scope Z_scope.
Open Scope list_scope.

Section FakeService.
Context `{TzDatabase} `{LocalZone}.
Variable w : fake_world.

#[local] Instance fake_instance : CalendarBackend := fake_backend w.

(** What the service holds in the range: for every enabled source it can
    connect to, the objects overlapping [[start_time, end_time)], read
    into records. *)
Definition fake_expected (start_time end_time : Z) : list event_record :=
  flat_map (fun src =>
    if enabled src then
      match fake_connect w src with
      | Ok fc =>
          flat_map (fun o => list_of_option (event_of_object (display_name src) o))
            (map fst (filter (fun oab => meets (snd oab) start_time end_time) (fc_objects fc)))
      | Raise _ => []
      end
    else []) (map fc_source (fw_calendars w)).

(** The service answers the script's query with the objects of the
    requested range, when the years of its bounds have four digits. *)
Lemma fake_object_list_query fc start_time end_time q :
  query_of_range start_time end_time = Ok q ->
  1000 <= c_year (gmtime start_time) -> 1000 <= c_year (gmtime end_time) ->
  fake_object_list fc q
  = Ok (true, map fst (filter (fun oab => meets (snd oab) start_time end_time) (fc_objects fc))).
Proof.
  intros Q K1 K2. destruct (query_of_range_parse _ _ _ Q K1 K2) as (c1 & c2 & P & T1 & T2).
  unfold fake_object_list. now rewrite P, T1, T2.
Qed.

(** Against the fake service, when the registry opens, the names of the
    calendars decode and the years of the range are 1000..9999,
    [calendar-events.py] prints the stable sort by start of the records
    of exactly the objects, in the enabled calendars it can connect to,
    that overlap the requested range. *)
Theorem fake_calendar_events start_time end_time :
  fw_registry_error w = None -> names_ok (map fc_source (fw_calendars w)) = true ->
  1000 <= c_year (gmtime start_time) <= MAXYEAR -> 1000 <= c_year (gmtime end_time) <= MAXYEAR ->
  fst (calendar_events start_time end_time)
  = Ok (sort_by start (fake_expected start_time end_time)).
Proof.
  intros Hw N K1 K2.
  assert (Q : query_of_range start_time end_time
              = Ok (make_query (format_stamp (gmtime start_time)) (format_stamp (gmtime end_time))))
    by (apply query_of_range_gmtime; unfold MINYEAR; lia).
  assert (R : registry_new_sync = Ok (tt : registry)) by (cbn; now rewrite Hw).
  assert (L : list_sources (tt : registry) = Ok (map fc_source (fw_calendars w))) by reflexivity.
  rewrite (calendar_events_fst _ _ _ _ R L N). do 2 f_equal. unfold fake_expected.
  apply flat_map_ext. intros src. unfold source_events. destruct (enabled src); [|reflexivity].
  change (connect_sync src CONNECT_TIMEOUT) with (fake_connect w src).
  destruct (fake_connect w src) as [fc|]; [|reflexivity]. rewrite Q.
  change (@get_object_list_sync fake_instance) with fake_object_list.
  now rewrite (fake_object_list_query fc _ _ _ Q (proj1 K1) (proj1 K2)).
Qed.

End FakeService.

(** ** Concrete runs *)

#[local] Existing Instances tzdb_wib local_wib.

Lemma fake_calendar_events_witness :
  fw_registry_error demo_world = None
  /\ names_ok (map fc_source (fw_calendars demo_world)) = true
  /\ 1000 <= c_year (gmtime 1700000000) <= MAXYEAR /\ 1000 <= c_year (gmtime 1700086400) <= MAXYEAR
  /\ fst (@calendar_events (fake_backend demo_world) _ _ 1700000000 1700086400)
     = Ok (sort_by start (fake_expected demo_world 1700000000 1700086400)).
Proof.
  assert (K1 : 1000 <= c_year (gmtime 1700000000) <= MAXYEAR) by (vm_compute; split; discriminate).
  assert (K2 : 1000 <= c_year (gmtime 1700086400) <= MAXYEAR) by (vm_compute; split; discriminate).
  split; [reflexivity | split; [reflexivity | split; [exact K1 | split; [exact K2|]]]].
  exact (fake_calendar_events demo_world _ _ eq_refl eq_refl K1 K2).
Defined.
