(* ===== verification/ListCalendars.v ===== *)
(** * ListCalendars: [list-calendars.py]

    The script (lines 9-21) opens the source registry, lists the calendar
    sources and prints, as JSON, [{uid, name, enabled}] for every enabled
    source, in the registry's order; the uid and the name are converted
    to [str] outside any [try], so one that is not UTF-8 ends the script.
    [list_calendars] is the script
    against the same [CalendarBackend] as [calendar-events.py]; the
    theorem relating the two scripts says that the calendars it lists are
    exactly the ones [calendar-events.py] connects to. *)

From Stdlib Require Import ZArith String List Bool.
From S2P Require Import Prelude Utf8 TimeNorm ICalTime Backend FakeBackend Event Sort Extractor.
Import ListNotations.
Open Scope list_scope.

(** The dictionary appended to [calendars] (lines 15-19). *)
Record calendar_entry : Type := mk_entry {
  entry_uid : string;
  entry_name : string;
  entry_enabled : bool }.

(** The texts of the entry of an enabled source decode. *)
Definition entry_texts_ok (src : source) : bool :=
  valid_utf8 (uid src) && valid_utf8 (display_name src).

Section ListCalendars.
Context `{CalendarBackend}.

(** One iteration of lines 13-19: [if source.get_enabled():
    calendars.append({'uid': source.get_uid(), 'name':
    source.get_display_name(), 'enabled': True})], the two texts
    converted to [str] in this order, outside any [try]. *)
Definition collect_step (acc : exc (list calendar_entry)) (src : source)
    : exc (list calendar_entry) :=
  match acc with
  | Raise e => Raise e
  | Ok calendars =>
      if enabled src then
        match py_text (uid src) with
        | Raise e => Raise e
        | Ok u =>
            match py_text (display_name src) with
            | Raise e => Raise e
            | Ok n => Ok (calendars ++ [mk_entry u n true])
            end
        end
      else Ok calendars
  end.

(** Lines 12-19: [for source in sources: ...]. *)
Definition collect_calendars (sources : list source) : exc (list calendar_entry) :=
  fold_left collect_step sources (Ok []).

(** Lines 9-21: the list the script prints, or the exception it dies of. *)
Definition list_calendars : exc (list calendar_entry) :=
  (registry <- registry_new_sync ;;
   sources <- list_sources registry ;;
   collect_calendars sources)%exc.

Lemma collect_step_raise sources e : fold_left collect_step sources (Raise e) = Raise e.
Proof. induction sources; [reflexivity | apply IHsources]. Qed.

Lemma collect_calendars_acc sources acc :
  fold_left collect_step sources (Ok acc)
  = if forallb entry_texts_ok (filter enabled sources)
    then Ok (acc ++ map (fun src => mk_entry (uid src) (display_name src) true)
                      (filter enabled sources))
    else Raise utf8_error.
Proof.
  revert acc; induction sources as [|src sources IH]; intros acc; cbn [fold_left filter].
  - now rewrite app_nil_r.
  - unfold collect_step at 2. destruct (enabled src); [|apply IH].
    cbn [forallb map]. unfold entry_texts_ok, py_text.
    destruct (valid_utf8 (uid src)); cbn [andb]; [|apply collect_step_raise].
    destruct (valid_utf8 (display_name src)); cbn [andb]; [|apply collect_step_raise].
    rewrite IH, <- app_assoc. reflexivity.
Qed.

(** The calendars the script lists are the enabled sources, in the
    registry's order, each with its uid, its display name and
    [enabled = true]; a uid or name that does not decode kills it. *)
Theorem collect_calendars_spec sources :
  collect_calendars sources =
  if forallb entry_texts_ok (filter enabled sources)
  then Ok (map (fun src => mk_entry (uid src) (display_name src) true) (filter enabled sources))
  else Raise utf8_error.
Proof. apply collect_calendars_acc. Qed.

(** C36: Over the same registry, when both scripts print their list,
    [list-calendars.py] lists exactly the calendars that
    [calendar-events.py] tries to connect to, in the same order. *)
Theorem list_calendars_connected `{TzDatabase} `{LocalZone} start_time end_time cals out :
  list_calendars = Ok cals -> fst (calendar_events start_time end_time) = Ok out ->
  map entry_name cals = connect_attempts (log (snd (calendar_events start_time end_time))).
Proof.
  unfold list_calendars. destruct registry_new_sync as [reg|e] eqn:R; [|discriminate]. cbn.
  destruct (list_sources reg) as [sources|e] eqn:L; [|discriminate]. cbn.
  unfold collect_calendars. rewrite collect_calendars_acc.
  destruct (forallb _ _); [|discriminate]. intros [= <-] E.
  pose proof (calendar_events_names _ _ _ _ _ R L E) as N.
  unfold calendar_events. rewrite R, L, process_sources_spec, N, decodable_prefix_ok by exact N.
  simpl. rewrite !connect_attempts_app, fold_sources_connect. conn_simpl.
  rewrite map_map. reflexivity.
Qed.

End ListCalendars.

(** ** Concrete runs *)

#[local] Existing Instances demo_backend tzdb_wib local_wib.

Lemma list_calendars_connected_witness :
  list_calendars = Ok [mk_entry "work-uid" "Work" true; mk_entry "shared-uid" "Shared" true]
  /\ fst (calendar_events 1700000000 1700086400)
     = Ok [mk_event "Standup" 1700003600 1700007200 "" "" "Work"]
  /\ map entry_name [mk_entry "work-uid" "Work" true; mk_entry "shared-uid" "Shared" true]
     = connect_attempts (log (snd (calendar_events 1700000000 1700086400))).
Proof.
  assert (E : list_calendars
              = Ok [mk_entry "work-uid" "Work" true; mk_entry "shared-uid" "Shared" true])
    by reflexivity.
  assert (F : fst (calendar_events 1700000000 1700086400)
              = Ok [mk_event "Standup" 1700003600 1700007200 "" "" "Work"])
    by (vm_compute; reflexivity).
  split; [exact E | split; [exact F | exact (list_calendars_connected 1700000000 1700086400 _ _ E F)]].
Defined.
