(* ===== verification/GiEnv.v ===== *)
(** * GiEnv: the PyGObject start-up of the three scripts

    Each script starts with [import gi], a [gi.require_version] per
    typelib it needs, a few imports of the standard library (which cannot
    fail), and a [from gi.repository import ...] of the namespaces:
    - [calendar-events.py], lines 2-12: EDataServer 1.2, ECal 2.0 and
      ICalGLib 3.0, then [import ECal, EDataServer, ICalGLib];
    - [list-calendars.py], lines 2-7: EDataServer 1.2, then
      [import EDataServer];
    - [check-calendar.py], lines 2-8: EDataServer 1.2 and ECal 2.0, then
      [import ECal, EDataServer] inside its [try].
    [py_env] is what these statements depend on: whether the [gi] module
    is installed, which typelib versions the repository holds, and what
    importing each namespace does.  [require_version] follows PyGObject's
    [gi/__init__.py]: [ValueError] when the namespace has no typelib at
    all, another [ValueError] when it lacks the version asked for.  The
    statements run left to right and the first exception ends the run
    ([gi_startup]). *)

From Stdlib Require Import String List Bool.
From S2P Require Import Prelude.
Import ListNotations.
Open Scope string_scope.

(** The Python environment of the scripts. *)
Record py_env : Type := mk_env {
  has_gi : bool;
  typelibs : list (string * string);
  import_module : string -> exc unit }.

(** [import gi] *)
Definition import_gi (env : py_env) : exc unit :=
  if has_gi env then Ok tt else Raise (ImportError "No module named 'gi'").

(** [gi.require_version(namespace, version)] *)
Definition require_version (env : py_env) (namespace version : string) : exc unit :=
  if existsb (fun nv => String.eqb (fst nv) namespace && String.eqb (snd nv) version)
       (typelibs env)
  then Ok tt
  else if existsb (fun nv => String.eqb (fst nv) namespace) (typelibs env)
  then Raise (ValueError ("Namespace " ++ namespace ++ " not available for version " ++ version))
  else Raise (ValueError ("Namespace " ++ namespace ++ " not available")).

(** A sequence of [gi.require_version] statements. *)
Fixpoint require_versions (env : py_env) (reqs : list (string * string)) : exc unit :=
  match reqs with
  | [] => Ok tt
  | (namespace, version) :: rest =>
      match require_version env namespace version with
      | Ok _ => require_versions env rest
      | Raise e => Raise e
      end
  end.

(** [from gi.repository import m1, m2, ...] *)
Fixpoint from_import (env : py_env) (modules : list string) : exc unit :=
  match modules with
  | [] => Ok tt
  | m :: rest =>
      match import_module env m with
      | Ok _ => from_import env rest
      | Raise e => Raise e
      end
  end.

(** The start-up of a script: [import gi], its [require_version]s, the
    standard imports and its [from gi.repository import]. *)
Definition gi_startup (env : py_env) (reqs : list (string * string)) (modules : list string)
    : exc unit :=
  match import_gi env with
  | Raise e => Raise e
  | Ok _ =>
      match require_versions env reqs with
      | Raise e => Raise e
      | Ok _ => from_import env modules
      end
  end.

(** [calendar-events.py], lines 4-6 and 12. *)
Definition calendar_events_typelibs : list (string * string) :=
  [("EDataServer", "1.2"); ("ECal", "2.0"); ("ICalGLib", "3.0")].
Definition calendar_events_modules : list string := ["ECal"; "EDataServer"; "ICalGLib"].

(** [list-calendars.py], lines 4 and 7. *)
Definition list_calendars_typelibs : list (string * string) := [("EDataServer", "1.2")].
Definition list_calendars_modules : list string := ["EDataServer"].

(** [check-calendar.py], lines 4-5 and 8. *)
Definition check_calendar_typelibs : list (string * string) :=
  [("EDataServer", "1.2"); ("ECal", "2.0")].
Definition check_calendar_modules : list string := ["ECal"; "EDataServer"].

(** ** The statements succeed or raise *)

Lemma require_version_ok env namespace version :
  require_version env namespace version = Ok tt <-> In (namespace, version) (typelibs env).
Proof.
  unfold require_version. split.
  - destruct (existsb _ (typelibs env)) eqn:X;
      [|intros H; destruct (existsb (fun nv => String.eqb (fst nv) namespace) (typelibs env));
        discriminate H].
    intros _. apply existsb_exists in X as ([n v] & Hin & Hnv).
    apply andb_true_iff in Hnv as [Hn Hv]. apply String.eqb_eq in Hn, Hv. cbn in Hn, Hv.
    now subst.
  - intros Hin. replace (existsb _ _) with true; [reflexivity|]. symmetry.
    apply existsb_exists. exists (namespace, version). cbn. now rewrite !String.eqb_refl.
Qed.

(** A typelib version that is not installed makes [gi.require_version]
    raise [ValueError]. *)
Lemma require_version_raise env namespace version :
  ~ In (namespace, version) (typelibs env) ->
  exists m, require_version env namespace version = Raise (ValueError m).
Proof.
  intros N. destruct (require_version env namespace version) as [[]|e] eqn:R.
  - now apply require_version_ok in R.
  - unfold require_version in R. destruct (existsb _ _); [discriminate|].
    destruct (existsb _ _); injection R as <-; eexists; reflexivity.
Qed.

Lemma require_versions_ok env reqs :
  require_versions env reqs = Ok tt <-> Forall (fun nv => In nv (typelibs env)) reqs.
Proof.
  induction reqs as [|[n v] reqs IH]; cbn [require_versions].
  - split; [constructor | reflexivity].
  - rewrite Forall_cons_iff, <- require_version_ok, <- IH.
    destruct (require_version env n v) as [[]|e]; intuition discriminate.
Qed.

Lemma from_import_ok env modules :
  from_import env modules = Ok tt <-> Forall (fun m => import_module env m = Ok tt) modules.
Proof.
  induction modules as [|m modules IH]; cbn [from_import].
  - split; [constructor | reflexivity].
  - rewrite Forall_cons_iff, <- IH.
    destruct (import_module env m) as [[]|e]; intuition discriminate.
Qed.

Lemma gi_startup_ok env reqs modules :
  gi_startup env reqs modules = Ok tt <->
  has_gi env = true /\ Forall (fun nv => In nv (typelibs env)) reqs
  /\ Forall (fun m => import_module env m = Ok tt) modules.
Proof.
  unfold gi_startup, import_gi. rewrite <- require_versions_ok, <- from_import_ok.
  destruct (has_gi env); [|intuition discriminate].
  destruct (require_versions env reqs) as [[]|e]; intuition discriminate.
Qed.
