(* ===== verification/CheckCalendar.v ===== *)
(** * CheckCalendar: [check-calendar.py]

    The script (lines 1-11) imports [gi], asks for the EDataServer 1.2 and
    ECal 2.0 typelibs with [gi.require_version], then imports the two
    modules inside a [try]: it prints [available], or
    [unavailable: <message>] when the import raises [ImportError].  The
    start-up statements are those of [GiEnv], over the same environment
    [py_env] as the two other scripts.  The theorems show the two printed
    answers and that a missing [gi] or a missing typelib makes the script
    die instead of printing [unavailable]. *)

From Stdlib Require Import String List Bool.
From S2P Require Import Prelude GiEnv.
Import ListNotations.
Open Scope string_scope.

(** What running the script does: print a line, or die of an uncaught
    exception. *)
Inductive outcome : Type :=
| Printed (line : string)
| Died (e : PyExc).

(** The exception's message, [str(e)]. *)
Definition exc_message (e : PyExc) : string :=
  match e with
  | ValueError m | OverflowError m | AttributeError m | ImportError m | IndexError m
  | UnicodeDecodeError m
  | GLibError m => m
  end.

(** Lines 1-11. *)
Definition check_calendar (env : py_env) : outcome :=
  match import_gi env with
  | Raise e => Died e
  | Ok _ =>
      match require_versions env check_calendar_typelibs with
      | Raise e => Died e
      | Ok _ =>
          match from_import env check_calendar_modules with
          | Ok _ => Printed "available"
          | Raise (ImportError m) => Printed ("unavailable: " ++ m)
          | Raise e => Died e
          end
      end
  end.

(** C40: The script prints [available] exactly when [gi], both typelibs
    and the import of both modules are all there; the only other line it
    prints is [unavailable: ] followed by the message of an [ImportError]
    raised by the import itself. *)
Theorem check_calendar_printed env line :
  check_calendar env = Printed line ->
  (line = "available" /\ gi_startup env check_calendar_typelibs check_calendar_modules = Ok tt)
  \/ exists m, line = "unavailable: " ++ m
               /\ from_import env check_calendar_modules = Raise (ImportError m).
Proof.
  unfold check_calendar, gi_startup.
  destruct (import_gi env); [|discriminate].
  destruct (require_versions env check_calendar_typelibs); [|discriminate].
  destruct (from_import env check_calendar_modules) as [[]|[]]; intros H;
    try discriminate H; injection H as <-.
  - left. split; reflexivity.
  - right. eexists. split; reflexivity.
Qed.

(** C39: When the ECal 2.0 typelib is not installed, the script does not
    report the backend as unavailable: [gi.require_version] raises
    [ValueError] outside the [try] and the script dies. *)
Theorem check_calendar_missing_typelib env :
  has_gi env = true -> In ("EDataServer", "1.2") (typelibs env) ->
  ~ In ("ECal", "2.0") (typelibs env) ->
  exists m, check_calendar env = Died (ValueError m).
Proof.
  intros G E N. unfold check_calendar, import_gi, check_calendar_typelibs. rewrite G.
  cbn [require_versions]. apply require_version_ok in E. rewrite E.
  destruct (require_version_raise env "ECal" "2.0" N) as [m R]. rewrite R.
  now exists m.
Qed.

(** [available] is printed only when the whole start-up succeeds. *)
Lemma check_calendar_available env :
  check_calendar env = Printed "available" ->
  gi_startup env check_calendar_typelibs check_calendar_modules = Ok tt.
Proof.
  unfold check_calendar, gi_startup.
  destruct (import_gi env); [|discriminate].
  destruct (require_versions env check_calendar_typelibs); [|discriminate].
  destruct (from_import env check_calendar_modules) as [[]|[]]; intros H;
    try discriminate H; reflexivity.
Qed.

(** ** Concrete runs *)

(** [gi] and EDataServer 1.2 are installed, ECal is not. *)
Definition env_no_ecal : py_env := mk_env true [("EDataServer", "1.2")] (fun _ => Ok tt).

(** Both typelibs are installed, but loading libecal fails. *)
Definition env_broken_ecal : py_env :=
  mk_env true [("EDataServer", "1.2"); ("ECal", "2.0")]
    (fun m => if String.eqb m "ECal"
              then Raise (ImportError "libecal-2.0.so.2: cannot open shared object file")
              else Ok tt).

Lemma check_calendar_missing_typelib_witness :
  has_gi env_no_ecal = true /\ In ("EDataServer", "1.2") (typelibs env_no_ecal)
  /\ ~ In ("ECal", "2.0") (typelibs env_no_ecal)
  /\ check_calendar env_no_ecal = Died (ValueError "Namespace ECal not available").
Proof.
  assert (I : In ("EDataServer", "1.2") (typelibs env_no_ecal)) by (left; reflexivity).
  assert (N : ~ In ("ECal", "2.0") (typelibs env_no_ecal))
    by (simpl; intros [H | []]; discriminate).
  split; [reflexivity | split; [exact I | split; [exact N|]]].
  destruct (check_calendar_missing_typelib env_no_ecal eq_refl I N) as [m E].
  rewrite E. vm_compute in E. exact (eq_sym E).
Defined.

Lemma check_calendar_printed_witness :
  check_calendar env_broken_ecal
    = Printed "unavailable: libecal-2.0.so.2: cannot open shared object file"
  /\ exists m, "unavailable: libecal-2.0.so.2: cannot open shared object file" = "unavailable: " ++ m
     /\ from_import env_broken_ecal check_calendar_modules = Raise (ImportError m).
Proof.
  assert (E : check_calendar env_broken_ecal
              = Printed "unavailable: libecal-2.0.so.2: cannot open shared object file")
    by reflexivity.
  split; [exact E|].
  destruct (check_calendar_printed _ _ E) as [[Hl _] | H]; [discriminate | exact H].
Defined.
