(* ===== verification/Stderr.v ===== *)
(** * Stderr: the diagnostic text of [calendar-events.py]

    Every [print(..., file=sys.stderr)] of the script is a constructor of
    [Event.diag]; [diag_text] is the f-string of its line, with [{n}] of
    an [int] written by [int.__str__] ([Json.int_repr]), a [bool] as
    [True] or [False], a calendar name as its (UTF-8) bytes and an
    exception as [str(e)] ([CheckCalendar.exc_message]).  [print] ends
    each line with a newline, so stderr holds [stderr_text] of the log.
    The traceback Python writes when the script dies is not modelled. *)

From Stdlib Require Import ZArith String List Bool Ascii Permutation.
From S2P Require Import Prelude Utf8 Json ICalTime TimeNorm Backend Query FakeBackend Event Sort.
From S2P Require Import Extractor CheckCalendar.
Import ListNotations.
Open Scope string_scope.

(** The line break [print] writes, also at the head of lines 64 and 137. *)
Definition newline : string := String (ascii_of_nat 10) EmptyString.

(** [{n}] in an f-string. *)
Definition str_int (n : Z) : string := text (int_repr n).
Definition str_nat (n : nat) : string := str_int (Z.of_nat n).
Definition str_bool (b : bool) : string := if b then "True" else "False".

(** The text of each diagnostic line, by the line that prints it. *)
Definition diag_text (d : diag) : string :=
  match d with
  | DStarting s e => "Starting with time range: " ++ str_int s ++ " to " ++ str_int e
  | DGettingRegistry => "Getting registry..."
  | DRegistryObtained => "Registry obtained"
  | DFoundSources n => "Found " ++ str_nat n ++ " calendar sources"
  | DSkippingDisabled name => "Skipping disabled calendar: " ++ name
  | DProcessing name => newline ++ "Processing calendar: " ++ name
  | DConnecting name => "  Connecting to " ++ name ++ "..."
  | DConnected name => "  Connected to " ++ name
  | DQuery q => "  Query: " ++ q
  | DGettingObjects name => "  Getting object list for " ++ name ++ "..."
  | DGotObjects name ok n =>
      "  Got object list for " ++ name ++ ": success=" ++ str_bool ok ++ ", count=" ++ str_nat n
  | DNoEvents name => "  No events found in " ++ name
  | DProcessingEvents name n => "  Processing " ++ str_nat n ++ " events from " ++ name ++ "..."
  | DProcessed name n => "  Processed " ++ str_nat n ++ " events from " ++ name ++ "..."
  | DEventError idx name e =>
      "  Error processing event " ++ str_nat idx ++ " in " ++ name ++ ": " ++ exc_message e
  | DFinished name n => "  Finished processing " ++ name ++ ", found " ++ str_nat n ++ " events"
  | DCalendarError name e => "  Error for " ++ name ++ ": " ++ exc_message e
  | DSorting n => newline ++ "Sorting " ++ str_nat n ++ " total events..."
  | DDone => "Done! Outputting JSON..."
  end.

(** What stderr holds after the lines of a log. *)
Fixpoint stderr_text (l : list diag) : string :=
  match l with
  | [] => EmptyString
  | d :: rest => diag_text d ++ newline ++ stderr_text rest
  end.

(** ** Properties *)

Lemma stderr_text_app l1 l2 : stderr_text (l1 ++ l2) = stderr_text l1 ++ stderr_text l2.
Proof.
  induction l1 as [|d l1 IH]; [reflexivity|]. cbn [app stderr_text].
  now rewrite IH, !string_app_assoc.
Qed.

Section Script.
Context `{CalendarBackend} `{TzDatabase} `{LocalZone}.

(** C22: When [calendar-events.py] prints its list, its stderr ends with
    the lines of lines 137 and 139, and the count the first announces is
    the number of records printed on stdout:
    [\nSorting N total events...\nDone! Outputting JSON...\n]. *)
Theorem stderr_announces_output start_time end_time evs :
  fst (calendar_events start_time end_time) = Ok evs ->
  exists before,
    stderr_text (log (snd (calendar_events start_time end_time)))
    = before ++ newline ++ "Sorting " ++ str_nat (length evs) ++ " total events..." ++ newline
      ++ "Done! Outputting JSON..." ++ newline.
Proof.
  unfold calendar_events. destruct registry_new_sync as [reg|e]; [|discriminate].
  destruct (list_sources reg) as [sources|e]; [|discriminate].
  destruct (process_sources _ _ _ _) as [[[]|e] s']; [|discriminate].
  intros E. injection E as <-. exists (stderr_text (log s')).
  unfold emit. cbn [log snd]. rewrite !stderr_text_app. cbn [stderr_text diag_text].
  rewrite (Permutation_length (sort_by_perm start (all_events s'))).
  now rewrite !string_app_nil_r, !string_app_assoc.
Qed.

End Script.

(** ** Concrete runs *)

#[local] Existing Instances demo_backend tzdb_wib local_wib.

(** What the spec's example run writes to stderr. *)
Example spec_example_stderr :
  stderr_text (log (snd (calendar_events 1700000000 1700086400)))
  = "Starting with time range: 1700000000 to 1700086400
Getting registry...
Registry obtained
Found 3 calendar sources

Processing calendar: Work
  Connecting to Work...
  Connected to Work
  Query: " ++ make_query "20231114T221320Z" "20231115T221320Z" ++ "
  Getting object list for Work...
  Got object list for Work: success=True, count=1
  Processing 1 events from Work...
  Finished processing Work, found 1 events
Skipping disabled calendar: Holidays

Processing calendar: Shared
  Connecting to Shared...
  Error for Shared: Connection refused

Sorting 1 total events...
Done! Outputting JSON...
".
Proof. vm_compute. reflexivity. Qed.

Lemma stderr_announces_output_witness :
  fst (calendar_events 1700000000 1700086400)
    = Ok [mk_event "Standup" 1700003600 1700007200 "" "" "Work"]
  /\ exists before,
       stderr_text (log (snd (calendar_events 1700000000 1700086400)))
       = before ++ newline ++ "Sorting " ++ str_nat 1 ++ " total events..." ++ newline
         ++ "Done! Outputting JSON..." ++ newline.
Proof.
  assert (E : fst (calendar_events 1700000000 1700086400)
              = Ok [mk_event "Standup" 1700003600 1700007200 "" "" "Work"])
    by (vm_compute; reflexivity).
  split; [exact E | exact (stderr_announces_output _ _ _ E)].
Defined.
