(* ===== verification/Output.v ===== *)
(** * Output: the JSON line the listing scripts print, and its reader

    [calendar-events.py] ends with [print(json.dumps(all_events))] (line
    141) and [list-calendars.py] with [print(json.dumps(calendars))]
    (line 21).  The records of the model hold their texts as the UTF-8
    bytes the calendar service hands over; the [str] Python prints is
    their decoding ([py_str]).  [event_json] and [entry_json] are the
    dictionaries of lines 117-124 and 15-19 as [json.dumps] sees them,
    keys in insertion order; [print_events] and [print_entries] are the
    printed lines.  The scripts only keep texts PyGObject could convert
    (a text that is not UTF-8 raises in its accessor), so [print_events]
    and [print_entries] never meet one that fails to decode.

    On the reader's side (the shell widget), [read_events] and
    [read_entries] parse the line and take the fields back.  The theorems
    say that the reader gets back exactly the records the script built,
    in order: together with [Extractor.calendar_events_output], the widget
    sees the stable sort by start of the events of the enabled calendars.
    [jtype] and [has_type] state the spec's data model as JSON types, and
    every line the script prints has the type of an array of
    [EventRecord]s.  A calendar whose display name does not decode is
    fatal to the whole script ([undecodable_name_fatal]). *)

From Stdlib Require Import ZArith String List Bool Lia.
From S2P Require Import Prelude Utf8 Json ICalTime TimeNorm Backend FakeBackend Event Sort.
From S2P Require Import Extractor ListCalendars.
Import ListNotations.
Open Scope Z_scope.
Open Scope list_scope.

(** [f] on every element, or [None] when it fails on one. *)
Fixpoint map_option {A B} (f : A -> option B) (l : list A) : option (list B) :=
  match l with
  | [] => Some []
  | x :: r =>
      match f x, map_option f r with
      | Some y, Some ys => Some (y :: ys)
      | _, _ => None
      end
  end.

(** The [str] PyGObject makes of the bytes of a text. *)
Definition py_str (s : string) : option (list Z) := utf8_decode s.

(** ** What the scripts print *)

(** Lines 117-124: the dictionary of a record. *)
Definition event_json (e : event_record) : option json :=
  match py_str (summary e), py_str (location e), py_str (description e), py_str (calendar e) with
  | Some su, Some lo, Some de, Some ca =>
      Some (JObj [(str "summary", JStr su); (str "start", JInt (start e));
                  (str "end", JInt (end_ e)); (str "location", JStr lo);
                  (str "description", JStr de); (str "calendar", JStr ca)])
  | _, _, _, _ => None
  end.

(** Line 141: [print(json.dumps(all_events))]. *)
Definition print_events (evs : list event_record) : option string :=
  option_map (fun js => print_line (dumps (JArr js))) (map_option event_json evs).

(** [list-calendars.py] lines 15-19: the dictionary of a calendar. *)
Definition entry_json (c : calendar_entry) : option json :=
  match py_str (entry_uid c), py_str (entry_name c) with
  | Some u, Some n =>
      Some (JObj [(str "uid", JStr u); (str "name", JStr n); (str "enabled", JBool (entry_enabled c))])
  | _, _ => None
  end.

(** [list-calendars.py] line 21: [print(json.dumps(calendars))]. *)
Definition print_entries (cs : list calendar_entry) : option string :=
  option_map (fun js => print_line (dumps (JArr js))) (map_option entry_json cs).

Section Scripts.
Context `{CalendarBackend} `{TzDatabase} `{LocalZone}.

(** What [calendar-events.py] writes to stdout: the JSON line, or
    nothing when it dies before line 141. *)
Definition calendar_events_stdout (start_time end_time : Z) : option string :=
  match fst (calendar_events start_time end_time) with
  | Ok evs => print_events evs
  | Raise _ => Some EmptyString
  end.

(** What [list-calendars.py] writes to stdout. *)
Definition list_calendars_stdout : option string :=
  match list_calendars with
  | Ok cs => print_entries cs
  | Raise _ => Some EmptyString
  end.

End Scripts.

(** ** The reader *)

Definition key_is (k : list Z) (name : string) : bool :=
  if list_eq_dec Z.eq_dec k (str name) then true else false.

(** The record of an object with the six fields, in order. *)
Definition event_of_json (j : json) : option event_record :=
  match j with
  | JObj [(k1, JStr su); (k2, JInt st); (k3, JInt en); (k4, JStr lo); (k5, JStr de);
          (k6, JStr ca)] =>
      if key_is k1 "summary" && key_is k2 "start" && key_is k3 "end" && key_is k4 "location"
         && key_is k5 "description" && key_is k6 "calendar"
      then Some (mk_event (utf8_encode su) st en (utf8_encode lo) (utf8_encode de) (utf8_encode ca))
      else None
  | _ => None
  end.

(** The calendar of an object with the three fields, in order. *)
Definition entry_of_json (j : json) : option calendar_entry :=
  match j with
  | JObj [(k1, JStr u); (k2, JStr n); (k3, JBool b)] =>
      if key_is k1 "uid" && key_is k2 "name" && key_is k3 "enabled"
      then Some (mk_entry (utf8_encode u) (utf8_encode n) b)
      else None
  | _ => None
  end.

(** The widget reads the line as an array of such objects. *)
Definition read_array {A} (of_json : json -> option A) (out : string) : option (list A) :=
  match json_read out with
  | Some (JArr js) => map_option of_json js
  | _ => None
  end.

Definition read_events := read_array event_of_json.
Definition read_entries := read_array entry_of_json.

(** The texts of a record are UTF-8, as every text PyGObject returns. *)
Definition event_text_ok (e : event_record) : bool :=
  valid_utf8 (summary e) && valid_utf8 (location e) && valid_utf8 (description e)
  && valid_utf8 (calendar e).

Definition entry_text_ok (c : calendar_entry) : bool :=
  valid_utf8 (entry_uid c) && valid_utf8 (entry_name c).

(** ** The shape of the printed values

    The spec's data model as JSON types: an [EventRecord] is an object
    with the six keys in this order, four strings and two integers; a
    calendar of [list-calendars.py] has [uid], [name] and [enabled]. *)
Unset Elimination Schemes.
Inductive jtype : Type :=
| TBool | TInt | TStr
| TArr (t : jtype)
| TObj (fields : list (string * jtype)).
Set Elimination Schemes.

Fixpoint has_type (t : jtype) (j : json) {struct t} : bool :=
  match t, j with
  | TBool, JBool _ | TInt, JInt _ | TStr, JStr _ => true
  | TArr t', JArr js => forallb (has_type t') js
  | TObj fs, JObj kvs =>
      (fix fields fs kvs :=
         match fs, kvs with
         | [], [] => true
         | (k, t') :: fs', (k', v) :: kvs' => key_is k' k && has_type t' v && fields fs' kvs'
         | _, _ => false
         end) fs kvs
  | _, _ => false
  end.

Definition event_record_type : jtype :=
  TObj [("summary", TStr); ("start", TInt); ("end", TInt); ("location", TStr);
        ("description", TStr); ("calendar", TStr)]%string.

Definition calendar_entry_type : jtype :=
  TObj [("uid", TStr); ("name", TStr); ("enabled", TBool)]%string.

(** ** Reading back what is printed *)

Lemma py_str_roundtrip s cs :
  py_str s = Some cs -> forallb is_scalar cs = true /\ utf8_encode cs = s.
Proof. intros H. apply utf8_encode_decode in H as [? ?]. auto. Qed.

Lemma key_is_str name : key_is (str name) name = true.
Proof. unfold key_is. now destruct (list_eq_dec Z.eq_dec (str name) (str name)). Qed.

(** Turn the UTF-8 checks of a record into its decoded texts. *)
Ltac decode_texts :=
  repeat match goal with
  | H : _ && _ = true |- _ => apply andb_true_iff in H as [? ?]
  | H : valid_utf8 ?s = true |- _ =>
      unfold valid_utf8 in H; let cs := fresh "cs" in let E := fresh "E" in
      destruct (utf8_decode s) as [cs|] eqn:E; [clear H|discriminate];
      apply py_str_roundtrip in E as [? ?]
  end.

Lemma event_json_ok e :
  event_text_ok e = true ->
  exists j, event_json e = Some j /\ wf_json j = true /\ event_of_json j = Some e.
Proof.
  destruct e as [su st en lo de ca]. unfold event_text_ok, event_json, py_str. cbn [summary
    location description calendar start end_]. intros H. decode_texts.
  repeat match goal with E : utf8_decode _ = Some _ |- _ => rewrite E end.
  eexists; split; [reflexivity|]. split.
  - cbn [wf_json forallb fst snd]. rewrite !andb_true_r. now apply andb_true_iff; split;
      repeat (apply andb_true_iff; split); (assumption || reflexivity).
  - cbn [event_of_json]. rewrite !key_is_str. cbn [andb]. congruence.
Qed.

Lemma entry_json_ok c :
  entry_text_ok c = true ->
  exists j, entry_json c = Some j /\ wf_json j = true /\ entry_of_json j = Some c.
Proof.
  destruct c as [u n b]. unfold entry_text_ok, entry_json, py_str.
  cbn [entry_uid entry_name entry_enabled]. intros H. decode_texts.
  repeat match goal with E : utf8_decode _ = Some _ |- _ => rewrite E end.
  eexists; split; [reflexivity|]. split.
  - cbn [wf_json forallb fst snd]. rewrite !andb_true_r.
    repeat (apply andb_true_iff; split); (assumption || reflexivity).
  - cbn [entry_of_json]. rewrite !key_is_str. cbn [andb]. congruence.
Qed.

Section Roundtrip.
Context {A : Type} (to_json : A -> option json) (of_json : json -> option A) (ok : A -> bool).
Hypothesis to_json_ok :
  forall x, ok x = true -> exists j, to_json x = Some j /\ wf_json j = true /\ of_json j = Some x.

Lemma map_option_roundtrip l :
  forallb ok l = true ->
  exists js, map_option to_json l = Some js /\ forallb wf_json js = true
             /\ map_option of_json js = Some l.
Proof.
  induction l as [|x l IH]; intros Hl; [exists []; auto|].
  apply andb_true_iff in Hl as [Hx Hl].
  destruct (to_json_ok x Hx) as (j & E & W & D), (IH Hl) as (js & E' & W' & D').
  exists (j :: js). cbn [map_option forallb]. rewrite E, E', W, W', D, D'. auto.
Qed.

(** The line printed for a list of valid values is read back as the list. *)
Lemma read_array_print l :
  forallb ok l = true ->
  exists out, option_map (fun js => print_line (dumps (JArr js))) (map_option to_json l) = Some out
              /\ read_array of_json out = Some l.
Proof.
  intros Hl. destruct (map_option_roundtrip l Hl) as (js & E & W & D).
  rewrite E. eexists; split; [reflexivity|]. unfold read_array.
  rewrite read_print_line by exact W. exact D.
Qed.

End Roundtrip.

(** ** The printed values have the spec's shape *)

Lemma map_option_forallb {A B} (f : A -> option B) (p : B -> bool) l js :
  (forall x y, f x = Some y -> p y = true) -> map_option f l = Some js -> forallb p js = true.
Proof.
  intros Hf. revert js; induction l as [|x l IH]; intros js; cbn [map_option].
  - now intros [= <-].
  - destruct (f x) as [y|] eqn:Ex, (map_option f l) as [ys|]; try discriminate.
    intros [= <-]. cbn [forallb]. now rewrite (Hf x y Ex), (IH ys eq_refl).
Qed.

Ltac decoded_texts :=
  repeat match goal with
  | |- context [utf8_decode ?s] =>
      let E := fresh "E" in destruct (utf8_decode s) eqn:E; [|discriminate];
      apply py_str_roundtrip in E as [? _]
  end.

Lemma event_json_typed e j :
  event_json e = Some j -> wf_json j = true /\ has_type event_record_type j = true.
Proof.
  destruct e as [su st en lo de ca]. unfold event_json, py_str. cbn [summary location description calendar start end_].
  decoded_texts. intros [= <-]. cbn [wf_json has_type forallb fst snd].
  split; [|reflexivity]. rewrite !andb_true_r.
  repeat (apply andb_true_iff; split); (assumption || reflexivity).
Qed.

Lemma entry_json_typed c j :
  entry_json c = Some j -> wf_json j = true /\ has_type calendar_entry_type j = true.
Proof.
  destruct c as [u n b]. unfold entry_json, py_str. cbn [entry_uid entry_name entry_enabled].
  decoded_texts. intros [= <-]. cbn [wf_json has_type forallb fst snd].
  split; [|reflexivity]. rewrite !andb_true_r.
  repeat (apply andb_true_iff; split); (assumption || reflexivity).
Qed.

(** A printed array of values of one type is read back as a value of the
    array type. *)
Lemma print_typed {A} (to_json : A -> option json) t l out :
  (forall x j, to_json x = Some j -> wf_json j = true /\ has_type t j = true) ->
  option_map (fun js => print_line (dumps (JArr js))) (map_option to_json l) = Some out ->
  exists j, json_read out = Some j /\ has_type (TArr t) j = true.
Proof.
  intros Ht. destruct (map_option to_json l) as [js|] eqn:M; [|discriminate].
  intros [= <-]. exists (JArr js). split.
  - apply (read_print_line (JArr js)). cbn [wf_json].
    exact (map_option_forallb _ _ _ _ (fun x j E => proj1 (Ht x j E)) M).
  - exact (map_option_forallb _ _ _ _ (fun x j E => proj2 (Ht x j E)) M).
Qed.

Section Scripts'.
Context `{CalendarBackend} `{TzDatabase} `{LocalZone}.

(** Every record the script prints has texts that decode: PyGObject
    converted them, and the display name of their calendar, to [str]. *)
Lemma calendar_events_texts start_time end_time evs :
  fst (calendar_events start_time end_time) = Ok evs -> forallb event_text_ok evs = true.
Proof.
  intros E. apply forallb_forall. intros ev Hin.
  destruct registry_new_sync as [reg|e] eqn:R;
    [|unfold calendar_events in E; rewrite R in E; discriminate].
  destruct (list_sources reg) as [sources|e] eqn:L;
    [|unfold calendar_events in E; rewrite R, L in E; discriminate].
  pose proof (calendar_events_names _ _ _ _ _ R L E) as N.
  destruct (calendar_events_origin _ _ _ _ _ _ R L E Hin)
    as (src & c & q & objs & o & Hsrc & _ & _ & _ & _ & _ & Ho).
  destruct (event_of_object_texts _ _ _ Ho) as [T C].
  unfold event_text_ok. rewrite T, C. cbn [andb].
  unfold names_ok in N. rewrite forallb_forall in N. exact (N src Hsrc).
Qed.

(** Every calendar [list-calendars.py] prints has texts that decode. *)
Lemma list_calendars_texts cs : list_calendars = Ok cs -> forallb entry_text_ok cs = true.
Proof.
  unfold list_calendars. destruct registry_new_sync as [reg|e]; [|discriminate]. cbn.
  destruct (list_sources reg) as [sources|e]; [|discriminate]. cbn.
  rewrite collect_calendars_spec. destruct (forallb entry_texts_ok _) eqn:T; [|discriminate].
  intros [= <-]. rewrite forallb_forall in T |- *. intros c Hc.
  apply in_map_iff in Hc as (src & <- & Hsrc). exact (T src Hsrc).
Qed.

(** C9: When [calendar-events.py] gets its list of records, the line it
    prints is read back by the widget as exactly these records, in order,
    their texts included. *)
Theorem calendar_events_stdout_read start_time end_time evs :
  fst (calendar_events start_time end_time) = Ok evs ->
  exists out, calendar_events_stdout start_time end_time = Some out
              /\ read_events out = Some evs.
Proof.
  intros E. unfold calendar_events_stdout. rewrite E.
  exact (read_array_print _ _ _ event_json_ok evs (calendar_events_texts _ _ _ E)).
Qed.

(** C11: Whatever the calendars hold, [calendar-events.py] writes to
    stdout nothing (it died) or one line that reads as a JSON array of
    [EventRecord]s: objects with the keys summary, start, end, location,
    description and calendar, in this order, the second and third
    integers and the others strings. *)
Theorem calendar_events_stdout_typed start_time end_time :
  exists out, calendar_events_stdout start_time end_time = Some out
  /\ (out = EmptyString
      \/ exists j, json_read out = Some j /\ has_type (TArr event_record_type) j = true).
Proof.
  unfold calendar_events_stdout. destruct (fst (calendar_events start_time end_time)) as [evs|e] eqn:E.
  - destruct (read_array_print _ _ _ event_json_ok evs (calendar_events_texts _ _ _ E))
      as (out & P & _).
    exists out. split; [exact P|]. right. exact (print_typed _ _ _ _ event_json_typed P).
  - exists EmptyString. auto.
Qed.

(** C12: The line [list-calendars.py] prints is read back as exactly the
    calendars it collected, in order. *)
Theorem list_calendars_stdout_read cs :
  list_calendars = Ok cs ->
  exists out, list_calendars_stdout = Some out /\ read_entries out = Some cs.
Proof.
  intros E. unfold list_calendars_stdout. rewrite E.
  exact (read_array_print _ _ _ entry_json_ok cs (list_calendars_texts cs E)).
Qed.

(** C13: [list-calendars.py] writes nothing (it died) or one line that
    reads as a JSON array of objects with the keys uid, name and enabled,
    in this order, two strings and a boolean. *)
Theorem list_calendars_stdout_typed :
  exists out, list_calendars_stdout = Some out
  /\ (out = EmptyString
      \/ exists j, json_read out = Some j /\ has_type (TArr calendar_entry_type) j = true).
Proof.
  unfold list_calendars_stdout. destruct list_calendars as [cs|e] eqn:E.
  - destruct (read_array_print _ _ _ entry_json_ok cs (list_calendars_texts cs E)) as (out & P & _).
    exists out. split; [exact P|]. right. exact (print_typed _ _ _ _ entry_json_typed P).
  - exists EmptyString. auto.
Qed.

(** C2: Against the spec's promise that one bad calendar is never fatal,
    a calendar whose display name is not UTF-8 ends [calendar-events.py]:
    line 63 converts the name outside the per-calendar [try], so the
    script dies of [UnicodeDecodeError] and prints nothing on stdout, the
    events of the other calendars included. *)
Theorem undecodable_name_fatal start_time end_time reg sources src :
  registry_new_sync = Ok reg -> list_sources reg = Ok sources ->
  In src sources -> valid_utf8 (display_name src) = false ->
  calendar_events_stdout start_time end_time = Some EmptyString.
Proof.
  intros R L Hin V. unfold calendar_events_stdout.
  destruct (fst (calendar_events start_time end_time)) as [out|e] eqn:E; [|reflexivity].
  pose proof (calendar_events_names _ _ _ _ _ R L E) as N.
  unfold names_ok in N. rewrite forallb_forall in N. now rewrite (N src Hin) in V.
Qed.

End Scripts'.

(** ** Concrete runs *)

#[local] Existing Instances demo_backend tzdb_wib local_wib.

(** The spec's example run prints
    [[{"summary": "Standup", "start": 1700003600, "end": 1700007200,
    "location": "", "description": "", "calendar": "Work"}]]. *)
Example spec_example_stdout :
  calendar_events_stdout 1700000000 1700086400
  = Some (print_line (str "[{" ++ [34] ++ str "summary" ++ [34] ++ str ": " ++ [34] ++ str "Standup"
      ++ [34] ++ str ", " ++ [34] ++ str "start" ++ [34] ++ str ": 1700003600, " ++ [34]
      ++ str "end" ++ [34] ++ str ": 1700007200, " ++ [34] ++ str "location" ++ [34] ++ str ": "
      ++ [34; 34] ++ str ", " ++ [34] ++ str "description" ++ [34] ++ str ": " ++ [34; 34]
      ++ str ", " ++ [34] ++ str "calendar" ++ [34] ++ str ": " ++ [34] ++ str "Work" ++ [34]
      ++ str "}]")).
Proof. vm_compute. reflexivity. Qed.

Lemma calendar_events_stdout_read_witness :
  fst (calendar_events 1700000000 1700086400)
    = Ok [mk_event "Standup" 1700003600 1700007200 "" "" "Work"]
  /\ exists out, calendar_events_stdout 1700000000 1700086400 = Some out
       /\ read_events out = Some [mk_event "Standup" 1700003600 1700007200 "" "" "Work"].
Proof.
  assert (E : fst (calendar_events 1700000000 1700086400)
              = Ok [mk_event "Standup" 1700003600 1700007200 "" "" "Work"])
    by (vm_compute; reflexivity).
  split; [exact E | exact (calendar_events_stdout_read _ _ _ E)].
Defined.

Lemma list_calendars_stdout_read_witness :
  list_calendars = Ok [mk_entry "work-uid" "Work" true; mk_entry "shared-uid" "Shared" true]
  /\ exists out, list_calendars_stdout = Some out
       /\ read_entries out
          = Some [mk_entry "work-uid" "Work" true; mk_entry "shared-uid" "Shared" true].
Proof.
  assert (E : list_calendars
              = Ok [mk_entry "work-uid" "Work" true; mk_entry "shared-uid" "Shared" true])
    by reflexivity.
  split; [exact E | exact (list_calendars_stdout_read _ E)].
Defined.

Lemma undecodable_name_fatal_witness :
  @registry_new_sync (fake_backend garbled_world) = Ok (tt : @registry (fake_backend garbled_world))
  /\ @list_sources (fake_backend garbled_world) tt = Ok [work; garbled_name]
  /\ In garbled_name [work; garbled_name] /\ valid_utf8 (display_name garbled_name) = false
  /\ @calendar_events_stdout (fake_backend garbled_world) _ _ 1700000000 1700086400
     = Some EmptyString.
Proof.
  assert (R : @registry_new_sync (fake_backend garbled_world)
              = Ok (tt : @registry (fake_backend garbled_world))) by reflexivity.
  assert (L : @list_sources (fake_backend garbled_world) tt = Ok [work; garbled_name])
    by reflexivity.
  assert (I : In garbled_name [work; garbled_name]) by (right; left; reflexivity).
  assert (V : valid_utf8 (display_name garbled_name) = false) by reflexivity.
  split; [exact R | split; [exact L | split; [exact I | split; [exact V|]]]].
  exact (@undecodable_name_fatal (fake_backend garbled_world) _ _ _ _ _ _ _ R L I V).
Defined.
