(* ===== verification/Argv.v ===== *)
(** * Argv: the command line of [calendar-events.py]

    Lines 14-15 read the range with [int(sys.argv[1])] and
    [int(sys.argv[2])], outside any [try]: a missing argument raises
    [IndexError] and a malformed one [ValueError], and the script dies
    before it prints anything on stdout.  An argument reaches [int()] as
    the [str] Python decodes from its bytes; [int()] of a [str] in base 10
    maps the decimal digits and spaces of every script to ASCII
    ([transform_decimal_and_space], over Unicode 15.0 tables), then
    ([PyLong_FromString]) skips surrounding whitespace, takes an optional
    sign, and reads decimal digits with single underscores between them,
    at most 4300 of them ([sys.int_info.default_max_str_digits]).

    [calendar_events_main] is the whole script from its argument vector to
    what it writes on stdout.  The theorems say that the integers the
    widget passes as [str(n)] are read back exactly up to 4300 digits,
    that a longer one or a missing argument prints nothing; concrete runs show digits of other scripts
    accepted and malformed arguments rejected. *)

From Stdlib Require Import ZArith String List Bool Lia.
From Stdlib Require Import DecimalString DecimalZ DecimalPos.
From Stdlib Require Decimal DecimalFacts.
From S2P Require Import Prelude Utf8 Json Civil ICalTime TimeNorm Backend Event Extractor Output.
Import ListNotations.
Open Scope Z_scope.
Open Scope list_scope.

(** [Py_ISSPACE]: space, tab, newline, vertical tab, form feed, return. *)
Definition py_isspace (c : Z) : bool := (c =? 32) || ((9 <=? c) && (c <=? 13)).

Definition is_digit (c : Z) : bool := (48 <=? c) && (c <=? 57).

Fixpoint skip_space (s : list Z) : list Z :=
  match s with
  | c :: r => if py_isspace c then skip_space r else s
  | [] => []
  end.

(** The digits after a first one: a digit, or an underscore followed by a
    digit; an underscore elsewhere ends the run. *)
Fixpoint digit_run (s : list Z) : list Z * list Z :=
  match s with
  | c :: r =>
      if is_digit c then cons_fst c (digit_run r)
      else if c =? 95 then
        match r with
        | d :: r' => if is_digit d then cons_fst d (digit_run r') else ([], s)
        | [] => ([], s)
        end
      else ([], s)
  | [] => ([], [])
  end.

(** The value of a run of decimal digits. *)
Definition digits_value (ds : list Z) : Z :=
  match NilEmpty.uint_of_string (text ds) with
  | Some u => Z.of_uint u
  | None => 0
  end.

Definition invalid_literal : PyExc := ValueError "invalid literal for int() with base 10".

(** [sys.int_info.default_max_str_digits]: since CPython 3.11 (and
    3.10.7), [int()] of a decimal string refuses more digits than this. *)
Definition max_str_digits : nat := 4300.

(** [_MAX_STR_DIGITS_ERROR_FMT_TO_INT], with the number of digits read. *)
Definition limit_error (n : nat) : PyExc :=
  ValueError ("Exceeds the limit (4300 digits) for integer string conversion: value has "
              ++ text (int_repr (Z.of_nat n))
              ++ " digits; use sys.set_int_max_str_digits() to increase the limit")%string.

(** [int(s)] for an ASCII string ([PyLong_FromString], base 10): an
    underscore that does not separate two digits is refused while the
    digits are scanned, then the number of digits (underscores apart) is
    checked against the limit, then only whitespace may follow. *)
Definition py_int_ascii (s : list Z) : exc Z :=
  let s1 := skip_space s in
  let '(neg, s2) :=
    match s1 with
    | c :: r => if c =? 45 then (true, r) else if c =? 43 then (false, r) else (false, s1)
    | [] => (false, [])
    end in
  match s2 with
  | d :: r =>
      if is_digit d then
        let '(ds, rest) := digit_run r in
        if match rest with c :: _ => c =? 95 | [] => false end then Raise invalid_literal
        else if Nat.ltb max_str_digits (length (d :: ds)) then Raise (limit_error (length (d :: ds)))
        else
          match skip_space rest with
          | [] => let v := digits_value (d :: ds) in Ok (if neg then - v else v)
          | _ :: _ => Raise invalid_literal
          end
      else Raise invalid_literal
  | [] => Raise invalid_literal
  end.

(** ** Unicode arguments

    [sys.argv] holds the arguments decoded from their bytes as UTF-8
    with [surrogateescape]: a byte that is not part of a valid sequence
    becomes a lone surrogate U+DC80..U+DCFF.  [int(s)]
    ([PyLong_FromUnicodeObject]) first runs
    [_PyUnicode_TransformDecimalAndSpaceToASCII]: a character below 127
    is kept, a Unicode space becomes a space, a decimal digit of any
    script becomes its ASCII digit, and any other character becomes [?]
    and ends the string; the ASCII result is then parsed as above.  The
    tables are those of Unicode 15.0 (CPython 3.12). *)

(** The first code point of every run of ten decimal digits
    (General_Category Nd), 68 runs. *)
Definition decimal_zeros : list Z :=
  [0x30; 0x660; 0x6F0; 0x7C0; 0x966; 0x9E6; 0xA66; 0xAE6; 0xB66; 0xBE6; 0xC66; 0xCE6;
   0xD66; 0xDE6; 0xE50; 0xED0; 0xF20; 0x1040; 0x1090; 0x17E0; 0x1810; 0x1946; 0x19D0;
   0x1A80; 0x1A90; 0x1B50; 0x1BB0; 0x1C40; 0x1C50; 0xA620; 0xA8D0; 0xA900; 0xA9D0;
   0xA9F0; 0xAA50; 0xABF0; 0xFF10; 0x104A0; 0x10D30; 0x11066; 0x110F0; 0x11136;
   0x111D0; 0x112F0; 0x11450; 0x114D0; 0x11650; 0x116C0; 0x11730; 0x118E0; 0x11950;
   0x11C50; 0x11D50; 0x11DA0; 0x11F50; 0x16A60; 0x16AC0; 0x16B50; 0x1D7CE; 0x1D7D8;
   0x1D7E2; 0x1D7EC; 0x1D7F6; 0x1E140; 0x1E2F0; 0x1E4F0; 0x1E950; 0x1FBF0].

(** [Py_UNICODE_TODECIMAL]: the value of a decimal digit. *)
Definition to_decimal (c : Z) : option Z :=
  match find (fun z => (z <=? c) && (c <? z + 10)) decimal_zeros with
  | Some z => Some (c - z)
  | None => None
  end.

(** [Py_UNICODE_ISSPACE] above ASCII: the characters of category Zs
    or of bidirectional class B, S or WS. *)
Definition unicode_isspace (c : Z) : bool :=
  (c =? 0x85) || (c =? 0xA0) || (c =? 0x1680) || ((0x2000 <=? c) && (c <=? 0x200A))
  || (c =? 0x2028) || (c =? 0x2029) || (c =? 0x202F) || (c =? 0x205F) || (c =? 0x3000).

(** [_PyUnicode_TransformDecimalAndSpaceToASCII] *)
Fixpoint transform_decimal_and_space (s : list Z) : list Z :=
  match s with
  | [] => []
  | c :: r =>
      if c <? 127 then c :: transform_decimal_and_space r
      else if unicode_isspace c then 32 :: transform_decimal_and_space r
      else match to_decimal c with
           | Some d => (48 + d) :: transform_decimal_and_space r
           | None => [63]
           end
  end.

(** The [str] of an argument: its UTF-8 decoding, or, for bytes that are
    not UTF-8, a string holding a lone surrogate; all [int()] needs to
    know of the latter is that it holds a character that is neither a
    digit nor a space. *)
Definition argv_str (arg : string) : option (list Z) := utf8_decode arg.

(** [int(sys.argv[i])] *)
Definition int_of_argv (arg : string) : exc Z :=
  match argv_str arg with
  | Some cs => py_int_ascii (transform_decimal_and_space cs)
  | None => Raise invalid_literal
  end.

(** Lines 14-15: [start_time = int(sys.argv[1])], then
    [end_time = int(sys.argv[2])]; [argv] holds the script's name first. *)
Definition parse_args (argv : list string) : exc (Z * Z) :=
  match nth_error argv 1 with
  | None => Raise (IndexError "list index out of range")
  | Some a1 =>
      match int_of_argv a1 with
      | Raise e => Raise e
      | Ok start_time =>
          match nth_error argv 2 with
          | None => Raise (IndexError "list index out of range")
          | Some a2 => (end_time <- int_of_argv a2 ;; Ok (start_time, end_time))%exc
          end
      end
  end.

Section Main.
Context `{CalendarBackend} `{TzDatabase} `{LocalZone}.

(** The script from its argument vector to its stdout: nothing when the
    arguments raise. *)
Definition calendar_events_main (argv : list string) : option string :=
  match parse_args argv with
  | Ok (start_time, end_time) => calendar_events_stdout start_time end_time
  | Raise _ => Some EmptyString
  end.

End Main.

(** ** Reading back [str(n)] *)

Lemma string_of_uint_digits u : forallb is_digit (str (NilEmpty.string_of_uint u)) = true.
Proof. induction u; exact IHu || reflexivity. Qed.

Lemma digit_run_digits ds : forallb is_digit ds = true -> digit_run ds = (ds, []).
Proof.
  induction ds as [|c ds IH]; [reflexivity|]. cbn [forallb digit_run].
  rewrite andb_true_iff. intros [-> Hds]. now rewrite IH.
Qed.

Lemma is_digit_not_space c : is_digit c = true -> py_isspace c = false.
Proof.
  unfold is_digit, py_isspace. intros H. zbool; cbn in *; try discriminate; try reflexivity; lia.
Qed.

(** [int()] of the digits of a positive number, with or without a minus
    sign: its value, unless it has more digits than the limit. *)
Lemma py_int_digits p sign :
  (sign = [] \/ sign = [45]) ->
  let ds := str (NilEmpty.string_of_uint (Pos.to_uint p)) in
  py_int_ascii (sign ++ ds)
  = if Nat.ltb max_str_digits (length ds) then Raise (limit_error (length ds))
    else Ok (match sign with [] => Zpos p | _ => Zneg p end).
Proof.
  intros Hs ds. subst ds. pose proof (string_of_uint_digits (Pos.to_uint p)) as D.
  assert (U : NilEmpty.uint_of_string (text (str (NilEmpty.string_of_uint (Pos.to_uint p))))
              = Some (Pos.to_uint p)) by (rewrite text_str; apply NilEmpty.usu).
  assert (V : Z.of_uint (Pos.to_uint p) = Zpos p)
    by (unfold Z.of_uint; now rewrite DecimalPos.Unsigned.of_to).
  destruct (str (NilEmpty.string_of_uint (Pos.to_uint p))) as [|d ds] eqn:E.
  { destruct (Pos.to_uint p); discriminate. }
  cbn [forallb] in D. apply andb_true_iff in D as [Dd Dds].
  unfold py_int_ascii. destruct Hs as [-> | ->]; cbn [app].
  - cbn [skip_space]. rewrite (is_digit_not_space d Dd).
    assert (N : (d =? 45) = false /\ (d =? 43) = false)
      by (unfold is_digit in Dd; split; zbool; cbn in Dd; try discriminate; reflexivity || lia).
    destruct N as [-> ->]. rewrite Dd, digit_run_digits by exact Dds.
    destruct (Nat.ltb _ _); [reflexivity|]. cbn [skip_space].
    unfold digits_value. now rewrite U, V.
  - change (skip_space (45 :: d :: ds)) with (45 :: d :: ds). cbn [Z.eqb Pos.eqb].
    rewrite Dd, digit_run_digits by exact Dds.
    destruct (Nat.ltb _ _); [reflexivity|]. cbn [skip_space].
    unfold digits_value. now rewrite U, V.
Qed.

Lemma string_of_uint_pos p :
  NilZero.string_of_uint (Pos.to_uint p) = NilEmpty.string_of_uint (Pos.to_uint p).
Proof.
  unfold NilZero.string_of_uint. destruct (Pos.to_uint p) eqn:P; try reflexivity.
  now apply DecimalPos.Unsigned.to_uint_nonnil in P.
Qed.

(** ** The number of digits of [str(n)] *)

Lemma usize_nb_digits d : DecimalPos.Unsigned.usize d = N.of_nat (Decimal.nb_digits d).
Proof. induction d; cbn [DecimalPos.Unsigned.usize Decimal.nb_digits]; rewrite ?IHd; lia. Qed.

Lemma length_str_uint u : length (str (NilEmpty.string_of_uint u)) = Decimal.nb_digits u.
Proof. induction u; cbn [NilEmpty.string_of_uint Decimal.nb_digits]; rewrite ?str_cons; cbn [length]; auto. Qed.

(** The leading digit of [Pos.to_uint p] is not zero, so [p] is at least
    [10 ^ (digits - 1)]. *)
Lemma pos_uint_lower p : 10 ^ Z.of_nat (pred (Decimal.nb_digits (Pos.to_uint p))) <= Zpos p.
Proof.
  pose proof (DecimalPos.Unsigned.of_to p) as E.
  pose proof (DecimalPos.Unsigned.to_of (Pos.to_uint p)) as U. rewrite E in U. cbn [N.to_uint] in U.
  pose proof (DecimalPos.Unsigned.to_uint_nonzero p) as NZ.
  destruct (Pos.to_uint p) as [|d|d|d|d|d|d|d|d|d|d]; cbn [Decimal.nb_digits pred].
  1: discriminate U.
  1: { exfalso. unfold Decimal.unorm in U. cbn [Decimal.nzhead] in U.
       destruct (Decimal.nzhead d) eqn:Z0; [injection U as ->; exact (NZ eq_refl)|..];
         pose proof (f_equal Decimal.nb_digits U) as L; pose proof (DecimalFacts.nb_digits_nzhead d) as L';
         rewrite Z0 in L'; cbn [Decimal.nb_digits] in L, L'; lia. }
  all: cbn [Pos.of_uint] in E; injection E as E;
    match type of E with Pos.of_uint_acc ?d ?k = _ =>
      pose proof (DecimalPos.Unsigned.of_uint_acc_rev d k) as R end;
    rewrite E, usize_nb_digits in R;
    apply (f_equal Z.of_N) in R; rewrite N2Z.inj_add, N2Z.inj_mul, N2Z.inj_pow, nat_N_Z in R;
    cbn [Z.of_N] in R; lia.
Qed.

(** [str(|n|)] has at most [k] digits when [|n| < 10 ^ k]. *)
Lemma int_repr_abs_length n k :
  (1 <= k)%nat -> Z.abs n < 10 ^ Z.of_nat k -> (length (int_repr (Z.abs n)) <= k)%nat.
Proof.
  intros Hk Hn. destruct n as [|p|p]; cbn [Z.abs] in *; [exact Hk| |];
    unfold int_repr; cbn [Z.to_int NilZero.string_of_int];
    rewrite string_of_uint_pos, length_str_uint; pose proof (pos_uint_lower p) as L;
    assert (Z.of_nat (pred (Decimal.nb_digits (Pos.to_uint p))) < Z.of_nat k)
      by (apply (Z.pow_lt_mono_r_iff 10); lia); lia.
Qed.

(** A timestamp [datetime] accepts is far below the limit on digits. *)
Lemma fromtimestamp_digits t c :
  fromtimestamp_utc t = Ok c -> (length (int_repr (Z.abs t)) <= max_str_digits)%nat.
Proof.
  intros E. apply int_repr_abs_length; [unfold max_str_digits; lia|].
  pose proof (fromtimestamp_abs_bound _ _ E) as B.
  eapply Z.lt_le_trans; [exact B|]. apply Z.pow_le_mono_r; unfold max_str_digits; lia.
Qed.

(** A string of characters below 127 goes through
    [_PyUnicode_TransformDecimalAndSpaceToASCII] unchanged. *)
Lemma transform_ascii cs :
  forallb (fun c => c <? 127) cs = true -> transform_decimal_and_space cs = cs.
Proof.
  induction cs as [|c cs IH]; [reflexivity|]. cbn [forallb transform_decimal_and_space].
  rewrite andb_true_iff. intros [-> H]. now rewrite IH.
Qed.

Lemma int_repr_below_127 n : forallb (fun c => c <? 127) (int_repr n) = true.
Proof.
  refine (forallb_impl _ _ _ _ (int_repr_num n)). intros c H.
  apply num_char_print in H. unfold is_print in H. apply Z.ltb_lt.
  apply andb_true_iff in H as [_ H]. apply Z.leb_le in H. lia.
Qed.

(** The [str] of the argument [str(n)] is [str(n)]. *)
Lemma argv_str_int_repr n : argv_str (text (int_repr n)) = Some (int_repr n).
Proof.
  apply utf8_decode_text.
  exact (forallb_impl _ _ _ (fun c H => print_ascii c (num_char_print c H)) (int_repr_num n)).
Qed.

(** [int()] reads back [str(n)], unless [n] has more digits than the
    limit. *)
Lemma int_of_argv_repr n :
  int_of_argv (text (int_repr n))
  = let k := length (int_repr (Z.abs n)) in
    if Nat.ltb max_str_digits k then Raise (limit_error k) else Ok n.
Proof.
  unfold int_of_argv. rewrite argv_str_int_repr, transform_ascii by apply int_repr_below_127.
  unfold int_repr. destruct n as [|p|p]; [reflexivity| |]; cbn [Z.abs Z.to_int NilZero.string_of_int].
  - rewrite string_of_uint_pos. exact (py_int_digits p [] (or_introl eq_refl)).
  - rewrite !string_of_uint_pos, str_cons. exact (py_int_digits p [45] (or_intror eq_refl)).
Qed.

Section MainSpec.
Context `{CalendarBackend} `{TzDatabase} `{LocalZone}.

(** C14: Run as the widget runs it, with [str(start)] and [str(end)] after
    the script's name (and whatever follows them), [calendar-events.py]
    prints what it prints for exactly that range whenever neither number
    has more than 4300 digits: [int()] reads back the integers the widget
    wrote. *)
Theorem calendar_events_main_args prog start_time end_time rest :
  (length (int_repr (Z.abs start_time)) <= max_str_digits)%nat ->
  (length (int_repr (Z.abs end_time)) <= max_str_digits)%nat ->
  calendar_events_main
    (prog :: text (int_repr start_time) :: text (int_repr end_time) :: rest)
  = calendar_events_stdout start_time end_time.
Proof.
  intros L1 L2. apply Nat.ltb_ge in L1, L2.
  unfold calendar_events_main, parse_args. cbn [nth_error].
  rewrite !int_of_argv_repr. cbv zeta. now rewrite L1, L2.
Qed.

(** C15: An argument [str(n)] of more than 4300 digits makes [int()]
    raise [ValueError] on lines 14-15: the script dies and prints
    nothing, whatever the other argument. *)
Theorem calendar_events_main_digit_limit prog start_time end_time rest :
  (max_str_digits < length (int_repr (Z.abs start_time))
   \/ max_str_digits < length (int_repr (Z.abs end_time)))%nat ->
  calendar_events_main
    (prog :: text (int_repr start_time) :: text (int_repr end_time) :: rest)
  = Some EmptyString.
Proof.
  intros Hl. unfold calendar_events_main, parse_args. cbn [nth_error].
  rewrite !int_of_argv_repr. cbv zeta.
  destruct Hl as [Hl|Hl]; apply Nat.ltb_lt in Hl; rewrite Hl; [reflexivity|].
  now destruct (Nat.ltb max_str_digits (length (int_repr (Z.abs start_time)))).
Qed.

(** C37: With fewer than two arguments after the script's name,
    [int(sys.argv[i])] raises before anything is printed ([IndexError],
    or the [ValueError] of a malformed first argument): the script's
    stdout is empty. *)
Theorem calendar_events_main_missing_arg argv :
  (length argv <= 2)%nat -> calendar_events_main argv = Some EmptyString.
Proof.
  intros Hl. unfold calendar_events_main, parse_args.
  destruct argv as [|prog [|a1 [|a2 r]]]; cbn [nth_error length] in *; try reflexivity.
  - now destruct (int_of_argv a1).
  - lia.
Qed.

End MainSpec.

(** ** Concrete runs *)

Open Scope string_scope.

#[local] Existing Instances demo_backend tzdb_wib local_wib.

Lemma calendar_events_main_missing_arg_witness :
  (length ["calendar-events.py"; "1700000000"] <= 2)%nat
  /\ calendar_events_main ["calendar-events.py"; "1700000000"] = Some EmptyString.
Proof.
  assert (L : (length ["calendar-events.py"; "1700000000"] <= 2)%nat) by (cbn; lia).
  split; [exact L | exact (calendar_events_main_missing_arg _ L)].
Defined.

Lemma calendar_events_main_args_witness :
  (length (int_repr (Z.abs 1700000000)) <= max_str_digits)%nat
  /\ (length (int_repr (Z.abs 1700086400)) <= max_str_digits)%nat
  /\ calendar_events_main ["calendar-events.py"; "1700000000"; "1700086400"]
     = calendar_events_stdout 1700000000 1700086400.
Proof.
  assert (H1 : (length (int_repr (Z.abs 1700000000)) <= max_str_digits)%nat)
    by (apply Nat.leb_le; vm_compute; reflexivity).
  assert (H2 : (length (int_repr (Z.abs 1700086400)) <= max_str_digits)%nat)
    by (apply Nat.leb_le; vm_compute; reflexivity).
  split; [exact H1 | split; [exact H2|]].
  exact (calendar_events_main_args "calendar-events.py" _ _ [] H1 H2).
Defined.

(** A start of 4301 digits, [10 ^ 4300]. *)
Lemma calendar_events_main_digit_limit_witness :
  (max_str_digits < length (int_repr (Z.abs (10 ^ 4300)))
   \/ max_str_digits < length (int_repr (Z.abs 1700086400)))%nat
  /\ calendar_events_main
       ["calendar-events.py"; text (int_repr (10 ^ 4300)); "1700086400"]
     = Some EmptyString.
Proof.
  assert (H : (max_str_digits < length (int_repr (Z.abs (10 ^ 4300)))
               \/ max_str_digits < length (int_repr (Z.abs 1700086400)))%nat)
    by (left; apply Nat.ltb_lt; vm_compute; reflexivity).
  split; [exact H|].
  exact (calendar_events_main_digit_limit "calendar-events.py" (10 ^ 4300) 1700086400 [] H).
Defined.

(** A fractional timestamp is not an [int()] literal: the script dies of
    [ValueError] and prints nothing. *)
Example fractional_timestamp_rejected :
  parse_args ["calendar-events.py"; "1700000000.5"; "1700086400"] = Raise invalid_literal
  /\ calendar_events_main ["calendar-events.py"; "1700000000.5"; "1700086400"] = Some EmptyString.
Proof. split; vm_compute; reflexivity. Qed.

(** The digits of other scripts are read as their values: Arabic-Indic
    [1700000000] (U+0661 U+0667 U+0660 ...) with a no-break space before
    it, and fullwidth [42]. *)
Example unicode_digits_accepted :
  int_of_argv (utf8_encode ([0xA0; 0x661; 0x667] ++ repeat 0x660 8)) = Ok 1700000000
  /\ int_of_argv (utf8_encode [0xFF14; 0xFF12]) = Ok 42.
Proof. split; vm_compute; reflexivity. Qed.

(** A byte that is not UTF-8, or a character that is neither a digit nor
    a space, makes [int()] raise [ValueError]. *)
Example malformed_argv_rejected :
  int_of_argv (String (Ascii.ascii_of_nat 255) "1") = Raise invalid_literal
  /\ int_of_argv (utf8_encode [49; 0x2160]) = Raise invalid_literal.
Proof. split; vm_compute; reflexivity. Qed.
