(* ===== verification/Programs.v ===== *)
(** * Programs: the three scripts from their start-up to their stdout

    [calendar_events_program] and [list_calendars_program] run the
    start-up statements of [GiEnv] (outside any [try]) before the code
    modelled in [Argv] and [ListCalendars]: an exception there ends the
    script with nothing on stdout.  Over one environment [py_env], the
    answer of [check-calendar.py] can then be compared with what the two
    other scripts do.  The theorem says what [available] guarantees:
    [list-calendars.py] gets past its imports, and so does
    [calendar-events.py] once the ICalGLib 3.0 typelib, which
    [check-calendar.py] does not ask for, loads as well. *)

From Stdlib Require Import String List Bool.
From S2P Require Import Prelude GiEnv CheckCalendar Backend ICalTime TimeNorm Extractor Output Argv.
Import ListNotations.
Open Scope string_scope.

Section Programs.
Context `{CalendarBackend} `{TzDatabase} `{LocalZone}.

(** [calendar-events.py], lines 1-141. *)
Definition calendar_events_program (env : py_env) (argv : list string) : option string :=
  match gi_startup env calendar_events_typelibs calendar_events_modules with
  | Raise _ => Some EmptyString
  | Ok _ => calendar_events_main argv
  end.

(** [list-calendars.py], lines 1-21. *)
Definition list_calendars_program (env : py_env) : option string :=
  match gi_startup env list_calendars_typelibs list_calendars_modules with
  | Raise _ => Some EmptyString
  | Ok _ => list_calendars_stdout
  end.

(** ** What [available] says of the environment *)

(** C38: When [check-calendar.py] prints [available], [list-calendars.py]
    gets past its start-up and prints what its body prints; so does
    [calendar-events.py] when, in addition, the ICalGLib 3.0 typelib is
    installed and imports. *)
Theorem available_programs_start env argv :
  check_calendar env = Printed "available" ->
  list_calendars_program env = list_calendars_stdout
  /\ (In ("ICalGLib", "3.0") (typelibs env) -> import_module env "ICalGLib" = Ok tt ->
      calendar_events_program env argv = calendar_events_main argv).
Proof.
  intros A. apply check_calendar_available, gi_startup_ok in A as (G & R & M).
  unfold check_calendar_typelibs, check_calendar_modules in R, M.
  inversion R as [|? ? Re R']; inversion R' as [|? ? Rc _].
  inversion M as [|? ? Mc M']; inversion M' as [|? ? Me _].
  split.
  - unfold list_calendars_program.
    replace (gi_startup _ _ _) with (Ok tt : exc unit); [reflexivity|]. symmetry.
    apply gi_startup_ok. repeat constructor; assumption.
  - intros Ri Mi. unfold calendar_events_program.
    replace (gi_startup _ _ _) with (Ok tt : exc unit); [reflexivity|]. symmetry.
    apply gi_startup_ok. repeat constructor; assumption.
Qed.

End Programs.

(** ** Concrete runs *)

#[local] Existing Instances demo_backend tzdb_wib local_wib.

(** [gi] and the three typelibs are installed and import. *)
Definition env_complete : py_env :=
  mk_env true [("EDataServer", "1.2"); ("ECal", "2.0"); ("ICalGLib", "3.0")] (fun _ => Ok tt).

Lemma available_programs_start_witness :
  check_calendar env_complete = Printed "available"
  /\ In ("ICalGLib", "3.0") (typelibs env_complete) /\ import_module env_complete "ICalGLib" = Ok tt
  /\ calendar_events_program env_complete ["calendar-events.py"; "1700000000"; "1700086400"]
     = calendar_events_main ["calendar-events.py"; "1700000000"; "1700086400"].
Proof.
  assert (A : check_calendar env_complete = Printed "available") by reflexivity.
  assert (I : In ("ICalGLib", "3.0") (typelibs env_complete)) by (right; right; left; reflexivity).
  assert (M : import_module env_complete "ICalGLib" = Ok tt) by reflexivity.
  split; [exact A | split; [exact I | split; [exact M|]]].
  exact (proj2 (available_programs_start env_complete _ A) I M).
Defined.
