(* ===== verification/Widget.v ===== *)
(** * Widget: the calendar widget's run of [calendar-events.py], end to end

    The shell widget runs [calendar-events.py <start> <end>] with the
    arguments written as [str(n)] and reads the JSON line it prints.
    Composed here: the start-up of [GiEnv] ([Programs]), the parsing of
    [sys.argv] ([Argv]), the source loop ([Extractor]) against the
    in-memory service ([FakeService]), the printed line ([Output], [Json])
    and the widget's reader.  The theorem says that what the widget reads
    is exactly the stable sort by start of the events, in the enabled
    calendars the script reaches, that overlap the requested range. *)

From Stdlib Require Import ZArith String List Bool Lia.
From S2P Require Import Prelude Utf8 Json Civil ICalTime TimeNorm Backend Query FakeBackend Event Sort.
From S2P Require Import Extractor FakeService Output Argv GiEnv CheckCalendar Programs.
Import ListNotations.
Open Scope Z_scope.

Section Widget.
Context `{TzDatabase} `{LocalZone}.

(** C16: When the environment has [gi] and the three typelibs, the
    service's registry opens, its calendar names decode and the years of
    the range are 1000..9999 (those [datetime] accepts and [%Y] writes
    with the spec's four digits), the widget that runs
    [calendar-events.py] with [str(start)] and [str(end)] reads back from
    its stdout exactly the stable sort by start of the records of the
    objects, in the enabled calendars the script can connect to, that
    overlap the range. *)
Theorem widget_reads_fake_events w env prog start_time end_time :
  gi_startup env calendar_events_typelibs calendar_events_modules = Ok tt ->
  fw_registry_error w = None -> names_ok (map fc_source (fw_calendars w)) = true ->
  1000 <= c_year (gmtime start_time) <= MAXYEAR -> 1000 <= c_year (gmtime end_time) <= MAXYEAR ->
  exists out,
    @calendar_events_program (fake_backend w) _ _ env
      [prog; text (int_repr start_time); text (int_repr end_time)] = Some out
    /\ read_events out = Some (sort_by start (fake_expected w start_time end_time)).
Proof.
  intros G Hw N K1 K2.
  assert (F1 : fromtimestamp_utc start_time = Ok (gmtime start_time))
    by (apply fromtimestamp_gmtime; unfold MINYEAR; lia).
  assert (F2 : fromtimestamp_utc end_time = Ok (gmtime end_time))
    by (apply fromtimestamp_gmtime; unfold MINYEAR; lia).
  pose proof (fromtimestamp_digits _ _ F1) as D1. pose proof (fromtimestamp_digits _ _ F2) as D2.
  apply Nat.ltb_ge in D1, D2.
  unfold calendar_events_program, calendar_events_main, parse_args.
  rewrite G. cbn [nth_error]. rewrite !int_of_argv_repr. cbv zeta. rewrite D1, D2. cbn [exc_bind].
  pose proof (fake_calendar_events w _ _ Hw N K1 K2) as E. unfold fake_instance in E.
  unfold calendar_events_stdout. rewrite E.
  exact (read_array_print _ _ _ event_json_ok _ (calendar_events_texts _ _ _ E)).
Qed.

End Widget.

(** ** Concrete runs *)

#[local] Existing Instances tzdb_wib local_wib.

Lemma widget_reads_fake_events_witness :
  gi_startup env_complete calendar_events_typelibs calendar_events_modules = Ok tt
  /\ fw_registry_error demo_world = None
  /\ names_ok (map fc_source (fw_calendars demo_world)) = true
  /\ 1000 <= c_year (gmtime 1700000000) <= MAXYEAR /\ 1000 <= c_year (gmtime 1700086400) <= MAXYEAR
  /\ exists out,
       @calendar_events_program (fake_backend demo_world) _ _ env_complete
         ["calendar-events.py"; text (int_repr 1700000000); text (int_repr 1700086400)] = Some out
       /\ read_events out = Some [mk_event "Standup" 1700003600 1700007200 "" "" "Work"].
Proof.
  assert (G : gi_startup env_complete calendar_events_typelibs calendar_events_modules = Ok tt)
    by reflexivity.
  assert (K1 : 1000 <= c_year (gmtime 1700000000) <= MAXYEAR) by (vm_compute; split; discriminate).
  assert (K2 : 1000 <= c_year (gmtime 1700086400) <= MAXYEAR) by (vm_compute; split; discriminate).
  assert (S : sort_by start (fake_expected demo_world 1700000000 1700086400)
              = [mk_event "Standup" 1700003600 1700007200 "" "" "Work"]) by (vm_compute; reflexivity).
  split; [exact G | split; [reflexivity | split; [reflexivity | split; [exact K1 | split; [exact K2|]]]]].
  rewrite <- S. exact (widget_reads_fake_events demo_world _ _ _ _ G eq_refl eq_refl K1 K2).
Defined.
